(** * Maro SKU system: the inventory and code-library API routes

    A shallow embedding of the route handlers that read and write the
    database:

      - [POST /api/inventory]                      (SKU allocation)
      - [GET /api/inventory], [GET /api/inventory/[sku]]
      - [DELETE /api/inventory/[sku]]
      - [POST /api/code-library/[category]]
      - [DELETE /api/code-library/[category]/[code]]
      - [POST /api/loyverse/sync]

    The database is a record of five tables (lists of rows).  Each handler is
    a function from the database and the request to a response and the
    database after the call.  The JavaScript built-ins the handlers call
    ([String], [slice], [padStart], [parseInt], [Math.max], [Date]) and the
    [LIKE] operator of SQLite, which the string filters of Prisma become,
    are modelled first. *)

From Stdlib Require Import ZArith List String Ascii Bool Lia QArith.
From Stdlib Require Import DecimalString.
Import ListNotations.

Local Open Scope string_scope.
Local Open Scope Z_scope.

(* ================================================================== *)
(** ** JavaScript built-ins *)

Module JS.

(** [String(n)] for an integer number. *)
Definition String_of_Z (n : Z) : string :=
  NilZero.string_of_int (Z.to_int n).

(** [s.slice(n)] for [n >= 0]: the string without its first [n] characters. *)
Fixpoint slice (n : nat) (s : string) : string :=
  match n, s with
  | O, _ => s
  | S _, EmptyString => EmptyString
  | S k, String _ r => slice k r
  end.

Fixpoint repeat_char (c : ascii) (n : nat) : string :=
  match n with
  | O => EmptyString
  | S k => String c (repeat_char c k)
  end.

(** [s.padStart(n, c)] with a one-character filler. *)
Definition padStart (n : nat) (c : ascii) (s : string) : string :=
  repeat_char c (n - String.length s) ++ s.

(** Numbers that may be [NaN]: [None] is [NaN]. *)
Definition number := option Z.

Definition is_digit (c : ascii) : bool :=
  let n := Z.of_nat (nat_of_ascii c) in (48 <=? n) && (n <=? 57).

Definition digit_val (c : ascii) : Z := Z.of_nat (nat_of_ascii c) - 48.

Definition is_space (c : ascii) : bool :=
  let n := nat_of_ascii c in
  (Nat.eqb n 32 || Nat.eqb n 9 || Nat.eqb n 10 || Nat.eqb n 11
   || Nat.eqb n 12 || Nat.eqb n 13)%bool.

Fixpoint skip_spaces (s : string) : string :=
  match s with
  | String c r => if is_space c then skip_spaces r else s
  | EmptyString => s
  end.

(** The digits at the front of [s], read in base 10 onto [acc]; [seen] tells
    whether a digit has been read. *)
Fixpoint read_digits (s : string) (seen : bool) (acc : Z) : number :=
  match s with
  | String c r =>
      if is_digit c then read_digits r true (10 * acc + digit_val c)
      else if seen then Some acc else None
  | EmptyString => if seen then Some acc else None
  end.

(** [parseInt(s, 10)]: leading white space, an optional sign, then the
    longest run of digits; [NaN] when there is no digit. *)
Definition parseInt (s : string) : number :=
  match skip_spaces s with
  | String "-" r => option_map Z.opp (read_digits r false 0)
  | String "+" r => read_digits r false 0
  | r => read_digits r false 0
  end.

(** [Math.max(x, ...xs)]: [NaN] as soon as one argument is [NaN]. *)
Fixpoint Math_max (x : number) (xs : list number) : number :=
  match xs with
  | [] => x
  | y :: r =>
      match x, Math_max y r with
      | Some a, Some b => Some (Z.max a b)
      | _, _ => None
      end
  end.

(** [String(x)] for a number that may be [NaN]. *)
Definition String_of_number (x : number) : string :=
  match x with
  | Some n => String_of_Z n
  | None => "NaN"
  end.

(** *** Date

    A [Date] holds a time value: milliseconds since the epoch in UTC, or
    [NaN] for an invalid date.  [new Date(s)] reads a string in the date
    time string format of ECMA-262 (21.4.1.32): the date-only forms [YYYY],
    [YYYY-MM] and [YYYY-MM-DD], also with an expanded year of six digits and
    a sign, each alone or followed by [T] and a time [HH:mm], [HH:mm:ss] or
    [HH:mm:ss.sss] and then by nothing, [Z] or an offset [+HH:mm] or
    [-HH:mm].  A date-only form is read as UTC, and a date with a time and
    no offset as local time.  A day up to 31 is accepted in every month and
    the days past the end of the month run into the next month, as V8 does.
    For a string outside the format the standard leaves the result to the
    implementation; it is an invalid date here.  The getters [getFullYear],
    [getMonth] and [getDate] read the local calendar date, that is the time
    value shifted by the offset of the local time zone of the server, taken
    as a fixed number of minutes east of UTC. *)

Definition msPerDay : Z := 86400000.
Definition msPerMinute : Z := 60000.

Definition InLeapYear (y : Z) : bool :=
  ((y mod 4 =? 0) && negb (y mod 100 =? 0)) || (y mod 400 =? 0).

Definition DaysInMonth (y m : Z) : Z :=
  if m =? 2 then (if InLeapYear y then 29 else 28)
  else if (m =? 4) || (m =? 6) || (m =? 9) || (m =? 11) then 30
  else 31.

(** Days from the epoch to the civil date [y]-[m]-[d] (proleptic Gregorian
    calendar), [m] in 1..12. *)
Definition days_from_civil (y m d : Z) : Z :=
  let y' := if m <=? 2 then y - 1 else y in
  let era := y' / 400 in
  let yoe := y' - era * 400 in
  let mp := if m <=? 2 then m + 9 else m - 3 in
  let doy := (153 * mp + 2) / 5 + d - 1 in
  let doe := yoe * 365 + yoe / 4 - yoe / 100 + doy in
  era * 146097 + doe - 719468.

(** Day of the 400-year era, year of the era and day of the (March-based)
    year of a day number. *)
Definition day_of_era (day : Z) : Z := (day + 719468) mod 146097.

Definition year_of_era (doe : Z) : Z :=
  (doe - doe / 1460 + doe / 36524 - doe / 146096) / 365.

Definition day_of_year (doe : Z) : Z :=
  let yoe := year_of_era doe in
  doe - (365 * yoe + yoe / 4 - yoe / 100).

Definition month_index (doy : Z) : Z := (5 * doy + 2) / 153.

(** The civil date [(year, month 1..12, day 1..31)] of a day number. *)
Definition civil_from_days (day : Z) : Z * Z * Z :=
  let era := (day + 719468) / 146097 in
  let doe := day_of_era day in
  let y := year_of_era doe + era * 400 in
  let doy := day_of_year doe in
  let mp := month_index doy in
  let d := doy - (153 * mp + 2) / 5 + 1 in
  let m := if mp <? 10 then mp + 3 else mp - 9 in
  (if m <=? 2 then y + 1 else y, m, d).

Definition two_digits (a b : ascii) : option Z :=
  if is_digit a && is_digit b then Some (10 * digit_val a + digit_val b)
  else None.

(** Two digits at the front of a string, and what follows them. *)
Definition read2 (s : string) : option (Z * string) :=
  match s with
  | String a (String b r) => option_map (fun n => (n, r)) (two_digits a b)
  | _ => None
  end.

(** Six digits. *)
Definition read6 (s : string) : option (Z * string) :=
  match read2 s with
  | Some (a, r) =>
      match read2 r with
      | Some (b, r') =>
          option_map (fun c => (10000 * a + 100 * b + fst c, snd c)) (read2 r')
      | None => None
      end
  | None => None
  end.

(** The year: four digits, or a sign and six digits ([-000000] is not a
    year). *)
Definition read_year (s : string) : option (Z * string) :=
  match s with
  | EmptyString => None
  | String sign r =>
      if Ascii.eqb sign "+" then read6 r
      else if Ascii.eqb sign "-" then
        match read6 r with
        | Some (y, r') => if y =? 0 then None else Some (- y, r')
        | None => None
        end
      else
        match read2 s with
        | Some (h, r') =>
            option_map (fun l => (100 * h + fst l, snd l)) (read2 r')
        | None => None
        end
  end.

(** The date-only forms: year, month and day (1 where the form has none)
    and what follows. *)
Definition read_date (s : string) : option (Z * Z * Z * string) :=
  match read_year s with
  | Some (y, String "-" r) =>
      match read2 r with
      | Some (m, String "-" r') =>
          match read2 r' with
          | Some (d, r'') =>
              if (1 <=? m) && (m <=? 12) && (1 <=? d) && (d <=? 31)
              then Some (y, m, d, r'')
              else None
          | None => None
          end
      | Some (m, r') =>
          if (1 <=? m) && (m <=? 12) then Some (y, m, 1, r') else None
      | None => None
      end
  | Some (y, r) => Some (y, 1, 1, r)
  | None => None
  end.

(** The seconds and milliseconds after [HH:mm], as milliseconds. *)
Definition read_seconds (s : string) : option (Z * string) :=
  match s with
  | String ":" r =>
      match read2 r with
      | Some (sec, String "." (String c r')) =>
          match read2 r' with
          | Some (ms, r'') =>
              if is_digit c && (sec <=? 59)
              then Some (1000 * sec + 100 * digit_val c + ms, r'')
              else None
          | None => None
          end
      | Some (sec, r') => if sec <=? 59 then Some (1000 * sec, r') else None
      | None => None
      end
  | _ => Some (0, s)
  end.

(** The time forms, as milliseconds of the day; [24:00:00.000] is the end
    of the day. *)
Definition read_time (s : string) : option (Z * string) :=
  match read2 s with
  | Some (h, String ":" r) =>
      match read2 r with
      | Some (mi, r') =>
          match read_seconds r' with
          | Some (ms, r'') =>
              if (mi <=? 59)
                 && ((h <=? 23) || ((h =? 24) && (mi =? 0) && (ms =? 0)))
              then Some (3600000 * h + 60000 * mi + ms, r'')
              else None
          | None => None
          end
      | None => None
      end
  | _ => None
  end.

(** The end of a date with a time: the offset of the time from UTC in
    minutes, which is [tz], the offset of the local time zone, where none
    is written. *)
Definition read_offset (tz : Z) (s : string) : option Z :=
  match s with
  | EmptyString => Some tz
  | String "Z" EmptyString => Some 0
  | String sign r =>
      match read2 r with
      | Some (h, String ":" r') =>
          match read2 r' with
          | Some (mi, EmptyString) =>
              if (h <=? 23) && (mi <=? 59)
              then if Ascii.eqb sign "+" then Some (60 * h + mi)
                   else if Ascii.eqb sign "-" then Some (- (60 * h + mi))
                   else None
              else None
          | _ => None
          end
      | _ => None
      end
  end.

(** [TimeClip]: a time value is at most 100,000,000 days from the epoch. *)
Definition TimeClip (t : Z) : number :=
  if Z.abs t <=? 8640000000000000 then Some t else None.

(** [new Date(s)]: the time value of a string, on a server whose local
    time is [tz] minutes east of UTC. *)
Definition Date_parse (tz : Z) (s : string) : number :=
  match read_date s with
  | Some (y, m, d, EmptyString) => TimeClip (days_from_civil y m d * msPerDay)
  | Some (y, m, d, String "T" r) =>
      match read_time r with
      | Some (ms, r') =>
          match read_offset tz r' with
          | Some off =>
              TimeClip (days_from_civil y m d * msPerDay + ms
                        - off * msPerMinute)
          | None => None
          end
      | None => None
      end
  | _ => None
  end.

(** The local calendar date of a time value, [tz] minutes east of UTC. *)
Definition local_civil (tz t : Z) : Z * Z * Z :=
  civil_from_days ((t + tz * msPerMinute) / msPerDay).

Definition getFullYear (tz : Z) (t : number) : number :=
  option_map (fun t => fst (fst (local_civil tz t))) t.

(** [getMonth] counts from 0. *)
Definition getMonth (tz : Z) (t : number) : number :=
  option_map (fun t => snd (fst (local_civil tz t)) - 1) t.

Definition getDate (tz : Z) (t : number) : number :=
  option_map (fun t => snd (local_civil tz t)) t.

(** [x + 1] on a number that may be [NaN]. *)
Definition succ (x : number) : number := option_map (fun n => n + 1) x.

End JS.

(* ================================================================== *)
(** ** The string filters of Prisma on SQLite *)

(** The database of the repository is SQLite: [DATABASE_URL] is a file in
    the README, and the seed script works around SQLite (the README names
    PostgreSQL for production, where [LIKE] tells the cases apart).  There
    the filters [startsWith] and [contains] of Prisma become the operator
    [LIKE], which compares the letters of ASCII without regard to case and
    reads [%] in the pattern as any run of characters and [_] as any one
    character; Prisma passes the value of the filter into the pattern as it
    is. *)
Module SQLite.

(** An upper-case letter of ASCII as its lower-case letter. *)
Definition lower (c : ascii) : ascii :=
  let n := nat_of_ascii c in
  if (Nat.leb 65 n && Nat.leb n 90)%bool then ascii_of_nat (n + 32) else c.

(** A string with its upper-case letters of ASCII in lower case. *)
Fixpoint fold_case (s : string) : string :=
  match s with
  | EmptyString => EmptyString
  | String c r => String (lower c) (fold_case r)
  end.

(** [s LIKE p]. *)
Fixpoint like (p s : string) {struct p} : bool :=
  match p with
  | EmptyString =>
      match s with EmptyString => true | String _ _ => false end
  | String c p' =>
      if Ascii.eqb c "%" then
        (fix any (s : string) : bool :=
           like p' s
           || match s with
              | EmptyString => false
              | String _ r => any r
              end) s
      else
        match s with
        | EmptyString => false
        | String d r =>
            (Ascii.eqb c "_" || Ascii.eqb (lower c) (lower d)) && like p' r
        end
  end.

End SQLite.

(** The filter [{ startsWith: p }]. *)
Definition startsWith (p s : string) : bool := SQLite.like (p ++ "%") s.

(** The filter [{ contains: sub }]. *)
Definition contains (sub s : string) : bool :=
  SQLite.like ("%" ++ sub ++ "%") s.

(* ================================================================== *)
(** ** The database *)

(** A row of [prisma.type] and of [prisma.pattern]. *)
Record CodeRow := mkCodeRow {
  code : string;
  name : string
}.

Record ColorRow := mkColorRow {
  color_code : string;
  color_name : string;
  hexValue : option string
}.

Record SizeRow := mkSizeRow {
  size_code : string;
  size_name : string;
  abbrev : string;
  sortOrder : Z
}.

(** A row of [prisma.inventory]: the columns the handlers write.  The flag
    of the synchronisation is false in a new row and its time is [null]
    ([None]).  The amounts are rationals: every finite JavaScript number is
    one. *)
Record Inventory := mkInventory {
  sku : string;
  typeCode : string;
  colorCode : string;
  patternCode : string;
  sizeCode : string;
  dateCode : string;
  sequenceNum : string;
  displayName : string;
  purchaseDate : JS.number;
  purchaseCost : Q;
  sellingPrice : Q;
  syncedToLoyverse : bool;
  loyverseSyncedAt : option Z
}.

(** Every model is looked up by one unique column: [code] in the four code
    libraries, [sku] in the inventory. *)
Class Model (A : Type) := key : A -> string.

#[global] Instance CodeRow_Model : Model CodeRow := code.
#[global] Instance ColorRow_Model : Model ColorRow := color_code.
#[global] Instance SizeRow_Model : Model SizeRow := size_code.
#[global] Instance Inventory_Model : Model Inventory := sku.

Section Table.
Context {A : Type} `{Model A}.

Definition keys (t : list A) : list string := map key t.

(** [model.findUnique({ where: { <key>: k } })]. *)
Definition findUnique (t : list A) (k : string) : option A :=
  find (fun r => String.eqb (key r) k) t.

(** Modelled from the spec: the schema [prisma/schema.prisma], which
    declares the unique columns, is not among the sources.  The
    specification makes the identifier the primary key of the ledger (an
    insert answers success or duplicate key) and a code unique within its
    category, and the handlers look rows up with [findUnique] on these
    columns.
    [model.create({ data: r })]: the unique column rejects a second row
    with the same key ([None] is the exception Prisma throws). *)
Definition create (t : list A) (r : A) : option (list A) :=
  match findUnique t (key r) with
  | Some _ => None
  | None => Some (t ++ [r])%list
  end.

(** [model.delete({ where: { <key>: k } })]: throws when there is no such
    row. *)
Definition delete (t : list A) (k : string) : option (list A) :=
  match findUnique t k with
  | Some _ => Some (filter (fun r => negb (String.eqb (key r) k)) t)
  | None => None
  end.

(** [model.update({ where: { <key>: k }, data })], [f] writing the data into
    the row: throws when there is no such row. *)
Definition update (t : list A) (k : string) (f : A -> A) : option (list A) :=
  match findUnique t k with
  | Some _ => Some (map (fun r => if String.eqb (key r) k then f r else r) t)
  | None => None
  end.
End Table.

Record DB := mkDB {
  types : list CodeRow;
  colors : list ColorRow;
  patterns : list CodeRow;
  sizes : list SizeRow;
  inventory : list Inventory
}.

Definition set_inventory (db : DB) (inv : list Inventory) : DB :=
  mkDB (types db) (colors db) (patterns db) (sizes db) inv.

(** What [NextResponse.json] sends: a body with a status, or
    [{ error }] with a status. *)
Inductive response (A : Type) : Type :=
| Json (status : Z) (body : A)
| JsonError (status : Z) (error : string).

Arguments Json {A} status body.
Arguments JsonError {A} status error.

(* ================================================================== *)
(** ** POST /api/inventory *)

(** The request body, as the form of the inventory page sends it: the
    codes and the date are strings, the amounts JSON numbers.  A code or
    date that is absent is the empty string (both are falsy, and the handler
    returns before it reads them); an amount that is absent or [null] is
    [None]. *)
Record InventoryBody := mkInventoryBody {
  body_typeCode : string;
  body_colorCode : string;
  body_patternCode : string;
  body_sizeCode : string;
  body_purchaseDate : string;
  body_purchaseCost : option Q;
  body_sellingPrice : option Q
}.

(** [!s] for a string and [!x] for an amount. *)
Definition falsy_string (s : string) : bool :=
  match s with EmptyString => true | _ => false end.

Definition falsy_amount (x : option Q) : bool :=
  match x with
  | None => true
  | Some q => (Qnum q =? 0)
  end.

Definition missing_fields (b : InventoryBody) : bool :=
  falsy_string (body_typeCode b) || falsy_string (body_colorCode b)
  || falsy_string (body_patternCode b) || falsy_string (body_sizeCode b)
  || falsy_string (body_purchaseDate b)
  || falsy_amount (body_purchaseCost b) || falsy_amount (body_sellingPrice b).

(** [parseFloat(x)] of a JSON number is the number. *)
Definition parseFloat (x : option Q) : Q :=
  match x with Some q => q | None => 0%Q end.

Definition pad2 (x : JS.number) : string :=
  JS.padStart 2 "0" (JS.String_of_number x).

(** Lines 70-74: the date code, [tz] being the offset of the server's local
    time zone in minutes east of UTC. *)
Definition dateCode_of (tz : Z) (purchaseDate : string) : string :=
  let date := JS.Date_parse tz purchaseDate in
  JS.slice 2 (JS.String_of_number (JS.getFullYear tz date))
  ++ pad2 (JS.succ (JS.getMonth tz date))
  ++ pad2 (JS.getDate tz date).

(** Line 77. *)
Definition baseKey (tz : Z) (b : InventoryBody) : string :=
  body_typeCode b ++ body_colorCode b ++ body_patternCode b
  ++ body_sizeCode b ++ dateCode_of tz (body_purchaseDate b).

(** Lines 80-92: the rows whose [sku] the filter [startsWith] accepts for
    the base key.  The
    [orderBy] is left out: the handler reads only the length of the result
    and the maximum over it. *)
Definition existingItems (k : string) (db : DB) : list Inventory :=
  filter (fun r => startsWith k (sku r)) (inventory db).

Definition maxSeq (items : list Inventory) : JS.number :=
  match map (fun item => JS.parseInt (sequenceNum item)) items with
  | [] => None
  | x :: xs => JS.Math_max x xs
  end.

(** [maxSeq >= 99], false on [NaN]. *)
Definition ge99 (x : JS.number) : bool :=
  match x with Some m => 99 <=? m | None => false end.

(** Lines 95-105: [None] is the early return of line 99. *)
Definition nextSequenceNum (items : list Inventory) : option string :=
  match items with
  | [] => Some "01"
  | _ :: _ =>
      if ge99 (maxSeq items) then None
      else Some (pad2 (JS.succ (maxSeq items)))
  end.

(** Modelled from the spec: the schema [prisma/schema.prisma] is not among
    the sources.  An inventory record holds its identifier, unique in the
    ledger, and its four attribute codes by reference.
    [prisma.inventory.create]: the primary key [sku] rejects a duplicate,
    the four foreign keys reject a code that has no row, and an invalid
    [Date] is not a value of a [DateTime] column. *)
Definition inventory_create (db : DB) (r : Inventory) : option DB :=
  match purchaseDate r,
        findUnique (types db) (typeCode r), findUnique (colors db) (colorCode r),
        findUnique (patterns db) (patternCode r),
        findUnique (sizes db) (sizeCode r) with
  | Some _, Some _, Some _, Some _, Some _ =>
      option_map (set_inventory db) (create (inventory db) r)
  | _, _, _, _, _ => None
  end.

Definition E_missing := "Missing required fields".
Definition E_exhausted :=
  "Maximum 99 items with same attributes per day reached".
Definition E_invalid_codes := "Invalid code(s) provided".
Definition E_create := "Failed to create inventory item".

(** Lines 49-126, everything before [prisma.inventory.create]: the row to
    insert, or the status and error of an early return. *)
Definition POST_prepare (tz : Z) (db : DB) (b : InventoryBody)
  : Inventory + Z * string :=
  if missing_fields b then inr (400, E_missing)
  else
    let dateCode := dateCode_of tz (body_purchaseDate b) in
    let baseKey := baseKey tz b in
    match nextSequenceNum (existingItems baseKey db) with
    | None => inr (400, E_exhausted)
    | Some sequenceNum =>
        let sku := baseKey ++ sequenceNum in
        match findUnique (types db) (body_typeCode b),
              findUnique (colors db) (body_colorCode b),
              findUnique (patterns db) (body_patternCode b),
              findUnique (sizes db) (body_sizeCode b) with
        | Some type, Some color, Some pattern, Some size =>
            let displayName :=
              name type ++ ", " ++ color_name color ++ " " ++ name pattern
              ++ ", " ++ abbrev size in
            inl (mkInventory sku (body_typeCode b) (body_colorCode b)
                   (body_patternCode b) (body_sizeCode b) dateCode
                   sequenceNum displayName
                   (JS.Date_parse tz (body_purchaseDate b))
                   (parseFloat (body_purchaseCost b))
                   (parseFloat (body_sellingPrice b)) false None)
        | _, _, _, _ => inr (400, E_invalid_codes)
        end
    end.

(** Lines 129-158: the insert, and the [catch] of an exception it throws. *)
Definition POST_commit (db : DB) (p : Inventory + Z * string)
  : DB * response Inventory :=
  match p with
  | inr (status, error) => (db, JsonError status error)
  | inl data =>
      match inventory_create db data with
      | Some db' => (db', Json 201 data)
      | None => (db, JsonError 500 E_create)
      end
  end.

(** The handler, run without another request in between. *)
Definition POST_inventory (tz : Z) (db : DB) (b : InventoryBody)
  : DB * response Inventory :=
  POST_commit db (POST_prepare tz db b).

(** Inserts of handlers that have each read the ledger at some earlier
    time, and so carry whatever row they prepared then, in the order in
    which they reach the database. *)
Fixpoint commit_all (db : DB) (ps : list (Inventory + Z * string))
  : DB * list (response Inventory) :=
  match ps with
  | [] => (db, [])
  | p :: rest =>
      let (db1, r) := POST_commit db p in
      let (db2, rs) := commit_all db1 rest in
      (db2, r :: rs)
  end.

(** ** DELETE /api/inventory/[sku] *)

Definition E_delete_item := "Failed to delete inventory item".

Definition DELETE_inventory (db : DB) (s : string) : DB * response unit :=
  match delete (inventory db) s with
  | Some inv => (set_inventory db inv, Json 200 tt)
  | None => (db, JsonError 500 E_delete_item)
  end.

(* ================================================================== *)
(** ** The code library *)

Inductive Category := Ctypes | Ccolors | Cpatterns | Csizes.

(** [['types', 'colors', 'patterns', 'sizes'].includes(category)] and the
    lookup in [modelMap]. *)
Definition category_of (s : string) : option Category :=
  if String.eqb s "types" then Some Ctypes
  else if String.eqb s "colors" then Some Ccolors
  else if String.eqb s "patterns" then Some Cpatterns
  else if String.eqb s "sizes" then Some Csizes
  else None.

(** The codes of one category. *)
Definition codes_of (c : Category) (db : DB) : list string :=
  match c with
  | Ctypes => keys (types db)
  | Ccolors => keys (colors db)
  | Cpatterns => keys (patterns db)
  | Csizes => keys (sizes db)
  end.

(** [fieldMap]: the inventory column that refers to a category. *)
Definition fieldMap (c : Category) : Inventory -> string :=
  match c with
  | Ctypes => typeCode
  | Ccolors => colorCode
  | Cpatterns => patternCode
  | Csizes => sizeCode
  end.

(** *** POST /api/code-library/[category] *)

(** The body; an absent [code], [name] or [abbrev] is the empty string. *)
Record CodeBody := mkCodeBody {
  body_code : string;
  body_name : string;
  body_hexValue : option string;
  body_abbrev : string
}.

Definition E_code_name := "Code and name are required".
Definition E_code_length := "Code must be exactly 2 characters".
Definition E_category := "Invalid category".
Definition E_code_exists := "Code already exists".
Definition E_add_code := "Failed to add code".

(** [x || y] on strings. *)
Definition or_string (x y : string) : string :=
  if falsy_string x then y else x.

(** [prisma.size.aggregate({ _max: { sortOrder: true } })]. *)
Definition max_sortOrder (t : list SizeRow) : option Z :=
  match map sortOrder t with
  | [] => None
  | x :: xs => Some (fold_left Z.max xs x)
  end.

Definition set_types (db : DB) (t : list CodeRow) : DB :=
  mkDB t (colors db) (patterns db) (sizes db) (inventory db).
Definition set_colors (db : DB) (t : list ColorRow) : DB :=
  mkDB (types db) t (patterns db) (sizes db) (inventory db).
Definition set_patterns (db : DB) (t : list CodeRow) : DB :=
  mkDB (types db) (colors db) t (sizes db) (inventory db).
Definition set_sizes (db : DB) (t : list SizeRow) : DB :=
  mkDB (types db) (colors db) (patterns db) t (inventory db).

(** [if (existing)]: is the result of a [findUnique] a row? *)
Definition found {A : Type} (x : option A) : bool :=
  match x with Some _ => true | None => false end.

(** Does [code] have a row in the category ([model.findUnique])? *)
Definition code_exists (c : Category) (db : DB) (k : string) : bool :=
  match c with
  | Ctypes => found (findUnique (types db) k)
  | Ccolors => found (findUnique (colors db) k)
  | Cpatterns => found (findUnique (patterns db) k)
  | Csizes => found (findUnique (sizes db) k)
  end.

(** The row a [create] of the code library returns. *)
Inductive CodeItem :=
| TypeItem (r : CodeRow)
| ColorItem (r : ColorRow)
| PatternItem (r : CodeRow)
| SizeItem (r : SizeRow).

(** Lines 58-81: the row to create in the category. *)
Definition code_item (c : Category) (db : DB) (b : CodeBody) : CodeItem :=
  match c with
  | Ccolors =>
      let hex := match body_hexValue b with
                 | Some h => if falsy_string h then None else Some h
                 | None => None
                 end in
      ColorItem (mkColorRow (body_code b) (body_name b) hex)
  | Csizes =>
      let top := match max_sortOrder (sizes db) with
                 | Some m => m
                 | None => 0
                 end in
      SizeItem (mkSizeRow (body_code b) (body_name b)
                  (or_string (body_abbrev b) (body_code b)) (top + 1))
  | Ctypes => TypeItem (mkCodeRow (body_code b) (body_name b))
  | Cpatterns => PatternItem (mkCodeRow (body_code b) (body_name b))
  end.

(** [model.create({ data })] on the table of the row. *)
Definition code_create (db : DB) (i : CodeItem) : option DB :=
  match i with
  | TypeItem r => option_map (set_types db) (create (types db) r)
  | ColorItem r => option_map (set_colors db) (create (colors db) r)
  | PatternItem r => option_map (set_patterns db) (create (patterns db) r)
  | SizeItem r => option_map (set_sizes db) (create (sizes db) r)
  end.

Definition POST_code (db : DB) (category : string) (b : CodeBody)
  : DB * response CodeItem :=
  if falsy_string (body_code b) || falsy_string (body_name b)
  then (db, JsonError 400 E_code_name)
  else if negb (Nat.eqb (String.length (body_code b)) 2)
  then (db, JsonError 400 E_code_length)
  else
    match category_of category with
    | None => (db, JsonError 400 E_category)
    | Some c =>
        if code_exists c db (body_code b)
        then (db, JsonError 400 E_code_exists)
        else
          let item := code_item c db b in
          match code_create db item with
          | Some db' => (db', Json 200 item)
          | None => (db, JsonError 500 E_add_code)
          end
    end.

(** *** DELETE /api/code-library/[category]/[code] *)

(** [prisma.inventory.count({ where: { <field>: code } })]. *)
Definition inUseCount (c : Category) (db : DB) (k : string) : Z :=
  Z.of_nat
    (List.length (filter (fun r => String.eqb (fieldMap c r) k) (inventory db))).

Definition E_in_use (n : Z) : string :=
  "Cannot delete: " ++ JS.String_of_Z n ++ " inventory item(s) use this code".
Definition E_delete_code := "Failed to delete code".

Definition code_delete (c : Category) (db : DB) (k : string) : option DB :=
  match c with
  | Ctypes => option_map (set_types db) (delete (types db) k)
  | Ccolors => option_map (set_colors db) (delete (colors db) k)
  | Cpatterns => option_map (set_patterns db) (delete (patterns db) k)
  | Csizes => option_map (set_sizes db) (delete (sizes db) k)
  end.

Definition DELETE_code (db : DB) (category k : string) : DB * response unit :=
  match category_of category with
  | None => (db, JsonError 400 E_category)
  | Some c =>
      if 0 <? inUseCount c db k
      then (db, JsonError 400 (E_in_use (inUseCount c db k)))
      else
        match code_delete c db k with
        | Some db' => (db', Json 200 tt)
        | None => (db, JsonError 500 E_delete_code)
        end
  end.

(* ================================================================== *)
(** ** Rows with their relations *)

(** A row of the inventory with the rows its four codes refer to. *)
Record ItemWithRelations := mkItemWithRelations {
  the_item : Inventory;
  the_type : CodeRow;
  the_color : ColorRow;
  the_pattern : CodeRow;
  the_size : SizeRow
}.

(** [include: { type: true, color: true, pattern: true, size: true }]: the
    four relations are required, and a row whose code has no row makes the
    query fail ([None]). *)
Definition include (db : DB) (r : Inventory) : option ItemWithRelations :=
  match findUnique (types db) (typeCode r),
        findUnique (colors db) (colorCode r),
        findUnique (patterns db) (patternCode r),
        findUnique (sizes db) (sizeCode r) with
  | Some t, Some c, Some p, Some z => Some (mkItemWithRelations r t c p z)
  | _, _, _, _ => None
  end.

(** All the relations of a list of rows, or [None] if one fails. *)
Fixpoint include_all (db : DB) (rs : list Inventory)
  : option (list ItemWithRelations) :=
  match rs with
  | [] => Some []
  | r :: rest =>
      match include db r, include_all db rest with
      | Some x, Some xs => Some (x :: xs)
      | _, _ => None
      end
  end.

(* ================================================================== *)
(** ** POST /api/loyverse/sync *)

(** What a [fetch] of the Loyverse API and the reading of its body come
    to: an exception of the request or of the reading, with the message the
    handler reports for it, a response that is not [ok], or a response that
    is [ok] with its data. *)
Inductive answer (A E : Type) : Type :=
| Throws (message : string)
| NotOk (e : E)
| Ok (a : A).

Arguments Throws {A E} message.
Arguments NotOk {A E} e.
Arguments Ok {A E} a.

(** The first item of a search, [searchData.items?.[0]]: its [id] and the
    [variant_id] of its first variant, the empty string where there is
    none. *)
Record ExistingItem := mkExistingItem {
  existing_id : string;
  existing_variant_id : string
}.

(** The body of the request the handler sends for an item: the fields that
    are not constants.  An absent [id], [category_id] or [variant_id] is
    [None]. *)
Record LoyverseItem := mkLoyverseItem {
  item_id : option string;
  item_name : string;
  item_sku : string;
  variant_id : option string;
  cost : Q;
  default_price : Q;
  store_id : string;
  category_id : option string
}.

(** The world outside the handler: the token of the environment (the empty
    string when it is not set), the answers of the Loyverse API to the
    requests of the handler, and the clock.  The handler asks for the
    categories at most once per item and for the clock once per item, so
    these take the identifier of the item. *)
Record Loyverse := mkLoyverse {
  apiToken : string;
  GET_stores : answer string unit;
  GET_categories : string -> answer (list (string * string)) unit;
  GET_items : string -> answer (option ExistingItem) unit;
  PUT_items : LoyverseItem -> answer unit string;
  POST_items : LoyverseItem -> answer unit string;
  now : string -> Z
}.

Record SyncResults := mkSyncResults {
  success : list string;
  errors : list (string * string)
}.

Definition E_token :=
  "Loyverse API token not configured. Add LOYVERSE_API_TOKEN to .env.local".
Definition E_no_skus := "No SKUs provided".
Definition E_no_items := "No items found".
Definition E_stores := "Failed to fetch Loyverse stores".
Definition E_no_store := "No Loyverse store found".
Definition E_sync := "Failed to sync to Loyverse".
Definition E_unknown := "Unknown error".

(** The message of the exception of [prisma.inventory.update] for a row
    that is not there (Prisma's P2025).  The rows the handler updates are
    rows it has just read, so this is for a row deleted in between. *)
Definition E_update := "Record to update not found.".

(** [s.toLowerCase()], on the letters of ASCII. *)
Definition toLowerCase (s : string) : string :=
  SQLite.fold_case s.

(** [categoryMap[typeName]]: the empty string where the object has no such
    property (the names of the properties every object inherits, such as
    [constructor], are not names of types here). *)
Definition categoryMap_get (m : list (string * string)) (typeName : string)
  : string :=
  match find (fun e => String.eqb (fst e) typeName) m with
  | Some e => snd e
  | None => EmptyString
  end.

(** Lines 101-125: the categories of the items by the name of their type;
    [None] when a request for the categories throws. *)
Fixpoint categoryMap_of (w : Loyverse) (items : list ItemWithRelations)
    (m : list (string * string)) : option (list (string * string)) :=
  match items with
  | [] => Some m
  | item :: rest =>
      let typeName := name (the_type item) in
      if falsy_string (categoryMap_get m typeName) then
        match GET_categories w (sku (the_item item)) with
        | Throws _ => None
        | NotOk _ => categoryMap_of w rest m
        | Ok categories =>
            match find (fun cat => String.eqb (toLowerCase (fst cat))
                                     (toLowerCase typeName)) categories with
            | Some cat => categoryMap_of w rest ((typeName, snd cat) :: m)
            | None => categoryMap_of w rest m
            end
        end
      else categoryMap_of w rest m
  end.

(** A string that may be absent, [None] when it is falsy. *)
Definition truthy (s : string) : option string :=
  if falsy_string s then None else Some s.

(** Lines 136-163. *)
Definition loyverseItem_of (storeId : string) (m : list (string * string))
    (item : ItemWithRelations) : LoyverseItem :=
  mkLoyverseItem None (displayName (the_item item)) (sku (the_item item))
    None (purchaseCost (the_item item)) (sellingPrice (the_item item))
    storeId (truthy (categoryMap_get m (name (the_type item)))).

(** Lines 182-187: the identifiers of the item Loyverse has. *)
Definition with_existing (l : LoyverseItem) (e : ExistingItem)
  : LoyverseItem :=
  mkLoyverseItem (Some (existing_id e)) (item_name l) (item_sku l)
    (match truthy (existing_variant_id e) with
     | Some v => Some v
     | None => variant_id l
     end)
    (cost l) (default_price l) (store_id l) (category_id l).

(** Lines 166-207: the request that creates or updates the item. *)
Definition syncResponse (w : Loyverse) (l : LoyverseItem)
  : answer unit string :=
  match GET_items w (item_sku l) with
  | Throws message => Throws message
  | Ok (Some e) => PUT_items w (with_existing l e)
  | Ok None | NotOk _ => POST_items w l
  end.

(** The data of line 213. *)
Definition mark_synced (at_ : Z) (r : Inventory) : Inventory :=
  mkInventory (sku r) (typeCode r) (colorCode r) (patternCode r) (sizeCode r)
    (dateCode r) (sequenceNum r) (displayName r) (purchaseDate r)
    (purchaseCost r) (sellingPrice r) true (Some at_).

(** Lines 133-232: the items one after the other, each in its own [try]. *)
Fixpoint sync_items (w : Loyverse) (storeId : string)
    (m : list (string * string)) (items : list ItemWithRelations)
    (db : DB) (results : SyncResults) : DB * SyncResults :=
  match items with
  | [] => (db, results)
  | item :: rest =>
      let s := sku (the_item item) in
      let failed e :=
        sync_items w storeId m rest db
          (mkSyncResults (success results) (errors results ++ [(s, e)])) in
      match syncResponse w (loyverseItem_of storeId m item) with
      | Ok _ =>
          match update (inventory db) s (mark_synced (now w s)) with
          | Some inv =>
              sync_items w storeId m rest (set_inventory db inv)
                (mkSyncResults (success results ++ [s]) (errors results))
          | None => failed E_update
          end
      | NotOk details => failed (or_string details E_unknown)
      | Throws message => failed message
      end
  end.

(** [{ sku: { in: skus } }]. *)
Definition sku_in (skus : list string) (r : Inventory) : bool :=
  existsb (String.eqb (sku r)) skus.

(** The handler; the body of the request has an array [skus] or none. *)
Definition POST_sync (w : Loyverse) (db : DB) (skus : option (list string))
  : DB * response SyncResults :=
  if falsy_string (apiToken w) then (db, JsonError 500 E_token)
  else
    match skus with
    | None | Some [] => (db, JsonError 400 E_no_skus)
    | Some skus =>
        match include_all db (filter (sku_in skus) (inventory db)) with
        | None => (db, JsonError 500 E_sync)
        | Some [] => (db, JsonError 404 E_no_items)
        | Some items =>
            match GET_stores w with
            | Throws _ => (db, JsonError 500 E_sync)
            | NotOk _ => (db, JsonError 500 E_stores)
            | Ok storeId =>
                if falsy_string storeId then (db, JsonError 500 E_no_store)
                else
                  match categoryMap_of w items [] with
                  | None => (db, JsonError 500 E_sync)
                  | Some m =>
                      let (db', results) :=
                        sync_items w storeId m items db
                          (mkSyncResults [] []) in
                      (db', Json 200 results)
                  end
            end
        end
    end.

(* ================================================================== *)
(** ** The seeded database ([prisma/seed.ts]) *)

Definition seed_types : list CodeRow :=
  [ mkCodeRow "SH" "Shirt"; mkCodeRow "BL" "Blouse"; mkCodeRow "DR" "Dress";
    mkCodeRow "SK" "Skirt"; mkCodeRow "PN" "Pants"; mkCodeRow "JN" "Jeans";
    mkCodeRow "JK" "Jacket"; mkCodeRow "CT" "Coat"; mkCodeRow "SW" "Sweater";
    mkCodeRow "TS" "T-Shirt"; mkCodeRow "TK" "Tank Top";
    mkCodeRow "ST" "Shorts"; mkCodeRow "JM" "Jumpsuit";
    mkCodeRow "RO" "Romper"; mkCodeRow "VT" "Vest"; mkCodeRow "CR" "Cardigan";
    mkCodeRow "HD" "Hoodie"; mkCodeRow "LG" "Leggings" ].

Definition seed_colors : list ColorRow :=
  [ mkColorRow "BK" "Black" (Some "#000000");
    mkColorRow "WT" "White" (Some "#FFFFFF");
    mkColorRow "GY" "Gray" (Some "#808080");
    mkColorRow "NV" "Navy" (Some "#000080");
    mkColorRow "BL" "Blue" (Some "#0000FF");
    mkColorRow "RD" "Red" (Some "#FF0000");
    mkColorRow "PK" "Pink" (Some "#FFC0CB");
    mkColorRow "PR" "Purple" (Some "#800080");
    mkColorRow "GN" "Green" (Some "#008000");
    mkColorRow "YL" "Yellow" (Some "#FFFF00");
    mkColorRow "OR" "Orange" (Some "#FFA500");
    mkColorRow "BR" "Brown" (Some "#8B4513");
    mkColorRow "BG" "Beige" (Some "#F5F5DC");
    mkColorRow "CR" "Cream" (Some "#FFFDD0");
    mkColorRow "TN" "Tan" (Some "#D2B48C");
    mkColorRow "MV" "Mauve" (Some "#E0B0FF");
    mkColorRow "TL" "Teal" (Some "#008080");
    mkColorRow "BU" "Burgundy" (Some "#800020");
    mkColorRow "MT" "Multi" None ].

Definition seed_patterns : list CodeRow :=
  [ mkCodeRow "SD" "Solid"; mkCodeRow "ST" "Striped"; mkCodeRow "PL" "Plaid";
    mkCodeRow "FL" "Floral"; mkCodeRow "DT" "Dotted";
    mkCodeRow "CK" "Checkered"; mkCodeRow "PR" "Printed";
    mkCodeRow "AB" "Abstract"; mkCodeRow "AN" "Animal Print";
    mkCodeRow "CM" "Camouflage"; mkCodeRow "PS" "Paisley";
    mkCodeRow "GE" "Geometric"; mkCodeRow "TY" "Tie-Dye";
    mkCodeRow "EM" "Embroidered"; mkCodeRow "LN" "Linen";
    mkCodeRow "DN" "Denim" ].

Definition seed_sizes : list SizeRow :=
  [ mkSizeRow "XS" "Extra Small" "XS" 1; mkSizeRow "SM" "Small" "S" 2;
    mkSizeRow "MD" "Medium" "M" 3; mkSizeRow "LG" "Large" "L" 4;
    mkSizeRow "XL" "Extra Large" "XL" 5; mkSizeRow "2X" "2X Large" "2XL" 6;
    mkSizeRow "3X" "3X Large" "3XL" 7; mkSizeRow "OS" "One Size" "OS" 8 ].

Definition seeded : DB :=
  mkDB seed_types seed_colors seed_patterns seed_sizes [].

(* ================================================================== *)
(** ** Histories of calls *)

Inductive call :=
| Allocate (b : InventoryBody)
| DeleteItem (s : string)
| AddCode (category : string) (b : CodeBody)
| DeleteCode (category k : string)
| Sync (w : Loyverse) (skus : option (list string)).

Definition step (tz : Z) (db : DB) (c : call) : DB :=
  match c with
  | Allocate b => fst (POST_inventory tz db b)
  | DeleteItem s => fst (DELETE_inventory db s)
  | AddCode category b => fst (POST_code db category b)
  | DeleteCode category k => fst (DELETE_code db category k)
  | Sync w skus => fst (POST_sync w db skus)
  end.

Definition run (tz : Z) (db : DB) (cs : list call) : DB :=
  fold_left (step tz) cs db.

(** A run of [Allocate] calls one after the other, with the responses. *)
Fixpoint allocate_all (tz : Z) (db : DB) (bs : list InventoryBody)
  : DB * list (response Inventory) :=
  match bs with
  | [] => (db, [])
  | b :: rest =>
      let (db1, r) := POST_inventory tz db b in
      let (db2, rs) := allocate_all tz db1 rest in
      (db2, r :: rs)
  end.

(** The rows the successful responses of a run returned. *)
Fixpoint created (rs : list (response Inventory)) : list Inventory :=
  match rs with
  | [] => []
  | Json _ item :: rest => item :: created rest
  | JsonError _ _ :: rest => created rest
  end.

(* ================================================================== *)
(** ** Invariants of the database and the words of the specification *)

(** The allocation key a row was issued under. *)
Definition allocationKey (r : Inventory) : string :=
  typeCode r ++ colorCode r ++ patternCode r ++ sizeCode r ++ dateCode r.

(** A row as the allocator writes it: the [sku] is the key followed by the
    sequence number, and the sequence number is 01..99 on two digits. *)
Definition row_ok (r : Inventory) : Prop :=
  sku r = allocationKey r ++ sequenceNum r
  /\ exists n, 1 <= n <= 99 /\ sequenceNum r = pad2 (Some n).

Definition ledger_ok (db : DB) : Prop :=
  NoDup (keys (inventory db)) /\ Forall row_ok (inventory db).

(** Every code of the library has two characters and is unique in its
    category. *)
Definition catalog_ok (db : DB) : Prop :=
  forall c, NoDup (codes_of c db)
            /\ Forall (fun k => String.length k = 2%nat) (codes_of c db).

Definition db_ok (db : DB) : Prop := ledger_ok db /\ catalog_ok db.

(** The last two characters of an identifier. *)
Definition trailing2 (s : string) : string :=
  JS.slice (String.length s - 2) s.

(** What the handler observes under a key: the trailing two characters of
    each identifier its query returns, parsed as integers. *)
Definition observed (k : string) (db : DB) : list JS.number :=
  map (fun r => JS.parseInt (trailing2 (sku r))) (existingItems k db).

(** The specification's reading of the ledger.  An identifier shares the
    key when its first characters equal the key, and the numbers under the
    key are the trailing two characters of each identifier that shares it,
    parsed as integers. *)
Definition shares_key (k : string) (r : Inventory) : bool :=
  String.prefix k (sku r).

Definition under_key (k : string) (db : DB) : list JS.number :=
  map (fun r => JS.parseInt (trailing2 (sku r)))
    (filter (shares_key k) (inventory db)).

(** A string without the wildcards [%] and [_] of [LIKE]. *)
Fixpoint plain (s : string) : bool :=
  match s with
  | EmptyString => true
  | String c r => negb (Ascii.eqb c "%") && negb (Ascii.eqb c "_") && plain r
  end.

(** No identifier of the ledger starts with the key written in another
    letter case. *)
Definition case_exact (k : string) (db : DB) : Prop :=
  forall r, In r (inventory db) ->
    String.prefix (SQLite.fold_case k) (SQLite.fold_case (sku r)) = true ->
    String.prefix k (sku r) = true.

(** [m] is the numeric maximum of the parsed integers [l]. *)
Definition numeric_max (l : list JS.number) (m : Z) : Prop :=
  In (Some m) l /\ forall x, In x l -> exists n, x = Some n /\ n <= m.

(** The rows of the ledger issued under the key [k]. *)
Definition issued_under (k : string) (db : DB) : list Inventory :=
  filter (fun r => String.eqb (allocationKey r) k) (inventory db).

(** What the synchronisation may do to a row: nothing, or set the flag and
    the time of the synchronisation. *)
Definition sync_only (r r' : Inventory) : Prop :=
  r' = r \/ exists t, r' = mark_synced t r.

(** Is a code of the request's four without a row in its category? *)
Definition unresolved (db : DB) (b : InventoryBody) : Prop :=
  findUnique (types db) (body_typeCode b) = None
  \/ findUnique (colors db) (body_colorCode b) = None
  \/ findUnique (patterns db) (body_patternCode b) = None
  \/ findUnique (sizes db) (body_sizeCode b) = None.

Definition resolved (db : DB) (b : InventoryBody) : Prop :=
  In (body_typeCode b) (codes_of Ctypes db)
  /\ In (body_colorCode b) (codes_of Ccolors db)
  /\ In (body_patternCode b) (codes_of Cpatterns db)
  /\ In (body_sizeCode b) (codes_of Csizes db).

(** The sequence numbers 01, 02, ..., on two digits. *)
Definition numerals (n : nat) : list string :=
  map (fun i => pad2 (Some (Z.of_nat i))) (seq 1 n).

(** A check of [P] on 0, 1, ..., 99. *)
Definition below100 (P : Z -> bool) : bool :=
  forallb P (map Z.of_nat (seq 0 100)).

(** The request of the specification's example. *)
Definition example_body : InventoryBody :=
  mkInventoryBody "DR" "BL" "FL" "MD" "2025-10-17" (Some (10 # 1)) (Some (20 # 1)).

(** The row the example request is given under the sequence number [n]. *)
Definition example_row (n : Z) : Inventory :=
  mkInventory ("DRBLFLMD251017" ++ pad2 (Some n)) "DR" "BL" "FL" "MD" "251017"
    (pad2 (Some n)) "Dress, Blue Floral, M" (Some 1760659200000)
    (10 # 1) (20 # 1) false None.

(** The seeded database with some rows of the example in the ledger. *)
Definition seeded_with (ns : list Z) : DB :=
  set_inventory seeded (map example_row ns).

(** The example with another type code and another color code. *)
Definition with_codes (t c : string) : InventoryBody :=
  mkInventoryBody t c "FL" "MD" "2025-10-17" (Some (10 # 1)) (Some (20 # 1)).

(** Did a call return a row? *)
Definition succeeded {A : Type} (r : response A) : bool :=
  match r with Json _ _ => true | JsonError _ _ => false end.

(** The example with other amounts, and the row it is given first. *)
Definition with_amounts (c p : option Q) : InventoryBody :=
  mkInventoryBody "DR" "BL" "FL" "MD" "2025-10-17" c p.

Definition first_row_with (c p : Q) : Inventory :=
  mkInventory "DRBLFLMD25101701" "DR" "BL" "FL" "MD" "251017" "01"
    "Dress, Blue Floral, M" (Some 1760659200000) c p false None.

(** The identifier a call returned, when it is an allocation that
    succeeded. *)
Definition returned (tz : Z) (db : DB) (c : call) : option string :=
  match c with
  | Allocate b =>
      match snd (POST_inventory tz db b) with
      | Json _ item => Some (sku item)
      | JsonError _ _ => None
      end
  | _ => None
  end.

(** The identifiers the allocations of a history returned, in the order of
    the calls. *)
Fixpoint returned_all (tz : Z) (db : DB) (cs : list call) : list string :=
  match cs with
  | [] => []
  | c :: rest =>
      match returned tz db c with
      | Some s => s :: returned_all tz (step tz db c) rest
      | None => returned_all tz (step tz db c) rest
      end
  end.

(** Is a call something else than the deletion of the item [s]? *)
Definition keeps (s : string) (c : call) : bool :=
  match c with
  | DeleteItem s' => negb (String.eqb s' s)
  | _ => true
  end.

(** The example on the day after. *)
Definition next_day_body : InventoryBody :=
  mkInventoryBody "DR" "BL" "FL" "MD" "2025-10-18" (Some (10 # 1)) (Some (20 # 1)).

(** A hundred times: the allocation of the example and the deletion of
    the item. *)
Definition past_the_cap : list call :=
  List.concat
    (repeat [Allocate example_body; DeleteItem "DRBLFLMD25101701"] 100).

(** The first twelve characters of a string. *)
Definition first12 (s : string) : string := substring 0 12 s.

(* ================================================================== *)
(** ** Further vocabulary: dates *)

(** The date-only ISO form of a day of the calendar with a year of four
    digits: what an [<input type="date">] sends and what the form's
    [new Date().toISOString().split('T')[0]] gives. *)
Definition iso_date (y m d : Z) : string :=
  JS.String_of_Z y ++ "-" ++ pad2 (Some m) ++ "-" ++ pad2 (Some d).

Definition valid_date (y m d : Z) : Prop :=
  1000 <= y <= 9999 /\ 1 <= m <= 12 /\ 1 <= d <= JS.DaysInMonth y m.

(** A check of [P] on 1000, 1001, ..., 9999. *)
Definition four_digits (P : Z -> bool) : bool :=
  forallb P (map (fun i => 1000 + Z.of_nat i) (seq 0 (90 * 100))).

(** The year [y] prints as four characters that read back as [y], the last
    two being [y mod 100] on two digits. *)
Definition year_prints (y : Z) : bool :=
  match JS.String_of_Z y with
  | String a (String b (String c (String e EmptyString))) =>
      match JS.two_digits a b, JS.two_digits c e with
      | Some h, Some l =>
          (h =? y / 100) && (l =? y mod 100)
          && String.eqb (String c (String e EmptyString))
               (pad2 (Some (y mod 100)))
      | _, _ => false
      end
  | _ => false
  end.

(** The number [n] prints on two digits that read back as [n]. *)
Definition two_digits_print (n : Z) : bool :=
  match pad2 (Some n) with
  | String a (String b EmptyString) =>
      match JS.two_digits a b with
      | Some k => k =? n
      | None => false
      end
  | _ => false
  end.

(** A request with another purchase date. *)
Definition with_date (b : InventoryBody) (s : string) : InventoryBody :=
  mkInventoryBody (body_typeCode b) (body_colorCode b) (body_patternCode b)
    (body_sizeCode b) s (body_purchaseCost b) (body_sellingPrice b).

(* ================================================================== *)
(** ** Further vocabulary: the database *)

(** Referential integrity: the four codes of every row of the inventory
    have a row in their category. *)
Definition row_refs_ok (db : DB) (r : Inventory) : Prop :=
  In (typeCode r) (codes_of Ctypes db)
  /\ In (colorCode r) (codes_of Ccolors db)
  /\ In (patternCode r) (codes_of Cpatterns db)
  /\ In (sizeCode r) (codes_of Csizes db).

Definition fk_ok (db : DB) : Prop := Forall (row_refs_ok db) (inventory db).

(** Is a call something else than [DELETE /api/inventory/[sku]]? *)
Definition keeps_rows (c : call) : bool :=
  match c with DeleteItem _ => false | _ => true end.

(** Is a call something else than [POST /api/loyverse/sync]? *)
Definition no_sync (c : call) : bool :=
  match c with Sync _ _ => false | _ => true end.

(** A Loyverse account with one store and the category of the dresses,
    which accepts every item, and a clock that stands still. *)
Definition example_world : Loyverse :=
  mkLoyverse "token" (Ok "store-1") (fun _ => Ok [("dress", "category-1")])
    (fun _ => Ok None) (fun _ => Ok tt) (fun _ => Ok tt)
    (fun _ => 1760700000000).

(** The rows of the code library as the handlers leave them: a size has an
    abbreviation, a color has a hex value or none (never the empty string),
    and no two sizes have the same rank. *)
Definition library_rows_ok (db : DB) : Prop :=
  Forall (fun z => abbrev z <> EmptyString) (sizes db)
  /\ Forall (fun c => hexValue c <> Some EmptyString) (colors db)
  /\ NoDup (map sortOrder (sizes db)).

(** The table of the category [c] is the same in [db] and [db']. *)
Definition same_table (c : Category) (db db' : DB) : Prop :=
  match c with
  | Ctypes => types db' = types db
  | Ccolors => colors db' = colors db
  | Cpatterns => patterns db' = patterns db
  | Csizes => sizes db' = sizes db
  end.

(* ================================================================== *)
(** ** GET /api/inventory/[sku] and GET /api/inventory *)

Definition E_not_found := "Item not found".
Definition E_fetch_item := "Failed to fetch inventory item".

(** [GET /api/inventory/[sku]]. *)
Definition GET_item (db : DB) (s : string) : response ItemWithRelations :=
  match findUnique (inventory db) s with
  | None => JsonError 404 E_not_found
  | Some r =>
      match include db r with
      | Some x => Json 200 x
      | None => JsonError 500 E_fetch_item
      end
  end.





(* ================================================================== *)
(** ** The page of the labels ([/print]) *)

Module PrintPage.

(** A [Set<string>]: its elements in the order of their insertion, each
    once. *)
Definition JSSet := list string.

Definition has (s : JSSet) (x : string) : bool := existsb (String.eqb x) s.

Definition add (s : JSSet) (x : string) : JSSet :=
  if has s x then s else (s ++ [x])%list.

Definition delete (s : JSSet) (x : string) : JSSet :=
  filter (fun y => negb (String.eqb y x)) s.

(** [new Set(l)]. *)
Definition new_Set (l : list string) : JSSet := fold_left add l [].

Definition size (s : JSSet) : nat := List.length s.

(** The state of the component: the items fetched from
    [GET /api/inventory], the selection, and the copies per identifier
    ([None] where the object has no such property). *)
Record State := mkState {
  items : list ItemWithRelations;
  selectedItems : JSSet;
  copies : string -> option Z
}.

Definition item_sku (x : ItemWithRelations) : string := sku (the_item x).

Definition initial : State := mkState [] [] (fun _ => None).

(** [fetchInventory], on the data of the response: the items, and one copy
    for each of them. *)
Definition fetched (st : State) (data : list ItemWithRelations) : State :=
  mkState data (selectedItems st)
    (fun k => if existsb (fun x => String.eqb (item_sku x) k) data
              then Some 1 else None).

Definition toggleSelect (st : State) (k : string) : State :=
  mkState (items st)
    (if has (selectedItems st) k then delete (selectedItems st) k
     else add (selectedItems st) k)
    (copies st).

Definition selectAll (st : State) : State :=
  mkState (items st)
    (if Nat.eqb (size (selectedItems st)) (List.length (items st)) then []
     else new_Set (map item_sku (items st)))
    (copies st).

(** [Math.max(1, Math.min(99, value))] under the key [k]. *)
Definition updateCopies (st : State) (k : string) (value : Z) : State :=
  mkState (items st) (selectedItems st)
    (fun k' => if String.eqb k' k then Some (Z.max 1 (Z.min 99 value))
               else copies st k').

(** [copies[item.sku] || 1]. *)
Definition copyCount (st : State) (x : ItemWithRelations) : Z :=
  match copies st (item_sku x) with
  | Some n => if n =? 0 then 1 else n
  | None => 1
  end.

(** Lines 73-81: the labels, each selected item as many times as it has
    copies. *)
Definition labels (st : State) : list ItemWithRelations :=
  flat_map (fun x => if has (selectedItems st) (item_sku x)
                     then repeat x (Z.to_nat (copyCount st x))
                     else [])
    (items st).

(** What happens on the page. *)
Inductive event :=
| Fetched (data : list ItemWithRelations)
| Toggle (k : string)
| SelectAll
| Copies (k : string) (value : Z).

Definition handle (st : State) (e : event) : State :=
  match e with
  | Fetched data => fetched st data
  | Toggle k => toggleSelect st k
  | SelectAll => selectAll st
  | Copies k value => updateCopies st k value
  end.

Definition after (es : list event) : State := fold_left handle es initial.

(** The items of the state that are selected. *)
Definition selected_items (st : State) : list ItemWithRelations :=
  filter (fun x => has (selectedItems st) (item_sku x)) (items st).

(** Every copy count that is set is between 1 and 99. *)
Definition copies_ok (st : State) : Prop :=
  forall k n, copies st k = Some n -> 1 <= n <= 99.

End PrintPage.

(** The item of the example under the sequence number [n], with its
    relations. *)
Definition example_item (n : Z) : ItemWithRelations :=
  mkItemWithRelations (example_row n) (mkCodeRow "DR" "Dress")
    (mkColorRow "BL" "Blue" (Some "#0000FF")) (mkCodeRow "FL" "Floral")
    (mkSizeRow "MD" "Medium" "M" 3).

(* ================================================================== *)
(** ** The seed script ([prisma/seed.ts]) *)

(** [model.upsert({ where: { code }, update: {}, create: r })]: a row with
    the code is left as it is, otherwise [r] is created. *)
Definition upsert {A : Type} `{Model A} (t : list A) (r : A) : list A :=
  match findUnique t (key r) with
  | Some _ => t
  | None => (t ++ [r])%list
  end.

(** [main]: the four loops of upserts. *)
Definition seed_main (db : DB) : DB :=
  mkDB (fold_left upsert seed_types (types db))
       (fold_left upsert seed_colors (colors db))
       (fold_left upsert seed_patterns (patterns db))
       (fold_left upsert seed_sizes (sizes db))
       (inventory db).

(* ================================================================== *)
(** ** The parts of an identifier *)

(** The characters of [s] from position [i], [n] of them. *)
Definition part (i n : nat) (s : string) : string := substring i n s.

(* ================================================================== *)
(** * Properties *)

(** ** The built-ins on examples *)

Example parseInt_09 : JS.parseInt "09" = Some 9.
Proof. reflexivity. Qed.

Example parseInt_junk : JS.parseInt "x1" = None.
Proof. reflexivity. Qed.

Example Date_parse_epoch : JS.Date_parse 0 "1970-01-01" = Some 0.
Proof. vm_compute. reflexivity. Qed.

Example Date_parse_2025 :
  option_map (JS.local_civil 0) (JS.Date_parse 0 "2025-10-17")
  = Some (2025, 10, 17).
Proof. vm_compute. reflexivity. Qed.

(** The thirtieth day of February is the second of March. *)
Example Date_parse_feb30 :
  JS.Date_parse 0 "2025-02-30" = JS.Date_parse 0 "2025-03-02".
Proof. vm_compute. reflexivity. Qed.

(** The date-time forms: with [Z] the time is UTC, and without an offset it
    is the local time of the server, here five hours behind UTC. *)
Example Date_parse_date_time :
  JS.Date_parse (-300) "2025-10-17T00:00:00.000Z" = Some 1760659200000
  /\ JS.Date_parse (-300) "2025-10-17T00:00" = Some 1760677200000
  /\ JS.Date_parse (-300) "2025" = Some 1735689600000
  /\ JS.Date_parse (-300) "17 October 2025" = None.
Proof. vm_compute. repeat split. Qed.

(** [LIKE] ignores the case of the letters of ASCII and has wildcards. *)
Example startsWith_examples :
  startsWith "DRBL" "DRBLFLMD25101701" = true
  /\ startsWith "DRbl" "DRBLFLMD25101701" = true
  /\ startsWith "DR_L" "DRBLFLMD25101701" = true
  /\ startsWith "DRBK" "DRBLFLMD25101701" = false
  /\ contains "dress" "Dress, Blue Floral, M" = true.
Proof. vm_compute. repeat split. Qed.

(* ================================================================== *)
(** ** Strings *)

Section Strings.

Lemma length_append (a b : string) :
  String.length (a ++ b) = (String.length a + String.length b)%nat.
Proof. induction a as [|c a IH]; simpl; [reflexivity | now rewrite IH]. Qed.

Lemma append_assoc (a b c : string) : (a ++ b) ++ c = a ++ (b ++ c).
Proof. induction a as [|x a IH]; simpl; [reflexivity | now rewrite IH]. Qed.

Lemma prefix_refl_append (k s : string) : String.prefix k (k ++ s) = true.
Proof.
  induction k as [|c k IH]; simpl.
  - now destruct s.
  - destruct (ascii_dec c c) as [_|n]; [exact IH | now destruct n].
Qed.

(** Two splittings of one string with tails of one length agree. *)
Lemma append_same_tail (a b x y : string) :
  a ++ x = b ++ y -> String.length x = String.length y -> a = b /\ x = y.
Proof.
  revert b. induction a as [|c a IH]; intros [|d b] E L; simpl in *.
  - now split.
  - exfalso. subst x. simpl in L. rewrite length_append in L. lia.
  - exfalso. subst y. simpl in L. rewrite length_append in L. lia.
  - injection E as -> E. destruct (IH _ E L) as [-> ->]. now split.
Qed.

Lemma length_repeat_char c n : String.length (JS.repeat_char c n) = n.
Proof. induction n; simpl; congruence. Qed.

Lemma length_padStart n c s :
  String.length (JS.padStart n c s) = Nat.max n (String.length s).
Proof.
  unfold JS.padStart. rewrite length_append, length_repeat_char. lia.
Qed.

Lemma length_slice n s :
  String.length (JS.slice n s) = (String.length s - n)%nat.
Proof.
  revert s. induction n as [|n IH]; intros [|c s]; simpl; auto.
Qed.


Lemma prefix_cons c d k s :
  String.prefix (String c k) (String d s) = Ascii.eqb c d && String.prefix k s.
Proof.
  simpl. destruct (ascii_dec c d) as [->|N].
  - now rewrite Ascii.eqb_refl.
  - apply Ascii.eqb_neq in N. now rewrite N.
Qed.

End Strings.

(** ** The operator LIKE *)

Section Like.



Lemma lower_lower c : SQLite.lower (SQLite.lower c) = SQLite.lower c.
Proof. destruct c as [[] [] [] [] [] [] [] []]; reflexivity. Qed.

Lemma length_fold_case s : String.length (SQLite.fold_case s) = String.length s.
Proof. induction s as [|c s IH]; simpl; congruence. Qed.

Lemma fold_case_append a b :
  SQLite.fold_case (a ++ b) = SQLite.fold_case a ++ SQLite.fold_case b.
Proof. induction a as [|c a IH]; simpl; congruence. Qed.

Lemma fold_case_fold_case s :
  SQLite.fold_case (SQLite.fold_case s) = SQLite.fold_case s.
Proof.
  induction s as [|c s IH]; simpl; [reflexivity|].
  now rewrite lower_lower, IH.
Qed.

(** The equations of [LIKE]: a pattern that starts with [%], and one that
    starts with another character. *)
Lemma like_percent p s :
  SQLite.like (String "%" p) s
  = SQLite.like p s
    || match s with
       | EmptyString => false
       | String _ r => SQLite.like (String "%" p) r
       end.
Proof. destruct s; reflexivity. Qed.

Lemma like_char c p s :
  Ascii.eqb c "%" = false ->
  SQLite.like (String c p) s
  = match s with
    | EmptyString => false
    | String d r =>
        (Ascii.eqb c "_" || Ascii.eqb (SQLite.lower c) (SQLite.lower d))
        && SQLite.like p r
    end.
Proof. intros E. simpl. now rewrite E. Qed.

Lemma like_all s : SQLite.like "%" s = true.
Proof.
  induction s as [|c s IH]; [reflexivity|].
  rewrite like_percent. rewrite IH. apply orb_true_r.
Qed.

(** A string that starts with the key is accepted by [startsWith],
    whatever the characters of the key. *)
Lemma startsWith_prefix k : forall s,
  String.prefix k s = true -> startsWith k s = true.
Proof.
  unfold startsWith. induction k as [|c k IH]; intros s P.
  - apply like_all.
  - destruct s as [|d s]; [discriminate|].
    rewrite prefix_cons in P. apply andb_prop in P. destruct P as [E P].
    apply Ascii.eqb_eq in E. subst d. specialize (IH s P).
    change (String c k ++ "%") with (String c (k ++ "%")).
    destruct (Ascii.eqb c "%") eqn:Ec.
    + apply Ascii.eqb_eq in Ec. subst c.
      rewrite like_percent, like_percent, IH.
      now rewrite orb_true_l, orb_true_r.
    + rewrite (like_char _ _ _ Ec), IH, Ascii.eqb_refl.
      now rewrite orb_true_r.
Qed.

Lemma startsWith_refl_append k s : startsWith k (k ++ s) = true.
Proof. apply startsWith_prefix, prefix_refl_append. Qed.

(** For a key without wildcards [startsWith] is the prefix test on the
    strings in lower case. *)
Lemma startsWith_plain k : forall s,
  plain k = true ->
  startsWith k s
  = String.prefix (SQLite.fold_case k) (SQLite.fold_case s).
Proof.
  unfold startsWith. induction k as [|c k IH]; intros s Pl.
  - rewrite like_all. now destruct s.
  - cbn [plain] in Pl. apply andb_prop in Pl. destruct Pl as [Pl Pk].
    apply andb_prop in Pl. destruct Pl as [Ep Eu].
    apply negb_true_iff in Ep, Eu.
    change (String c k ++ "%") with (String c (k ++ "%")).
    rewrite (like_char _ _ _ Ep). destruct s as [|d s]; [reflexivity|].
    cbn [SQLite.fold_case]. rewrite prefix_cons, Eu, (IH s Pk).
    reflexivity.
Qed.


Lemma like_fold_string p : forall s,
  SQLite.like p (SQLite.fold_case s) = SQLite.like p s.
Proof.
  induction p as [|c p IH]; intros s; [now destruct s|].
  destruct (Ascii.eqb c "%") eqn:Ec.
  - apply Ascii.eqb_eq in Ec. subst c.
    induction s as [|d s IHs].
    + reflexivity.
    + cbn [SQLite.fold_case].
      rewrite (like_percent p (String d s)),
        (like_percent p (String (SQLite.lower d) (SQLite.fold_case s))).
      rewrite <- IHs. f_equal. exact (IH (String d s)).
  - rewrite !(like_char _ _ _ Ec). destruct s as [|d s]; [reflexivity|].
    cbn [SQLite.fold_case]. now rewrite lower_lower, IH.
Qed.




End Like.

(** ** Decimal numerals of one and two digits *)

Section Numerals.

Lemma below100_spec (P : Z -> bool) :
  below100 P = true -> forall n, 0 <= n < 100 -> P n = true.
Proof.
  unfold below100. rewrite forallb_forall. intros H n Hn.
  apply H. rewrite in_map_iff. exists (Z.to_nat n). split; [lia|].
  apply in_seq. lia.
Qed.

Lemma parseInt_pad2 n : 0 <= n < 100 -> JS.parseInt (pad2 (Some n)) = Some n.
Proof.
  intros Hn.
  apply (below100_spec
           (fun n => match JS.parseInt (pad2 (Some n)) with
                     | Some m => m =? n
                     | None => false
                     end)) in Hn; [|now vm_compute].
  destruct (JS.parseInt (pad2 (Some n))); [|discriminate].
  apply Z.eqb_eq in Hn. now subst.
Qed.

Lemma length_pad2 n : 0 <= n < 100 -> String.length (pad2 (Some n)) = 2%nat.
Proof.
  intros Hn.
  apply (below100_spec
           (fun n => Nat.eqb (String.length (pad2 (Some n))) 2)) in Hn;
    [|now vm_compute].
  now apply Nat.eqb_eq in Hn.
Qed.

Lemma pad2_inj n m :
  0 <= n < 100 -> 0 <= m < 100 -> pad2 (Some n) = pad2 (Some m) -> n = m.
Proof.
  intros Hn Hm E. apply parseInt_pad2 in Hn, Hm. congruence.
Qed.

End Numerals.

(* ================================================================== *)
(** ** Tables *)

Section TableFacts.
Context {A : Type} `{Model A}.

Lemma findUnique_None (t : list A) k :
  findUnique t k = None <-> ~ In k (keys t).
Proof.
  unfold findUnique, keys. induction t as [|r t IH]; simpl.
  - tauto.
  - destruct (String.eqb_spec (key r) k) as [E|N].
    + split; [discriminate | intros N; exfalso; auto].
    + rewrite IH. tauto.
Qed.

Lemma findUnique_Some (t : list A) k r :
  findUnique t k = Some r -> In r t /\ key r = k.
Proof.
  unfold findUnique. intros F. apply find_some in F.
  destruct F as [I E]. now apply String.eqb_eq in E.
Qed.

Lemma findUnique_In (t : list A) k :
  In k (keys t) -> exists r, findUnique t k = Some r.
Proof.
  intros I. destruct (findUnique t k) as [r|] eqn:F; [now exists r|].
  now apply findUnique_None in F.
Qed.

Lemma keys_app (t u : list A) : keys (t ++ u) = (keys t ++ keys u)%list.
Proof. apply map_app. Qed.

(** A [create] that succeeds appends the row, and its key is new. *)
Lemma create_Some (t t' : list A) r :
  create t r = Some t' -> t' = (t ++ [r])%list /\ ~ In (key r) (keys t).
Proof.
  unfold create. destruct (findUnique t (key r)) eqn:F; [discriminate|].
  intros [= <-]. split; [reflexivity | now apply findUnique_None].
Qed.

Lemma create_fresh (t : list A) r :
  ~ In (key r) (keys t) -> create t r = Some (t ++ [r])%list.
Proof.
  intros N. unfold create. apply findUnique_None in N. now rewrite N.
Qed.

Lemma create_duplicate (t : list A) r :
  In (key r) (keys t) -> create t r = None.
Proof.
  intros I. unfold create. destruct (findUnique_In _ _ I) as [x ->].
  reflexivity.
Qed.

Lemma NoDup_keys_snoc (t : list A) r :
  NoDup (keys t) -> ~ In (key r) (keys t) -> NoDup (keys (t ++ [r])).
Proof.
  intros ND N. rewrite keys_app. simpl.
  apply NoDup_app; [assumption | repeat constructor; simpl; tauto |].
  intros x Ix [<-|[]]. contradiction.
Qed.

Lemma keys_filter_incl (f : A -> bool) (t : list A) :
  incl (keys (filter f t)) (keys t).
Proof.
  intros k I. unfold keys in *. apply in_map_iff in I.
  destruct I as [r [<- I]]. apply filter_In in I. apply in_map. tauto.
Qed.

Lemma NoDup_keys_filter (f : A -> bool) (t : list A) :
  NoDup (keys t) -> NoDup (keys (filter f t)).
Proof.
  unfold keys. induction t as [|r t IH]; simpl; intros ND.
  - constructor.
  - inversion ND as [|? ? N ND']; subst. destruct (f r); simpl.
    + constructor; [|auto]. intros I. apply N.
      now apply (keys_filter_incl f t).
    + auto.
Qed.

(** A [delete] that succeeds removes the rows of that key, and only
    them. *)
Lemma delete_Some (t t' : list A) k :
  delete t k = Some t' ->
  In k (keys t) /\ ~ In k (keys t')
  /\ t' = filter (fun r => negb (String.eqb (key r) k)) t.
Proof.
  unfold delete. destruct (findUnique t k) as [r|] eqn:F; [|discriminate].
  intros [= <-]. apply findUnique_Some in F. destruct F as [I E].
  split; [subst k; now apply in_map|]. split; [|reflexivity].
  intros I'. unfold keys in I'. apply in_map_iff in I'.
  destruct I' as [x [Ex Ix]]. apply filter_In in Ix.
  destruct Ix as [_ Ix]. rewrite <- Ex, String.eqb_refl in Ix. discriminate.
Qed.

(** Deleting the row that was appended last gives the table back. *)
Lemma delete_last (t : list A) r :
  ~ In (key r) (keys t) -> delete (t ++ [r]) (key r) = Some t.
Proof.
  intros N. unfold delete.
  destruct (findUnique (t ++ [r]) (key r)) eqn:F.
  - f_equal. rewrite filter_app. simpl. rewrite String.eqb_refl. simpl.
    rewrite app_nil_r. apply forallb_filter_id. apply forallb_forall.
    intros x Ix. destruct (String.eqb_spec (key x) (key r)) as [E|]; [|reflexivity].
    exfalso. apply N. rewrite <- E. now apply in_map.
  - apply findUnique_None in F. exfalso. apply F. rewrite keys_app.
    apply in_or_app. right. now left.
Qed.

End TableFacts.

(* ================================================================== *)
(** ** The next sequence number *)

Section NextSequence.

Lemma Math_max_Some (x : JS.number) (xs : list JS.number) :
  (forall y, In y (x :: xs) -> exists n, y = Some n) ->
  exists m, JS.Math_max x xs = Some m
            /\ In (Some m) (x :: xs)
            /\ forall n, In (Some n) (x :: xs) -> n <= m.
Proof.
  revert x. induction xs as [|y r IH]; intros x Hall.
  - destruct (Hall x (or_introl eq_refl)) as [n ->]. exists n. simpl.
    split; [reflexivity|]. split; [now left|].
    intros k [[= ->]|[]]. lia.
  - destruct (Hall x (or_introl eq_refl)) as [a ->].
    destruct (IH y) as [b [Eb [Ib Mb]]].
    { intros z Iz. apply Hall. now right. }
    exists (Z.max a b). cbn [JS.Math_max]. rewrite Eb.
    split; [reflexivity|]. split.
    + destruct (Z.max_spec a b) as [[_ ->]|[_ ->]]; [now right | now left].
    + intros n [[= ->]|In']; [lia|]. specialize (Mb _ In'). lia.
Qed.

(** The column [sequenceNum] of a well-formed row parses to its number. *)
Lemma row_ok_parse r :
  row_ok r ->
  exists n, 1 <= n <= 99 /\ sequenceNum r = pad2 (Some n)
            /\ JS.parseInt (sequenceNum r) = Some n.
Proof.
  intros [_ [n [Hn E]]]. exists n. repeat split; try tauto.
  rewrite E. apply parseInt_pad2. lia.
Qed.

Lemma maxSeq_ok (items : list Inventory) :
  Forall row_ok items -> items <> [] ->
  exists m, maxSeq items = Some m /\ 1 <= m <= 99
            /\ (exists r, In r items /\ JS.parseInt (sequenceNum r) = Some m)
            /\ forall r n, In r items ->
                           JS.parseInt (sequenceNum r) = Some n -> n <= m.
Proof.
  intros Hok Hne. destruct items as [|r0 rest]; [contradiction|].
  unfold maxSeq. cbn [map].
  set (f := fun item => JS.parseInt (sequenceNum item)).
  destruct (Math_max_Some (f r0) (map f rest)) as [m [Em [Im Mm]]].
  { intros y Iy. change (In y (map f (r0 :: rest))) in Iy.
    apply in_map_iff in Iy. destruct Iy as [r [<- Ir]].
    rewrite Forall_forall in Hok.
    destruct (row_ok_parse r (Hok r Ir)) as [n [_ [_ P]]]. now exists n. }
  exists m. split; [exact Em|].
  change (In (Some m) (map f (r0 :: rest))) in Im.
  apply in_map_iff in Im. destruct Im as [r [Er Ir]].
  split.
  - rewrite Forall_forall in Hok.
    destruct (row_ok_parse r (Hok r Ir)) as [n [Hn [_ P]]].
    unfold f in Er. congruence.
  - split; [now exists r|].
    intros r' n Ir' P. apply Mm.
    change (In (Some n) (map f (r0 :: rest))).
    apply in_map_iff. now exists r'.
Qed.

(** On well-formed rows the number issued is in 01..99 and is not the
    number of any of the rows. *)
Lemma nextSequenceNum_ok (items : list Inventory) s :
  Forall row_ok items -> nextSequenceNum items = Some s ->
  exists n, 1 <= n <= 99 /\ s = pad2 (Some n)
            /\ forall r, In r items -> sequenceNum r <> s.
Proof.
  intros Hok. destruct items as [|r0 rest] eqn:Ei.
  - intros [= <-]. exists 1. repeat split; [lia | lia | intros r []].
  - rewrite <- Ei in *. assert (Hne : items <> []) by (subst; discriminate).
    destruct (maxSeq_ok items Hok Hne) as [m [Em [Hm [_ Mm]]]].
    unfold nextSequenceNum. rewrite Ei, <- Ei, Em. cbn [ge99 JS.succ option_map].
    destruct (99 <=? m) eqn:C; [discriminate|]. apply Z.leb_gt in C.
    intros [= <-]. exists (m + 1). repeat split; try lia.
    intros r Ir E. rewrite Forall_forall in Hok.
    destruct (row_ok_parse r (Hok r Ir)) as [n [Hn [En P]]].
    specialize (Mm r n Ir P). rewrite En in E.
    apply pad2_inj in E; lia.
Qed.

(** With no error in sight the number is always issued. *)
Lemma nextSequenceNum_None (items : list Inventory) :
  nextSequenceNum items = None <->
  items <> [] /\ ge99 (maxSeq items) = true.
Proof.
  unfold nextSequenceNum. destruct items as [|r0 rest].
  - split; [discriminate | intros [N _]; contradiction].
  - destruct (ge99 (maxSeq (r0 :: rest))); split;
      try discriminate; try tauto.
    + intros _. split; [discriminate | reflexivity].
    + intros [_ F]. discriminate.
Qed.

End NextSequence.

(* ================================================================== *)
(** ** POST /api/inventory, step by step *)

Section Allocation.
Variable tz : Z.

(** What the handler has established when it reaches the insert. *)
Lemma POST_prepare_inl db b data :
  POST_prepare tz db b = inl data ->
  missing_fields b = false
  /\ nextSequenceNum (existingItems (baseKey tz b) db)
     = Some (sequenceNum data)
  /\ sku data = baseKey tz b ++ sequenceNum data
  /\ allocationKey data = baseKey tz b
  /\ resolved db b
  /\ typeCode data = body_typeCode b /\ colorCode data = body_colorCode b
  /\ patternCode data = body_patternCode b
  /\ sizeCode data = body_sizeCode b
  /\ purchaseDate data = JS.Date_parse tz (body_purchaseDate b)
  /\ purchaseCost data = parseFloat (body_purchaseCost b)
  /\ sellingPrice data = parseFloat (body_sellingPrice b).
Proof.
  unfold POST_prepare. destruct (missing_fields b); [discriminate|].
  destruct (nextSequenceNum _) as [s|] eqn:Es; [|discriminate].
  destruct (findUnique (types db) _) as [t|] eqn:Ft; [|discriminate].
  destruct (findUnique (colors db) _) as [c|] eqn:Fc; [|discriminate].
  destruct (findUnique (patterns db) _) as [p|] eqn:Fp; [|discriminate].
  destruct (findUnique (sizes db) _) as [z|] eqn:Fz; [|discriminate].
  intros [= <-]. cbn. repeat split; try reflexivity; unfold codes_of.
  - apply findUnique_Some in Ft. destruct Ft as [I <-]. now apply in_map.
  - apply findUnique_Some in Fc. destruct Fc as [I <-]. now apply in_map.
  - apply findUnique_Some in Fp. destruct Fp as [I <-]. now apply in_map.
  - apply findUnique_Some in Fz. destruct Fz as [I <-]. now apply in_map.
Qed.

Lemma resolved_find db b :
  resolved db b ->
  exists t c p z,
    findUnique (types db) (body_typeCode b) = Some t
    /\ findUnique (colors db) (body_colorCode b) = Some c
    /\ findUnique (patterns db) (body_patternCode b) = Some p
    /\ findUnique (sizes db) (body_sizeCode b) = Some z.
Proof.
  intros [It [Ic [Ip Iz]]]. unfold codes_of in *.
  destruct (findUnique_In _ _ It) as [t Ft].
  destruct (findUnique_In _ _ Ic) as [c Fc].
  destruct (findUnique_In _ _ Ip) as [p Fp].
  destruct (findUnique_In _ _ Iz) as [z Fz].
  now exists t, c, p, z.
Qed.

Lemma unresolved_not_resolved db b : unresolved db b -> ~ resolved db b.
Proof.
  intros U R. destruct (resolved_find db b R) as [t [c [p [z [Ft [Fc [Fp Fz]]]]]]].
  destruct U as [U|[U|[U|U]]]; congruence.
Qed.

(** The insert either appends the row under a new [sku] or changes
    nothing. *)
Lemma inventory_create_Some db data db' :
  inventory_create db data = Some db' ->
  db' = set_inventory db (inventory db ++ [data])
  /\ ~ In (sku data) (keys (inventory db)).
Proof.
  unfold inventory_create.
  destruct (purchaseDate data); [|discriminate].
  destruct (findUnique (types db) _); [|discriminate].
  destruct (findUnique (colors db) _); [|discriminate].
  destruct (findUnique (patterns db) _); [|discriminate].
  destruct (findUnique (sizes db) _); [|discriminate].
  destruct (create (inventory db) data) as [inv|] eqn:C; [|discriminate].
  intros [= <-]. apply create_Some in C. destruct C as [-> N]. now split.
Qed.

Lemma inventory_create_duplicate db data :
  In (sku data) (keys (inventory db)) -> inventory_create db data = None.
Proof.
  intros I. unfold inventory_create.
  destruct (purchaseDate data); [|reflexivity].
  destruct (findUnique (types db) _); [|reflexivity].
  destruct (findUnique (colors db) _); [|reflexivity].
  destruct (findUnique (patterns db) _); [|reflexivity].
  destruct (findUnique (sizes db) _); [|reflexivity].
  now rewrite (@create_duplicate Inventory Inventory_Model _ data I).
Qed.

(** The two outcomes of the insert phase, whatever was prepared. *)
Lemma POST_commit_cases db p db' r :
  POST_commit db p = (db', r) ->
  (db' = db /\ exists st e, r = JsonError st e)
  \/ (exists item, p = inl item /\ r = Json 201 item
                   /\ db' = set_inventory db (inventory db ++ [item])
                   /\ ~ In (sku item) (keys (inventory db))).
Proof.
  unfold POST_commit. destruct p as [data|[st e]].
  - destruct (inventory_create db data) as [d|] eqn:C; intros [= <- <-].
    + right. exists data. apply inventory_create_Some in C.
      destruct C as [-> N]. repeat split; auto.
    + left. split; [reflexivity|]. now exists 500, E_create.
  - intros [= <- <-]. left. split; [reflexivity|]. now exists st, e.
Qed.

Lemma POST_inventory_cases db b db' r :
  POST_inventory tz db b = (db', r) ->
  (db' = db /\ exists st e, r = JsonError st e)
  \/ (exists item, POST_prepare tz db b = inl item /\ r = Json 201 item
                   /\ db' = set_inventory db (inventory db ++ [item])
                   /\ ~ In (sku item) (keys (inventory db))).
Proof. apply POST_commit_cases. Qed.

Lemma POST_inventory_created db b db' st item :
  POST_inventory tz db b = (db', Json st item) ->
  st = 201 /\ POST_prepare tz db b = inl item
  /\ db' = set_inventory db (inventory db ++ [item])
  /\ ~ In (sku item) (keys (inventory db)).
Proof.
  intros E. destruct (POST_inventory_cases _ _ _ _ E)
    as [[_ [s [e F]]]|[i [P [[= -> ->] [D N]]]]]; [discriminate|].
  auto.
Qed.

(** A well-formed ledger holds no row with the identifier about to be
    issued. *)
Lemma next_sku_fresh db k s :
  Forall row_ok (inventory db) ->
  nextSequenceNum (existingItems k db) = Some s ->
  ~ In (k ++ s) (keys (inventory db)).
Proof.
  intros Hok Es I. unfold keys in I. apply in_map_iff in I.
  destruct I as [r [Er Ir]].
  assert (Ix : In r (existingItems k db)).
  { unfold existingItems. apply filter_In. split; [exact Ir|].
    change (key r) with (sku r) in Er.
    rewrite Er. apply startsWith_refl_append. }
  assert (Hx : Forall row_ok (existingItems k db)).
  { unfold existingItems. rewrite Forall_forall in *. intros x Hx.
    apply filter_In in Hx. apply Hok. tauto. }
  destruct (nextSequenceNum_ok _ _ Hx Es) as [n [Hn [En Hne]]].
  apply (Hne r Ix). rewrite Forall_forall in Hok.
  destruct (Hok r Ir) as [Hs [m [Hm Em]]].
  change (key r) with (sku r) in Er. rewrite Hs in Er.
  apply append_same_tail in Er; [tauto|].
  rewrite Em, En, !length_pad2; lia.
Qed.

(** The row the handler prepares is well formed. *)
Lemma POST_prepare_row_ok db b data :
  Forall row_ok (inventory db) ->
  POST_prepare tz db b = inl data -> row_ok data.
Proof.
  intros Hok P. apply POST_prepare_inl in P.
  destruct P as [_ [Es [Hs [Hk _]]]]. split; [congruence|].
  assert (Hx : Forall row_ok (existingItems (baseKey tz b) db)).
  { unfold existingItems. rewrite Forall_forall in *. intros x Hx.
    apply filter_In in Hx. apply Hok. tauto. }
  destruct (nextSequenceNum_ok _ _ Hx Es) as [n [Hn [En _]]].
  now exists n.
Qed.

(** Success: a request with all its fields, codes of the library and a
    date that parses is served unless the key is exhausted. *)
Lemma POST_inventory_succeeds db b s :
  Forall row_ok (inventory db) ->
  missing_fields b = false ->
  resolved db b ->
  JS.Date_parse tz (body_purchaseDate b) <> None ->
  nextSequenceNum (existingItems (baseKey tz b) db) = Some s ->
  exists item,
    POST_inventory tz db b
    = (set_inventory db (inventory db ++ [item]), Json 201 item)
    /\ POST_prepare tz db b = inl item
    /\ sku item = baseKey tz b ++ s /\ sequenceNum item = s.
Proof.
  intros Hok Hm Hr Hd Es.
  destruct (resolved_find db b Hr) as [t [c [p [z [Ft [Fc [Fp Fz]]]]]]].
  unfold POST_inventory, POST_prepare. rewrite Hm, Es, Ft, Fc, Fp, Fz.
  eexists. split; [|split; [reflexivity | split; reflexivity]].
  cbn [POST_commit]. unfold inventory_create. cbn.
  destruct (JS.Date_parse tz (body_purchaseDate b)); [|contradiction].
  rewrite Ft, Fc, Fp, Fz.
  rewrite create_fresh; [reflexivity|].
  cbn. now apply next_sku_fresh.
Qed.

End Allocation.

(* ================================================================== *)
(** ** The invariants hold in every reachable database *)

Section Invariants.
Variable tz : Z.

Lemma seeded_ok : db_ok seeded.
Proof.
  split.
  - split; [constructor | constructor].
  - intros c. split.
    + destruct c; cbn;
        repeat (constructor; [cbn; intuition discriminate|]); constructor.
    + destruct c; cbn; repeat (constructor; [reflexivity|]); constructor.
Qed.

Lemma POST_inventory_catalog db b c :
  codes_of c (fst (POST_inventory tz db b)) = codes_of c db.
Proof.
  destruct (POST_inventory tz db b) as [db' r] eqn:E.
  destruct (POST_inventory_cases _ _ _ _ _ E)
    as [[-> _]|[i [_ [_ [-> _]]]]]; now destruct c.
Qed.

Lemma POST_inventory_ledger_ok db b :
  ledger_ok db -> ledger_ok (fst (POST_inventory tz db b)).
Proof.
  intros [ND Hok]. destruct (POST_inventory tz db b) as [db' r] eqn:E.
  destruct (POST_inventory_cases _ _ _ _ _ E)
    as [[-> _]|[i [P [_ [-> N]]]]]; cbn; [now split|].
  split; cbn.
  - now apply NoDup_keys_snoc.
  - apply Forall_app. split; [assumption|]. constructor; [|constructor].
    now apply (POST_prepare_row_ok tz db b).
Qed.

Lemma DELETE_inventory_cases db s :
  (exists inv, delete (inventory db) s = Some inv
               /\ DELETE_inventory db s = (set_inventory db inv, Json 200 tt))
  \/ (delete (inventory db) s = None
      /\ DELETE_inventory db s = (db, JsonError 500 E_delete_item)).
Proof.
  unfold DELETE_inventory. destruct (delete (inventory db) s) as [inv|].
  - left. now exists inv.
  - now right.
Qed.

Lemma DELETE_inventory_catalog db s c :
  codes_of c (fst (DELETE_inventory db s)) = codes_of c db.
Proof.
  destruct (DELETE_inventory_cases db s) as [[inv [_ ->]]|[_ ->]];
    now destruct c.
Qed.

Lemma DELETE_inventory_ledger_ok db s :
  ledger_ok db -> ledger_ok (fst (DELETE_inventory db s)).
Proof.
  intros [ND Hok].
  destruct (DELETE_inventory_cases db s) as [[inv [D ->]]|[_ ->]];
    [|now split].
  apply delete_Some in D. destruct D as [_ [_ ->]]. split; cbn.
  - now apply NoDup_keys_filter.
  - rewrite Forall_forall in *. intros r Ir. apply filter_In in Ir.
    apply Hok. tauto.
Qed.

(** A table of the library after a [create] or a [delete] that
    succeeded. *)
Lemma create_catalog {A} `{Model A} (t t' : list A) r :
  create t r = Some t' -> String.length (key r) = 2%nat ->
  NoDup (keys t) /\ Forall (fun k => String.length k = 2%nat) (keys t) ->
  NoDup (keys t') /\ Forall (fun k => String.length k = 2%nat) (keys t').
Proof.
  intros C L [ND F]. apply create_Some in C. destruct C as [-> N]. split.
  - now apply NoDup_keys_snoc.
  - rewrite keys_app. apply Forall_app. split; [assumption|].
    now repeat constructor.
Qed.

Lemma delete_catalog {A} `{Model A} (t t' : list A) k :
  delete t k = Some t' ->
  NoDup (keys t) /\ Forall (fun k => String.length k = 2%nat) (keys t) ->
  NoDup (keys t') /\ Forall (fun k => String.length k = 2%nat) (keys t').
Proof.
  intros D [ND F]. apply delete_Some in D. destruct D as [_ [_ ->]]. split.
  - now apply NoDup_keys_filter.
  - rewrite Forall_forall in *. intros x Ix. apply F.
    revert Ix. apply keys_filter_incl.
Qed.

Lemma code_item_key c db b :
  match code_item c db b with
  | TypeItem r | PatternItem r => code r
  | ColorItem r => color_code r
  | SizeItem r => size_code r
  end = body_code b.
Proof. now destruct c. Qed.

Lemma code_create_ok db i db' :
  code_create db i = Some db' ->
  String.length
    match i with
    | TypeItem r | PatternItem r => code r
    | ColorItem r => color_code r
    | SizeItem r => size_code r
    end = 2%nat ->
  catalog_ok db -> catalog_ok db' /\ inventory db' = inventory db.
Proof.
  intros C L Hc.
  destruct i as [r|r|r|r]; cbn in C;
    match type of C with
    | option_map _ (create ?t ?r) = _ =>
        destruct (create t r) as [t'|] eqn:E; [|discriminate]
    end; injection C as <-; (split; [|reflexivity]);
    intros c; destruct c; cbn; try apply (Hc Ctypes);
    try apply (Hc Ccolors); try apply (Hc Cpatterns);
    try apply (Hc Csizes).
  - apply (create_catalog _ _ _ E L (Hc Ctypes)).
  - apply (create_catalog _ _ _ E L (Hc Ccolors)).
  - apply (create_catalog _ _ _ E L (Hc Cpatterns)).
  - apply (create_catalog _ _ _ E L (Hc Csizes)).
Qed.

Lemma POST_code_ok db category b :
  catalog_ok db ->
  catalog_ok (fst (POST_code db category b))
  /\ inventory (fst (POST_code db category b)) = inventory db.
Proof.
  intros Hc. unfold POST_code.
  destruct (falsy_string (body_code b) || falsy_string (body_name b));
    [now split|].
  destruct (Nat.eqb_spec (String.length (body_code b)) 2) as [L|L];
    cbn [negb]; [|now split].
  destruct (category_of category) as [c|]; [|now split].
  destruct (code_exists c db (body_code b)); [now split|].
  destruct (code_create db (code_item c db b)) as [db'|] eqn:C;
    [|now split].
  cbn [fst]. apply (code_create_ok _ _ _ C); [|assumption].
  now rewrite code_item_key.
Qed.

Lemma code_delete_ok c db k db' :
  code_delete c db k = Some db' ->
  catalog_ok db -> catalog_ok db' /\ inventory db' = inventory db.
Proof.
  intros D Hc.
  destruct c; cbn in D;
    match type of D with
    | option_map _ (delete ?t ?k) = _ =>
        destruct (delete t k) as [t'|] eqn:E; [|discriminate]
    end; injection D as <-; (split; [|reflexivity]);
    intros c; destruct c; cbn; try apply (Hc Ctypes);
    try apply (Hc Ccolors); try apply (Hc Cpatterns);
    try apply (Hc Csizes).
  - apply (delete_catalog _ _ _ E (Hc Ctypes)).
  - apply (delete_catalog _ _ _ E (Hc Ccolors)).
  - apply (delete_catalog _ _ _ E (Hc Cpatterns)).
  - apply (delete_catalog _ _ _ E (Hc Csizes)).
Qed.

Lemma DELETE_code_ok db category k :
  catalog_ok db ->
  catalog_ok (fst (DELETE_code db category k))
  /\ inventory (fst (DELETE_code db category k)) = inventory db.
Proof.
  intros Hc. unfold DELETE_code.
  destruct (category_of category) as [c|]; [|now split].
  destruct (0 <? inUseCount c db k); [now split|].
  destruct (code_delete c db k) as [db'|] eqn:D; [|now split].
  apply (code_delete_ok _ _ _ _ D Hc).
Qed.

(** *** The synchronisation writes two columns *)

Lemma sync_only_refl r : sync_only r r.
Proof. now left. Qed.

Lemma sync_only_trans r1 r2 r3 :
  sync_only r1 r2 -> sync_only r2 r3 -> sync_only r1 r3.
Proof.
  intros [->|[t ->]] [->|[u ->]].
  - now left.
  - right. now exists u.
  - right. now exists t.
  - right. now exists u.
Qed.

Lemma sync_only_all_refl (t : list Inventory) : Forall2 sync_only t t.
Proof. induction t; constructor; [apply sync_only_refl | assumption]. Qed.

Lemma sync_only_all_trans (t1 t2 t3 : list Inventory) :
  Forall2 sync_only t1 t2 -> Forall2 sync_only t2 t3 ->
  Forall2 sync_only t1 t3.
Proof.
  intros H. revert t3. induction H as [|a b t1 t2 Hab H IH]; intros t3 H3.
  - inversion H3. constructor.
  - inversion H3 as [|? c ? t3' Hbc H3']; subst. constructor.
    + now apply (sync_only_trans _ b).
    + now apply IH.
Qed.

Lemma update_mark_synced (t t' : list Inventory) k at_ :
  update t k (mark_synced at_) = Some t' -> Forall2 sync_only t t'.
Proof.
  unfold update. destruct (findUnique t k); [|discriminate].
  intros [= <-]. induction t as [|r t IH]; cbn [map]; constructor.
  - destruct (String.eqb (key r) k); [right; now exists at_ | now left].
  - exact IH.
Qed.

Lemma sync_items_rows w storeId m items : forall db results,
  exists inv,
    fst (sync_items w storeId m items db results) = set_inventory db inv
    /\ Forall2 sync_only (inventory db) inv.
Proof.
  induction items as [|item items IH]; intros db results;
    cbn [sync_items].
  - exists (inventory db). split; [now destruct db|].
    apply sync_only_all_refl.
  - destruct (syncResponse w (loyverseItem_of storeId m item)); try apply IH.
    destruct (update (inventory db) (sku (the_item item))
                (mark_synced (now w (sku (the_item item)))))
      as [inv1|] eqn:U; [|apply IH].
    destruct (IH (set_inventory db inv1)
                (mkSyncResults (success results ++ [sku (the_item item)])
                   (errors results))) as [inv [E F]].
    exists inv. split; [rewrite E; now destruct db|].
    apply (sync_only_all_trans _ inv1); [|exact F].
    now apply (update_mark_synced _ _ _ _ U).
Qed.

(** The handler leaves the code library as it is and writes to the rows
    of the inventory the flag and the time of the synchronisation only. *)
Lemma POST_sync_rows w db skus :
  exists inv,
    fst (POST_sync w db skus) = set_inventory db inv
    /\ Forall2 sync_only (inventory db) inv.
Proof.
  assert (Same : exists inv,
             db = set_inventory db inv
             /\ Forall2 sync_only (inventory db) inv).
  { exists (inventory db). split; [now destruct db|].
    apply sync_only_all_refl. }
  unfold POST_sync. destruct (falsy_string (apiToken w)); [exact Same|].
  destruct skus as [[|s skus]|]; try exact Same.
  destruct (include_all db (filter (sku_in (s :: skus)) (inventory db)))
    as [[|x items]|]; try exact Same.
  destruct (GET_stores w) as [?|?|storeId]; try exact Same.
  destruct (falsy_string storeId); [exact Same|].
  destruct (categoryMap_of w (x :: items) []) as [m|]; [|exact Same].
  destruct (sync_items_rows w storeId m (x :: items) db (mkSyncResults [] []))
    as [inv [E F]].
  destruct (sync_items w storeId m (x :: items) db (mkSyncResults [] []))
    as [db' results]. cbn [fst] in *. now exists inv.
Qed.

Lemma sync_only_keys (t t' : list Inventory) :
  Forall2 sync_only t t' -> keys t' = keys t.
Proof.
  induction 1 as [|r r' t t' Hr _ IH]; [reflexivity|].
  unfold keys in *. cbn [map]. rewrite IH. f_equal.
  now destruct Hr as [->|[at_ ->]].
Qed.

Lemma sync_only_row_ok r r' : sync_only r r' -> row_ok r -> row_ok r'.
Proof. now intros [->|[at_ ->]]. Qed.

Lemma sync_only_ledger_ok db inv :
  Forall2 sync_only (inventory db) inv ->
  ledger_ok db -> ledger_ok (set_inventory db inv).
Proof.
  intros F [ND Hok]. split; cbn [inventory set_inventory].
  - now rewrite (sync_only_keys _ _ F).
  - clear ND. induction F as [|r r' t t' Hr _ IH]; [constructor|].
    inversion Hok; subst. constructor; [|now apply IH].
    now apply (sync_only_row_ok r).
Qed.

Lemma POST_sync_ok w db skus :
  db_ok db -> db_ok (fst (POST_sync w db skus)).
Proof.
  intros [Hl Hc]. destruct (POST_sync_rows w db skus) as [inv [-> F]].
  split; [now apply sync_only_ledger_ok|].
  intros c. specialize (Hc c). now destruct c.
Qed.

Lemma ledger_ok_same db db' :
  inventory db' = inventory db -> ledger_ok db -> ledger_ok db'.
Proof. unfold ledger_ok. now intros ->. Qed.

Lemma catalog_ok_same db db' :
  (forall c, codes_of c db' = codes_of c db) ->
  catalog_ok db -> catalog_ok db'.
Proof. intros E Hc c. rewrite E. apply Hc. Qed.

Lemma step_ok db c : db_ok db -> db_ok (step tz db c).
Proof.
  intros [Hl Hc]. destruct c as [b|s|category b|category k|w skus];
    cbn [step]; [| | | |now apply POST_sync_ok].
  - split; [now apply POST_inventory_ledger_ok|].
    apply (catalog_ok_same db); [|assumption].
    intros c. apply POST_inventory_catalog.
  - split; [now apply DELETE_inventory_ledger_ok|].
    apply (catalog_ok_same db); [|assumption].
    intros c. apply DELETE_inventory_catalog.
  - destruct (POST_code_ok db category b Hc) as [Hc' Hi].
    split; [now apply (ledger_ok_same db) | assumption].
  - destruct (DELETE_code_ok db category k Hc) as [Hc' Hi].
    split; [now apply (ledger_ok_same db) | assumption].
Qed.

Lemma run_ok cs : forall db, db_ok db -> db_ok (run tz db cs).
Proof.
  unfold run. induction cs as [|c cs IH]; intros db H; cbn; [assumption|].
  apply IH. now apply step_ok.
Qed.

End Invariants.

(* ================================================================== *)
(** ** Uniqueness of identifiers *)

Section Uniqueness.
Variable tz : Z.

Lemma NoDup_app_disjoint {A} (l l' : list A) a :
  NoDup (l ++ l') -> In a l -> ~ In a l'.
Proof.
  induction l as [|x l IH]; cbn; intros ND I; [contradiction|].
  inversion ND as [|? ? N ND']; subst. destruct I as [->|I]; [|auto].
  intros I'. apply N. apply in_or_app. now right.
Qed.

(** A run of allocations appends the rows it returned, in order. *)
Lemma allocate_all_appends bs : forall db,
  inventory (fst (allocate_all tz db bs))
  = (inventory db ++ created (snd (allocate_all tz db bs)))%list
  /\ (NoDup (keys (inventory db)) ->
      NoDup (keys (inventory (fst (allocate_all tz db bs))))).
Proof.
  induction bs as [|b bs IH]; intros db; cbn [allocate_all].
  - cbn. rewrite app_nil_r. tauto.
  - destruct (POST_inventory tz db b) as [db1 r] eqn:E.
    specialize (IH db1).
    destruct (allocate_all tz db1 bs) as [db2 rs]. cbn [fst snd] in *.
    destruct IH as [IHa IHn].
    destruct (POST_inventory_cases _ _ _ _ _ E)
      as [[-> [st [e ->]]]|[i [_ [-> [-> N]]]]]; cbn [created].
    + tauto.
    + cbn [inventory set_inventory] in *. rewrite <- app_assoc in IHa.
      split; [exact IHa|]. intros ND. apply IHn.
      now apply NoDup_keys_snoc.
Qed.

(** A run of allocations is a history of [Allocate] calls. *)
Lemma allocate_all_run bs : forall db,
  fst (allocate_all tz db bs) = run tz db (map Allocate bs).
Proof.
  induction bs as [|b bs IH]; intros db; cbn [allocate_all]; [reflexivity|].
  destruct (POST_inventory tz db b) as [db1 r] eqn:E.
  specialize (IH db1). destruct (allocate_all tz db1 bs) as [db2 rs].
  cbn [fst map] in *. unfold run in *. cbn [fold_left step].
  now rewrite E.
Qed.

Lemma allocate_all_ok bs db :
  db_ok db -> db_ok (fst (allocate_all tz db bs)).
Proof. rewrite allocate_all_run. apply run_ok. Qed.

(** Inserts in any order, whatever the rows: the ledger gains the rows
    returned and its identifiers stay distinct. *)
Lemma commit_all_appends ps : forall db,
  inventory (fst (commit_all db ps))
  = (inventory db ++ created (snd (commit_all db ps)))%list
  /\ (NoDup (keys (inventory db)) ->
      NoDup (keys (inventory (fst (commit_all db ps))))).
Proof.
  induction ps as [|p ps IH]; intros db; cbn [commit_all].
  - cbn. rewrite app_nil_r. tauto.
  - destruct (POST_commit db p) as [db1 r] eqn:E.
    specialize (IH db1).
    destruct (commit_all db1 ps) as [db2 rs]. cbn [fst snd] in *.
    destruct IH as [IHa IHn].
    destruct (POST_commit_cases _ _ _ _ E)
      as [[-> [st [e ->]]]|[i [_ [-> [-> N]]]]]; cbn [created].
    + tauto.
    + cbn [inventory set_inventory] in *. rewrite <- app_assoc in IHa.
      split; [exact IHa|]. intros ND. apply IHn.
      now apply NoDup_keys_snoc.
Qed.

(** The insert of a handler that read the ledger before other requests
    wrote to it: whatever row it carries, the primary key keeps the
    identifiers of the ledger distinct. *)
Lemma POST_commit_unique db p :
  NoDup (keys (inventory db)) ->
  NoDup (keys (inventory (fst (POST_commit db p)))).
Proof.
  intros ND. destruct (POST_commit db p) as [db' r] eqn:E.
  destruct (POST_commit_cases _ _ _ _ E)
    as [[-> _]|[i [_ [_ [-> N]]]]]; cbn; [assumption|].
  now apply NoDup_keys_snoc.
Qed.

(** *** Identifiers in a history of calls *)

Lemma keys_filter_other (t : list Inventory) s s' :
  s' <> s -> In s (keys t) ->
  In s (keys (filter (fun r => negb (String.eqb (key r) s')) t)).
Proof.
  intros N I. unfold keys in *. apply in_map_iff in I.
  destruct I as [r [E I]]. apply in_map_iff. exists r. split; [exact E|].
  apply filter_In. split; [exact I|]. rewrite E.
  apply negb_true_iff, String.eqb_neq. congruence.
Qed.

(** What a call does to the identifiers of the ledger, when it is not the
    deletion of an item: it adds the identifier it returns. *)
Lemma step_keys db c :
  db_ok db -> keeps_rows c = true ->
  keys (inventory (step tz db c))
  = (keys (inventory db)
     ++ match returned tz db c with Some s => [s] | None => [] end)%list.
Proof.
  intros [_ Hc] K.
  destruct c as [b|s|category b|category k|w skus]; cbn [step returned];
    [| discriminate | | |].
  - destruct (POST_inventory tz db b) as [db' r] eqn:E.
    destruct (POST_inventory_cases _ _ _ _ _ E)
      as [[-> [st [e ->]]]|[i [_ [-> [-> _]]]]]; cbn [fst snd].
    + now rewrite app_nil_r.
    + cbn [inventory set_inventory]. now rewrite keys_app.
  - rewrite (proj2 (POST_code_ok db category b Hc)). now rewrite app_nil_r.
  - rewrite (proj2 (DELETE_code_ok db category k Hc)). now rewrite app_nil_r.
  - destruct (POST_sync_rows w db skus) as [inv [-> F]].
    cbn [inventory set_inventory].
    now rewrite (sync_only_keys _ _ F), app_nil_r.
Qed.

Lemma run_keys cs : forall db,
  db_ok db -> forallb keeps_rows cs = true ->
  keys (inventory (run tz db cs))
  = (keys (inventory db) ++ returned_all tz db cs)%list.
Proof.
  unfold run. induction cs as [|c cs IH]; intros db Hok K;
    cbn [fold_left returned_all].
  - now rewrite app_nil_r.
  - cbn [forallb] in K. apply andb_prop in K. destruct K as [Kc Kcs].
    rewrite (IH _ (step_ok tz db c Hok) Kcs), (step_keys db c Hok Kc).
    rewrite <- app_assoc. now destruct (returned tz db c).
Qed.

(** An identifier of the ledger stays there until it is deleted. *)
Lemma step_keeps db c s :
  db_ok db -> keeps s c = true ->
  In s (keys (inventory db)) -> In s (keys (inventory (step tz db c))).
Proof.
  intros Hok K I. destruct c as [b|s'|category b|category k|w skus];
    try (match goal with
         | |- In _ (keys (inventory (step _ _ ?c))) =>
             rewrite (step_keys db c Hok eq_refl)
         end; apply in_or_app; now left).
  cbn [step keeps] in *. apply negb_true_iff, String.eqb_neq in K.
  destruct (DELETE_inventory_cases db s') as [[inv [D ->]]|[_ ->]];
    [|exact I].
  apply delete_Some in D. destruct D as [_ [_ ->]].
  cbn [fst inventory set_inventory]. now apply keys_filter_other.
Qed.

Lemma run_keeps cs s : forall db,
  db_ok db -> forallb (keeps s) cs = true ->
  In s (keys (inventory db)) -> In s (keys (inventory (run tz db cs))).
Proof.
  unfold run. induction cs as [|c cs IH]; intros db Hok K I;
    cbn [fold_left]; [exact I|].
  cbn [forallb] in K. apply andb_prop in K. destruct K as [Kc Kcs].
  apply IH; [now apply step_ok | exact Kcs | now apply step_keeps].
Qed.

(** The identifier an allocation returns was not in the ledger and is in
    it afterwards. *)
Lemma returned_fresh db c s :
  returned tz db c = Some s ->
  ~ In s (keys (inventory db)) /\ In s (keys (inventory (step tz db c))).
Proof.
  destruct c as [b| | | |]; try discriminate. cbn [returned step].
  destruct (POST_inventory tz db b) as [db' [st item|st e]] eqn:E;
    cbn [fst snd]; [|discriminate].
  intros [= <-]. apply POST_inventory_created in E.
  destruct E as [_ [_ [-> N]]]. split; [exact N|].
  cbn [inventory set_inventory]. rewrite keys_app. apply in_or_app.
  right. now left.
Qed.

Lemma run_app cs1 cs2 db : run tz db (cs1 ++ cs2) = run tz (run tz db cs1) cs2.
Proof. unfold run. apply fold_left_app. Qed.

End Uniqueness.

(** C1, amended.  Uniqueness of identifiers.  After every history of
    calls the identifiers of the ledger are pairwise distinct.  In a
    history without the deletion of an item no two allocations return the
    same identifier, and none returns an identifier that was in the ledger.
    In every history, an identifier an allocation returned is not returned
    again unless the item was deleted in between.  The same holds for
    inserts of handlers that read the ledger at any earlier time: whatever
    rows they carry, the identifiers returned and those of the ledger are
    distinct. *)
Theorem identifiers_unique (tz : Z) (db : DB) (cs cs1 cs2 : list call)
    (c1 c2 : call) (s : string) (ps : list (Inventory + Z * string)) :
  db_ok db ->
  NoDup (map sku (inventory (run tz db cs)))
  /\ (forallb keeps_rows cs = true ->
      NoDup (returned_all tz db cs)
      /\ forall s', In s' (returned_all tz db cs) ->
                    ~ In s' (map sku (inventory db)))
  /\ (returned tz (run tz db cs1) c1 = Some s ->
      forallb (keeps s) cs2 = true ->
      returned tz (run tz db (cs1 ++ c1 :: cs2)) c2 <> Some s)
  /\ NoDup (map sku (created (snd (commit_all db ps))))
  /\ NoDup (map sku (inventory (fst (commit_all db ps)))).
Proof.
  intros Hok. pose proof Hok as [[ND _] _].
  destruct (commit_all_appends ps db) as [Ca Cn].
  specialize (Cn ND). unfold keys in Cn.
  change (@key Inventory _) with sku in Cn.
  pose proof Cn as Cn'. rewrite Ca, map_app in Cn'.
  pose proof (run_ok tz cs db Hok) as [[NDr _] _].
  split; [exact NDr|]. split; [|split; [|split]].
  - intros K. rewrite (run_keys tz cs db Hok K) in NDr.
    split; [now apply NoDup_app_remove_l in NDr|].
    intros s' Is Io. exact (NoDup_app_disjoint _ _ _ NDr Io Is).
  - intros R K R2.
    destruct (returned_fresh tz _ _ _ R) as [_ I1].
    destruct (returned_fresh tz _ _ _ R2) as [N2 _]. apply N2.
    rewrite (run_app tz cs1 (c1 :: cs2) db).
    change (run tz (run tz db cs1) (c1 :: cs2))
      with (run tz (step tz (run tz db cs1) c1) cs2).
    apply run_keeps; [|exact K|exact I1].
    apply step_ok. now apply run_ok.
  - now apply NoDup_app_remove_l in Cn'.
  - exact Cn.
Qed.

(** C1, amended, on the seeded database: the example allocated twice, and
    allocated
    again after a change of the code library and a synchronisation. *)
Lemma identifiers_unique_witness :
  db_ok seeded
  /\ NoDup (returned_all 0 seeded [Allocate example_body;
                                   Allocate example_body])
  /\ returned 0 (run 0 seeded []) (Allocate example_body)
     = Some "DRBLFLMD25101701"
  /\ returned 0
       (run 0 seeded
          ([] ++ Allocate example_body
              :: [DeleteCode "colors" "RD";
                  Sync example_world (Some ["DRBLFLMD25101701"])]))
       (Allocate example_body)
     <> Some "DRBLFLMD25101701".
Proof.
  assert (R : returned 0 (run 0 seeded []) (Allocate example_body)
              = Some "DRBLFLMD25101701") by (vm_compute; reflexivity).
  pose proof (identifiers_unique 0 seeded
                [Allocate example_body; Allocate example_body] []
                [DeleteCode "colors" "RD";
                 Sync example_world (Some ["DRBLFLMD25101701"])]
                (Allocate example_body) (Allocate example_body)
                "DRBLFLMD25101701" [] seeded_ok) as [_ [U [T _]]].
  split; [exact seeded_ok|]. split; [exact (proj1 (U eq_refl))|].
  split; [exact R|]. exact (T R eq_refl).
Defined.

(** C1, as stated, fails.  An identifier is returned twice when the item
    is deleted between the two allocations. *)
Lemma identifier_returned_twice :
  returned_all 0 seeded
    [Allocate example_body; DeleteItem "DRBLFLMD25101701";
     Allocate example_body]
  = ["DRBLFLMD25101701"; "DRBLFLMD25101701"]
  /\ ~ NoDup (returned_all 0 seeded
                [Allocate example_body; DeleteItem "DRBLFLMD25101701";
                 Allocate example_body]).
Proof.
  assert (E : returned_all 0 seeded
                [Allocate example_body; DeleteItem "DRBLFLMD25101701";
                 Allocate example_body]
              = ["DRBLFLMD25101701"; "DRBLFLMD25101701"])
    by (vm_compute; reflexivity).
  split; [exact E|]. rewrite E. intros ND.
  inversion ND as [|? ? N _]. apply N. now left.
Qed.

(* ================================================================== *)
(** ** The sequence number is the numeric maximum plus one *)

Section NumericMax.
Variable tz : Z.

Lemma slice_append (a s : string) : JS.slice (String.length a) (a ++ s) = s.
Proof. induction a as [|c a IH]; cbn; [now destruct s | exact IH]. Qed.

Lemma trailing2_append (a s : string) :
  String.length s = 2%nat -> trailing2 (a ++ s) = s.
Proof.
  intros L. unfold trailing2. rewrite length_append, L.
  replace (String.length a + 2 - 2)%nat with (String.length a) by lia.
  apply slice_append.
Qed.

(** On a well-formed row the last two characters of the identifier are
    the column [sequenceNum]. *)
Lemma trailing2_sku r : row_ok r -> trailing2 (sku r) = sequenceNum r.
Proof.
  intros [Hs [n [Hn En]]]. rewrite Hs. apply trailing2_append.
  rewrite En. apply length_pad2. lia.
Qed.

Lemma existingItems_ok k db :
  Forall row_ok (inventory db) -> Forall row_ok (existingItems k db).
Proof.
  unfold existingItems. rewrite !Forall_forall. intros Hok x Hx.
  apply filter_In in Hx. apply Hok. tauto.
Qed.

Lemma observed_sequenceNum k db :
  Forall row_ok (inventory db) ->
  observed k db
  = map (fun r => JS.parseInt (sequenceNum r)) (existingItems k db).
Proof.
  intros Hok. unfold observed. apply map_ext_in. intros r Ir.
  rewrite trailing2_sku; [reflexivity|].
  pose proof (existingItems_ok k db Hok) as Hx.
  rewrite Forall_forall in Hx. auto.
Qed.

Lemma numeric_max_unique l m m' :
  numeric_max l m -> numeric_max l m' -> m = m'.
Proof.
  intros [I M] [I' M']. destruct (M _ I') as [a [[= <-] La]].
  destruct (M' _ I) as [c [[= <-] Lc]]. lia.
Qed.

(** [Math.max] over the parsed column is the numeric maximum of what the
    specification reads off the identifiers. *)
Lemma maxSeq_numeric_max k db :
  Forall row_ok (inventory db) -> existingItems k db <> [] ->
  exists m, maxSeq (existingItems k db) = Some m
            /\ 1 <= m <= 99 /\ numeric_max (observed k db) m.
Proof.
  intros Hok Hne. pose proof (existingItems_ok k db Hok) as Hx.
  destruct (maxSeq_ok _ Hx Hne) as [m [Em [Hm [[r [Ir Pr]] Mm]]]].
  exists m. split; [exact Em|]. split; [exact Hm|].
  rewrite observed_sequenceNum by assumption. split.
  - apply in_map_iff. now exists r.
  - intros x Ix. apply in_map_iff in Ix. destruct Ix as [r' [<- Ir']].
    rewrite Forall_forall in Hx.
    destruct (row_ok_parse r' (Hx r' Ir')) as [n [_ [_ P]]].
    exists n. split; [exact P|]. now apply (Mm r').
Qed.

Lemma nextSequenceNum_cons items s :
  items <> [] -> nextSequenceNum items = Some s ->
  ge99 (maxSeq items) = false /\ s = pad2 (JS.succ (maxSeq items)).
Proof.
  unfold nextSequenceNum. destruct items as [|r0 rest]; [contradiction|].
  intros _. destruct (ge99 _); [discriminate|]. intros [= <-]. now split.
Qed.

(** An identifier that starts with the key is among the rows the handler
    reads. *)
Lemma shares_key_existing k db r :
  In r (inventory db) -> shares_key k r = true -> In r (existingItems k db).
Proof.
  intros I S. unfold existingItems. apply filter_In. split; [exact I|].
  now apply startsWith_prefix.
Qed.

(** For a key without wildcards, in a ledger where no identifier starts
    with the key in another letter case, the handler reads the rows whose
    identifier starts with the key. *)
Lemma existingItems_shares_key k db :
  plain k = true -> case_exact k db ->
  existingItems k db = filter (shares_key k) (inventory db).
Proof.
  intros Pl Ce. unfold existingItems. apply filter_ext_in. intros r I.
  unfold shares_key. destruct (String.prefix k (sku r)) eqn:P.
  - now apply startsWith_prefix.
  - rewrite (startsWith_plain _ _ Pl).
    destruct (String.prefix (SQLite.fold_case k) (SQLite.fold_case (sku r)))
      eqn:Pf; [|reflexivity].
    rewrite (Ce r I Pf) in P. discriminate.
Qed.

Lemma observed_under_key k db :
  plain k = true -> case_exact k db -> observed k db = under_key k db.
Proof.
  intros Pl Ce. unfold observed, under_key.
  now rewrite (existingItems_shares_key _ _ Pl Ce).
Qed.

(** A maximum of 99 under the key, as the specification reads the ledger,
    is a maximum of 99 of what the handler observes. *)
Lemma under_key_99_observed k db :
  Forall row_ok (inventory db) ->
  numeric_max (under_key k db) 99 -> numeric_max (observed k db) 99.
Proof.
  intros Hok [I _]. split.
  - unfold under_key in I. apply in_map_iff in I. destruct I as [r [E I]].
    apply filter_In in I. destruct I as [I S]. unfold observed.
    apply in_map_iff. exists r. split; [exact E|].
    now apply shares_key_existing.
  - intros x Ix. rewrite (observed_sequenceNum k db Hok) in Ix.
    apply in_map_iff in Ix. destruct Ix as [r [<- Ir]].
    pose proof (existingItems_ok k db Hok) as Hx.
    rewrite Forall_forall in Hx.
    destruct (row_ok_parse r (Hx r Ir)) as [n [Hn [_ P]]].
    exists n. split; [exact P | lia].
Qed.

End NumericMax.

(** C2, amended.  Sequence-number computation: when an [Allocate] call issues an
    identifier under a key that has no wildcard of [LIKE], on a ledger where
    no identifier starts with the key in another letter case, its sequence
    number is "01" if no identifier of the ledger starts with the key, and
    otherwise the numeric maximum of the trailing two characters of the
    identifiers that start with the key, plus one, on two digits; after a
    maximum of 9 it is "10". *)
Theorem sequence_number_computation (tz : Z) (db db' : DB)
    (b : InventoryBody) (st : Z) (item : Inventory) :
  ledger_ok db ->
  plain (baseKey tz b) = true ->
  case_exact (baseKey tz b) db ->
  POST_inventory tz db b = (db', Json st item) ->
  sku item = baseKey tz b ++ sequenceNum item
  /\ ((forall r, In r (inventory db) -> shares_key (baseKey tz b) r = false) ->
      sequenceNum item = "01")
  /\ ((exists r, In r (inventory db) /\ shares_key (baseKey tz b) r = true) ->
      exists m, numeric_max (under_key (baseKey tz b) db) m
                /\ sequenceNum item = pad2 (Some (m + 1)))
  /\ (numeric_max (under_key (baseKey tz b) db) 9 -> sequenceNum item = "10").
Proof.
  intros [_ Hok] Pl Ce E. apply POST_inventory_created in E.
  destruct E as [_ [P _]]. apply POST_prepare_inl in P.
  destruct P as [_ [Es [Hs _]]].
  pose proof (existingItems_shares_key _ db Pl Ce) as Ex.
  pose proof (observed_under_key _ db Pl Ce) as Eo.
  assert (Hcons : existingItems (baseKey tz b) db <> [] ->
                  exists m, numeric_max (under_key (baseKey tz b) db) m
                            /\ sequenceNum item = pad2 (Some (m + 1))).
  { intros Hne. destruct (maxSeq_numeric_max _ db Hok Hne) as [m [Em [_ Nm]]].
    exists m. rewrite <- Eo. split; [exact Nm|].
    destruct (nextSequenceNum_cons _ _ Hne Es) as [_ ->]. now rewrite Em. }
  split; [exact Hs|]. split; [|split].
  - intros Hnone.
    assert (Hnil : existingItems (baseKey tz b) db = []).
    { rewrite Ex. destruct (filter _ _) as [|r t] eqn:F; [reflexivity|].
      assert (I : In r (filter (shares_key (baseKey tz b)) (inventory db)))
        by (rewrite F; now left).
      apply filter_In in I. destruct I as [I S].
      rewrite (Hnone r I) in S. discriminate. }
    rewrite Hnil in Es. cbn in Es. congruence.
  - intros [r [I S]]. apply Hcons. intros Hnil.
    pose proof (shares_key_existing _ db r I S) as Ix.
    now rewrite Hnil in Ix.
  - intros N9. destruct Hcons as [m [Nm ->]].
    + intros Hnil. destruct N9 as [I _]. rewrite <- Eo in I.
      unfold observed in I. rewrite Hnil in I. exact I.
    + now rewrite (numeric_max_unique _ _ _ Nm N9).
Qed.

(** C2, amended, on the ledger that holds 01..09 under the key of the
    example. *)
Lemma sequence_number_computation_witness :
  let db := fst (allocate_all 0 seeded (repeat example_body 9)) in
  ledger_ok db
  /\ plain (baseKey 0 example_body) = true
  /\ case_exact (baseKey 0 example_body) db
  /\ exists db' item,
      POST_inventory 0 db example_body = (db', Json 201 item)
      /\ numeric_max (under_key (baseKey 0 example_body) db) 9
      /\ sequenceNum item = "10".
Proof.
  intros db.
  assert (Hok : ledger_ok db)
    by exact (proj1 (allocate_all_ok 0 _ _ seeded_ok)).
  assert (Pl : plain (baseKey 0 example_body) = true)
    by (vm_compute; reflexivity).
  assert (Ce : case_exact (baseKey 0 example_body) db).
  { intros r I _. vm_compute in I.
    repeat (destruct I as [<-|I]; [vm_compute; reflexivity|]).
    contradiction. }
  assert (N9 : numeric_max (under_key (baseKey 0 example_body) db) 9).
  { split; [vm_compute; tauto|]. intros x Ix. vm_compute in Ix.
    repeat (destruct Ix as [<-|Ix]; [eexists; split; [reflexivity|lia]|]).
    contradiction. }
  split; [exact Hok|]. split; [exact Pl|]. split; [exact Ce|].
  destruct (POST_inventory 0 db example_body) as [db' [st item|st e]] eqn:E;
    [|vm_compute in E; discriminate].
  assert (st = 201) as -> by (vm_compute in E; congruence).
  exists db', item. split; [reflexivity|]. split; [exact N9|].
  exact (proj2 (proj2 (proj2
           (sequence_number_computation 0 db db' example_body 201 item
              Hok Pl Ce E))) N9).
Defined.

(** C2, as stated, fails.  The key is not a prefix of twelve characters.
    The key of the example has fourteen; in a ledger that holds the first
    dress of the day after, an identifier has the first twelve characters
    of the key of the example and the number 01, and the example is given
    01, not 02. *)
Lemma key_is_not_twelve_characters :
  String.length (baseKey 0 example_body) = 14%nat
  /\ map sku (inventory (run 0 seeded [Allocate next_day_body]))
     = ["DRBLFLMD25101801"]
  /\ first12 "DRBLFLMD25101801" = first12 (baseKey 0 example_body)
  /\ returned 0 (run 0 seeded [Allocate next_day_body])
       (Allocate example_body)
     = Some "DRBLFLMD25101701".
Proof. vm_compute. repeat split. Qed.

(* ================================================================== *)
(** ** The cap of 99 *)

Section Cap.
Variable tz : Z.

Lemma length_numerals n : List.length (numerals n) = n.
Proof. unfold numerals. now rewrite length_map, length_seq. Qed.

Lemma row_ok_numeral r : row_ok r -> In (sequenceNum r) (numerals 99).
Proof.
  intros [_ [n [Hn ->]]]. unfold numerals. apply in_map_iff.
  exists (Z.to_nat n). split; [f_equal; f_equal; lia | apply in_seq; lia].
Qed.

(** The rows issued under one key carry different sequence numbers. *)
Lemma issued_under_NoDup k db :
  ledger_ok db -> NoDup (map sequenceNum (issued_under k db)).
Proof.
  intros [ND Hok]. unfold issued_under.
  apply (NoDup_map_inv (fun s => k ++ s)). rewrite map_map.
  rewrite (map_ext_in _ sku).
  - apply (NoDup_keys_filter (H := Inventory_Model)). exact ND.
  - intros r Ir. apply filter_In in Ir. destruct Ir as [Ir Ek].
    apply String.eqb_eq in Ek. rewrite Forall_forall in Hok.
    destruct (Hok r Ir) as [-> _]. now rewrite Ek.
Qed.

Lemma issued_under_bound k db :
  ledger_ok db -> (List.length (issued_under k db) <= 99)%nat.
Proof.
  intros Hl. rewrite <- (length_map sequenceNum).
  rewrite <- (length_numerals 99). apply NoDup_incl_length.
  - now apply issued_under_NoDup.
  - intros s Is. apply in_map_iff in Is. destruct Is as [r [<- Ir]].
    apply row_ok_numeral. unfold issued_under in Ir.
    apply filter_In in Ir. destruct Hl as [_ Hok].
    rewrite Forall_forall in Hok. apply Hok. tauto.
Qed.

(** The early return of line 99. *)
Lemma POST_inventory_exhausted db b :
  nextSequenceNum (existingItems (baseKey tz b) db) = None ->
  POST_inventory tz db b
  = (db, JsonError 400 (if missing_fields b then E_missing else E_exhausted)).
Proof.
  intros En. unfold POST_inventory, POST_prepare. rewrite En.
  now destruct (missing_fields b).
Qed.

Lemma numeric_max_99_exhausted k db :
  Forall row_ok (inventory db) ->
  numeric_max (observed k db) 99 ->
  nextSequenceNum (existingItems k db) = None.
Proof.
  intros Hok N. assert (Hne : existingItems k db <> []).
  { intros Hnil. destruct N as [I _]. unfold observed in I.
    now rewrite Hnil in I. }
  destruct (maxSeq_numeric_max k db Hok Hne) as [m [Em [_ Nm]]].
  rewrite (numeric_max_unique _ _ _ Nm N) in Em.
  apply nextSequenceNum_None. split; [exact Hne|]. now rewrite Em.
Qed.

End Cap.

(** C3, amended.  Cap enforcement with atomicity: an [Allocate] call that finds 99
    as the maximum sequence number of the identifiers that start with its
    key fails, with the error of the exhausted sequence when the request
    has all its fields, and leaves the database as it was; after every
    history of calls at most 99 rows of the ledger share one allocation
    key, and a run of allocations returns at most 99 identifiers under one
    key. *)
Theorem cap_enforcement (tz : Z) (db : DB) (b : InventoryBody)
    (k : string) (cs : list call) (bs : list InventoryBody) :
  db_ok db ->
  (numeric_max (under_key (baseKey tz b) db) 99 ->
   (exists e, POST_inventory tz db b = (db, JsonError 400 e))
   /\ (missing_fields b = false ->
       POST_inventory tz db b = (db, JsonError 400 E_exhausted)))
  /\ (List.length (issued_under k (run tz db cs)) <= 99)%nat
  /\ (List.length
        (filter (fun r => String.eqb (allocationKey r) k)
           (created (snd (allocate_all tz db bs)))) <= 99)%nat.
Proof.
  intros Hok. split; [|split].
  - intros N. destruct Hok as [[_ Hrows] _].
    apply (under_key_99_observed _ db Hrows) in N.
    pose proof (POST_inventory_exhausted tz db b
                  (numeric_max_99_exhausted _ db Hrows N)) as E.
    split; [eexists; exact E|]. intros Hm. now rewrite Hm in E.
  - apply issued_under_bound. apply (run_ok tz cs db Hok).
  - pose proof (issued_under_bound k _
                  (proj1 (allocate_all_ok tz bs db Hok))) as B.
    unfold issued_under in B.
    rewrite (proj1 (allocate_all_appends tz bs db)) in B.
    rewrite filter_app, length_app in B. lia.
Qed.

(** C3, amended, on a ledger that holds the number 99 under the key of the
    example. *)
Lemma cap_enforcement_witness :
  db_ok (seeded_with [99])
  /\ numeric_max (under_key (baseKey 0 example_body) (seeded_with [99])) 99
  /\ POST_inventory 0 (seeded_with [99]) example_body
     = (seeded_with [99], JsonError 400 E_exhausted).
Proof.
  assert (Hok : db_ok (seeded_with [99])).
  { split; [|exact (proj2 seeded_ok)]. split.
    - repeat constructor. intros [].
    - repeat constructor. exists 99. split; [lia | reflexivity]. }
  assert (N : numeric_max
                (under_key (baseKey 0 example_body) (seeded_with [99])) 99).
  { split; [vm_compute; tauto|]. intros x Ix. vm_compute in Ix.
    destruct Ix as [<-|[]]. exists 99. split; [reflexivity|lia]. }
  split; [exact Hok|]. split; [exact N|].
  exact (proj2 (proj1 (cap_enforcement 0 (seeded_with [99]) example_body
                         EmptyString [] [] Hok) N) eq_refl).
Defined.

(** C3, as stated, fails.  The cap does not last.  A request that is
    refused because the ledger holds the number 99 under its key is served
    once that row is deleted; and a history in which each item is deleted
    before the next allocation returns a hundred identifiers under one
    key. *)
Lemma hundred_allocations_under_one_key :
  POST_inventory 0 (seeded_with [99]) example_body
  = (seeded_with [99], JsonError 400 E_exhausted)
  /\ returned 0 (step 0 (seeded_with [99]) (DeleteItem "DRBLFLMD25101799"))
       (Allocate example_body)
     = Some "DRBLFLMD25101701"
  /\ returned_all 0 seeded past_the_cap = repeat "DRBLFLMD25101701" 100.
Proof. vm_compute. repeat split. Qed.

(* ================================================================== *)
(** ** Unknown attribute codes *)




(* ================================================================== *)
(** ** Sequencing, and what a deletion frees *)

Section Sequencing.
Variable tz : Z.







Lemma set_inventory_same db : set_inventory db (inventory db) = db.
Proof. now destruct db. Qed.

Lemma set_inventory_twice db i j :
  set_inventory (set_inventory db i) j = set_inventory db j.
Proof. reflexivity. Qed.

(** Deleting the row an allocation has just created gives the database of
    before the allocation. *)
Lemma DELETE_after_POST db b db1 st item :
  POST_inventory tz db b = (db1, Json st item) ->
  DELETE_inventory db1 (sku item) = (db, Json 200 tt).
Proof.
  intros P. apply POST_inventory_created in P.
  destruct P as [_ [_ [-> N]]]. unfold DELETE_inventory.
  cbn [inventory set_inventory].
  pose proof (@delete_last Inventory Inventory_Model _ item N) as D.
  change (key item) with (sku item) in D. rewrite D.
  now rewrite set_inventory_twice, set_inventory_same.
Qed.

End Sequencing.




(* ================================================================== *)
(** ** A duplicate identifier at the insert *)

(** C6, as stated, fails.  Two handlers read the seeded ledger before
    either writes, so both prepare the identifier ...01.  The first insert
    succeeds; the second is rejected as a duplicate and the handler answers
    500 at once, although reading the ledger again would have given ...02:
    there is no retry. *)
Lemma duplicate_insert_not_retried :
  POST_prepare 0 seeded example_body = inl (example_row 1)
  /\ POST_commit seeded (inl (example_row 1))
     = (seeded_with [1], Json 201 (example_row 1))
  /\ POST_commit (seeded_with [1]) (inl (example_row 1))
     = (seeded_with [1], JsonError 500 "Failed to create inventory item")
  /\ POST_inventory 0 (seeded_with [1]) example_body
     = (seeded_with [1; 2], Json 201 (example_row 2)).
Proof. vm_compute. repeat split. Qed.

(** C6, amended.  When the insert of an [Allocate] call is rejected as a
    duplicate identifier, the call fails at once with status 500 and the
    message "Failed to create inventory item", without reading the ledger
    again, and the database is unchanged; a handler that runs without
    another request between its read and its insert never meets a
    duplicate on a well-formed ledger. *)
Theorem duplicate_insert_fails_at_once (tz : Z) (db : DB)
    (data : Inventory) (b : InventoryBody) :
  (In (sku data) (map sku (inventory db)) ->
   POST_commit db (inl data) = (db, JsonError 500 E_create))
  /\ (ledger_ok db -> POST_prepare tz db b = inl data ->
      ~ In (sku data) (map sku (inventory db))).
Proof.
  split.
  - intros I. unfold POST_commit.
    now rewrite (inventory_create_duplicate db data I).
  - intros [_ Hok] P. apply POST_prepare_inl in P.
    destruct P as [_ [Es [-> _]]]. now apply next_sku_fresh.
Qed.

(** C6, amended, on the ledger that holds the first row of the example. *)
Lemma duplicate_insert_fails_at_once_witness :
  In (sku (example_row 1)) (map sku (inventory (seeded_with [1])))
  /\ POST_commit (seeded_with [1]) (inl (example_row 1))
     = (seeded_with [1], JsonError 500 E_create)
  /\ ledger_ok seeded
  /\ POST_prepare 0 seeded example_body = inl (example_row 1)
  /\ ~ In (sku (example_row 1)) (map sku (inventory seeded)).
Proof.
  assert (I : In (sku (example_row 1))
                (map sku (inventory (seeded_with [1])))) by now left.
  assert (P : POST_prepare 0 seeded example_body = inl (example_row 1))
    by (vm_compute; reflexivity).
  split; [exact I|]. split; [|split; [exact (proj1 seeded_ok)|split; [exact P|]]].
  - exact (proj1 (duplicate_insert_fails_at_once 0 (seeded_with [1])
                    (example_row 1) example_body) I).
  - exact (proj2 (duplicate_insert_fails_at_once 0 seeded
                    (example_row 1) example_body) (proj1 seeded_ok) P).
Defined.

(* ================================================================== *)
(** ** The date code and the time zone of the server *)

Section DateCode.

Lemma Date_parse_example tz :
  JS.Date_parse tz "2025-10-17" = Some 1760659200000.
Proof. vm_compute. reflexivity. Qed.

(** At an offset of 0 to 23 h 59 east of UTC, midnight UTC of 2025-10-17
    is still the 17th. *)
Lemma local_civil_east tz :
  0 <= tz < 1440 -> JS.local_civil tz 1760659200000 = (2025, 10, 17).
Proof.
  intros Htz. unfold JS.local_civil.
  replace ((1760659200000 + tz * JS.msPerMinute) / JS.msPerDay) with 20378.
  - vm_compute. reflexivity.
  - unfold JS.msPerMinute, JS.msPerDay.
    apply Z.div_unique with (r := tz * 60000); lia.
Qed.

Lemma dateCode_east tz :
  0 <= tz < 1440 -> dateCode_of tz "2025-10-17" = "251017".
Proof.
  intros Htz. unfold dateCode_of. rewrite Date_parse_example.
  unfold JS.getFullYear, JS.getMonth, JS.getDate. cbn [option_map].
  rewrite (local_civil_east tz Htz). vm_compute. reflexivity.
Qed.

(** Behind UTC, by up to a day, it is the 16th. *)
Lemma dateCode_west tz :
  -1440 <= tz < 0 -> dateCode_of tz "2025-10-17" = "251016".
Proof.
  intros Htz. unfold dateCode_of. rewrite Date_parse_example.
  unfold JS.getFullYear, JS.getMonth, JS.getDate, JS.local_civil.
  cbn [option_map].
  replace ((1760659200000 + tz * JS.msPerMinute) / JS.msPerDay) with 20377.
  - vm_compute. reflexivity.
  - unfold JS.msPerMinute, JS.msPerDay.
    apply Z.div_unique with (r := 86400000 + tz * 60000); lia.
Qed.

(** The handler depends on the time zone through the date and the date
    code only. *)
Lemma POST_inventory_dateCode tz tz' db b :
  JS.Date_parse tz (body_purchaseDate b)
  = JS.Date_parse tz' (body_purchaseDate b) ->
  dateCode_of tz (body_purchaseDate b) = dateCode_of tz' (body_purchaseDate b) ->
  POST_inventory tz db b = POST_inventory tz' db b.
Proof.
  intros D E. unfold POST_inventory, POST_prepare, baseKey.
  now rewrite E, D.
Qed.

(** In UTC and east of it the example of the specification holds. *)
Lemma composition_east_of_utc tz :
  0 <= tz < 1440 ->
  baseKey tz example_body = "DRBLFLMD251017"
  /\ POST_inventory tz seeded example_body
     = (seeded_with [1], Json 201 (example_row 1))
  /\ sku (example_row 1) = "DRBLFLMD25101701".
Proof.
  intros Htz. pose proof (dateCode_east tz Htz) as E. split; [|split].
  - unfold baseKey. cbn [example_body body_typeCode body_colorCode
      body_patternCode body_sizeCode body_purchaseDate]. now rewrite E.
  - rewrite (POST_inventory_dateCode tz 0).
    + vm_compute. reflexivity.
    + cbn [example_body body_purchaseDate]. now rewrite !Date_parse_example.
    + cbn [example_body body_purchaseDate]. rewrite E. vm_compute. reflexivity.
  - reflexivity.
Qed.

End DateCode.

(** C7.  The example of the specification on a server whose local time is
    five hours behind UTC: [new Date("2025-10-17")] is midnight UTC, the
    local getters read the evening of the 16th, and the handler computes
    the allocation key "DRBLFLMD251016" and the identifier
    "DRBLFLMD25101601", not "DRBLFLMD251017" and "DRBLFLMD25101701". *)
Theorem composition_behind_utc :
  JS.Date_parse (-300) "2025-10-17" = Some 1760659200000
  /\ JS.local_civil (-300) 1760659200000 = (2025, 10, 16)
  /\ baseKey (-300) example_body = "DRBLFLMD251016"
  /\ existingItems (baseKey (-300) example_body) seeded = []
  /\ option_map sku
       (hd_error (created [snd (POST_inventory (-300) seeded example_body)]))
     = Some "DRBLFLMD25101601".
Proof. vm_compute. repeat split. Qed.

(* ================================================================== *)
(** ** Amounts *)

Section Amounts.
Variable tz : Z.

Lemma falsy_amount_false x :
  falsy_amount x = false <-> exists q, x = Some q /\ ~ (q == 0)%Q.
Proof.
  unfold falsy_amount, Qeq. destruct x as [q|]; cbn.
  - rewrite Z.eqb_neq. split.
    + intros N. exists q. split; [reflexivity | lia].
    + intros [q' [[= <-] N]]. lia.
  - split; [discriminate | intros [q [E _]]; discriminate].
Qed.

Lemma missing_fields_false b :
  missing_fields b = false <->
  falsy_string (body_typeCode b) = false
  /\ falsy_string (body_colorCode b) = false
  /\ falsy_string (body_patternCode b) = false
  /\ falsy_string (body_sizeCode b) = false
  /\ falsy_string (body_purchaseDate b) = false
  /\ falsy_amount (body_purchaseCost b) = false
  /\ falsy_amount (body_sellingPrice b) = false.
Proof. unfold missing_fields. rewrite !orb_false_iff. tauto. Qed.

Lemma POST_inventory_missing db b :
  missing_fields b = true ->
  POST_inventory tz db b = (db, JsonError 400 E_missing).
Proof. intros Hm. unfold POST_inventory, POST_prepare. now rewrite Hm. Qed.

End Amounts.

(** C8, as stated, fails.  A negative cost is not rejected: the call
    succeeds and the row is persisted with the cost -5. *)
Lemma negative_cost_persisted :
  POST_inventory 0 seeded (with_amounts (Some (-5 # 1)) (Some (20 # 1)))
  = (set_inventory seeded [first_row_with (-5 # 1) (20 # 1)],
     Json 201 (first_row_with (-5 # 1) (20 # 1)))
  /\ (purchaseCost (first_row_with (-5 # 1) (20 # 1)) < 0)%Q.
Proof. split; [vm_compute; reflexivity | reflexivity]. Qed.

(** C8, amended.  The amounts are checked for presence only.  A call that
    succeeds stores the cost and the price of the request as they are; a
    call without a cost or without a price fails with "Missing required
    fields" and nothing is persisted; and a cost and a price that are not
    zero, of either sign and in either order, are accepted: the call
    succeeds whenever the other fields are present, the codes are in the
    library, the date parses and the key is not exhausted. *)
Theorem amounts_checked_for_presence (tz : Z) (db : DB) (b : InventoryBody)
    (c p : Q) :
  (forall db' st item,
      POST_inventory tz db b = (db', Json st item) ->
      body_purchaseCost b = Some (purchaseCost item)
      /\ body_sellingPrice b = Some (sellingPrice item))
  /\ (body_purchaseCost b = None \/ body_sellingPrice b = None ->
      POST_inventory tz db b = (db, JsonError 400 E_missing))
  /\ (ledger_ok db ->
      body_purchaseCost b = Some c -> body_sellingPrice b = Some p ->
      ~ (c == 0)%Q -> ~ (p == 0)%Q ->
      falsy_string (body_typeCode b) = false ->
      falsy_string (body_colorCode b) = false ->
      falsy_string (body_patternCode b) = false ->
      falsy_string (body_sizeCode b) = false ->
      falsy_string (body_purchaseDate b) = false ->
      resolved db b ->
      JS.Date_parse tz (body_purchaseDate b) <> None ->
      nextSequenceNum (existingItems (baseKey tz b) db) <> None ->
      exists item,
        POST_inventory tz db b
        = (set_inventory db (inventory db ++ [item]), Json 201 item)
        /\ purchaseCost item = c /\ sellingPrice item = p).
Proof.
  split; [|split].
  - intros db' st item P. apply POST_inventory_created in P.
    destruct P as [_ [P _]]. apply POST_prepare_inl in P.
    destruct P as [Hm [_ [_ [_ [_ [_ [_ [_ [_ [_ [Ec Ep]]]]]]]]]]].
    apply missing_fields_false in Hm.
    destruct Hm as [_ [_ [_ [_ [_ [Fc Fp]]]]]].
    apply falsy_amount_false in Fc, Fp.
    destruct Fc as [qc [Hc _]]. destruct Fp as [qp [Hp _]].
    rewrite Hc in Ec. rewrite Hp in Ep. cbn in Ec, Ep. now subst.
  - intros H. apply POST_inventory_missing. unfold missing_fields.
    destruct H as [-> | ->]; cbn [falsy_amount];
      now rewrite ?orb_true_r, ?orb_true_l.
  - intros [_ Hok] Hc Hp Nc Np Ft Fc Fp Fs Fd Hr Hd Hn.
    destruct (nextSequenceNum (existingItems (baseKey tz b) db))
      as [s|] eqn:Es; [|contradiction].
    assert (Hm : missing_fields b = false).
    { apply missing_fields_false. repeat split; try assumption.
      - apply falsy_amount_false. now exists c.
      - apply falsy_amount_false. now exists p. }
    destruct (POST_inventory_succeeds tz db b s Hok Hm Hr Hd Es)
      as [item [P [Pp _]]].
    exists item. split; [exact P|]. apply POST_prepare_inl in Pp.
    destruct Pp as [_ [_ [_ [_ [_ [_ [_ [_ [_ [_ [Ec Ep]]]]]]]]]]].
    rewrite Ec, Ep, Hc, Hp. now split.
Qed.

(** C8, amended, on a cost of -5 and a price of 3. *)
Lemma amounts_checked_for_presence_witness :
  ledger_ok seeded
  /\ ~ (-5 # 1 == 0)%Q /\ ~ (3 # 1 == 0)%Q
  /\ resolved seeded (with_amounts (Some (-5 # 1)) (Some (3 # 1)))
  /\ exists item,
      POST_inventory 0 seeded (with_amounts (Some (-5 # 1)) (Some (3 # 1)))
      = (set_inventory seeded (inventory seeded ++ [item]), Json 201 item)
      /\ purchaseCost item = -5 # 1 /\ sellingPrice item = 3 # 1.
Proof.
  assert (R : resolved seeded (with_amounts (Some (-5 # 1)) (Some (3 # 1)))).
  { repeat split; vm_compute; tauto. }
  split; [exact (proj1 seeded_ok)|].
  split; [discriminate|]. split; [discriminate|]. split; [exact R|].
  apply (proj2 (proj2 (amounts_checked_for_presence 0 seeded
                         (with_amounts (Some (-5 # 1)) (Some (3 # 1)))
                         (-5 # 1) (3 # 1)))
           (proj1 seeded_ok) eq_refl eq_refl);
    try reflexivity; try exact R; discriminate.
Defined.

(* ================================================================== *)
(** ** Deleting a code of the library *)

Section DeleteCode.

Lemma inUseCount_pos c db k :
  (0 <? inUseCount c db k) = true <->
  exists r, In r (inventory db) /\ fieldMap c r = k.
Proof.
  unfold inUseCount. rewrite Z.ltb_lt. split.
  - intros L.
    destruct (filter (fun r => String.eqb (fieldMap c r) k) (inventory db))
      as [|r rest] eqn:F; [cbn in L; lia|].
    assert (I : In r (r :: rest)) by now left.
    rewrite <- F in I. apply filter_In in I. destruct I as [I E].
    apply String.eqb_eq in E. now exists r.
  - intros [r [I E]].
    assert (I' : In r (filter (fun r => String.eqb (fieldMap c r) k)
                         (inventory db))).
    { apply filter_In. split; [exact I | now apply String.eqb_eq]. }
    destruct (filter _ (inventory db)); [contradiction | cbn; lia].
Qed.

Lemma delete_In {A} `{Model A} (t : list A) k :
  In k (keys t) -> exists t', delete t k = Some t'.
Proof.
  intros I. unfold delete. destruct (findUnique_In _ _ I) as [r ->].
  eexists. reflexivity.
Qed.

(** A [delete] of the library that succeeds removes the code from its
    category and touches nothing else. *)
Lemma code_delete_Some c db k db' :
  code_delete c db k = Some db' ->
  In k (codes_of c db) /\ ~ In k (codes_of c db')
  /\ inventory db' = inventory db.
Proof.
  intros D.
  destruct c; cbn in D;
    match type of D with
    | option_map _ (delete ?t ?k) = _ =>
        destruct (delete t k) as [t'|] eqn:E; [|discriminate]
    end; injection D as <-; apply delete_Some in E;
    destruct E as [I [N _]]; cbn; auto.
Qed.

Lemma code_delete_In c db k :
  In k (codes_of c db) -> exists db', code_delete c db k = Some db'.
Proof.
  intros I. destruct c; cbn in *; destruct (delete_In _ _ I) as [t' ->];
    eexists; reflexivity.
Qed.

End DeleteCode.

(** C9.  Referential immutability of catalog entries: a request to delete
    a code of a category is rejected with status 400, and the database is
    left as it was, if a row of the inventory refers to the code in that
    category; a deletion that succeeds had no such row, and it removes the
    code and nothing else; and a code of the library that no row refers to
    is deleted. *)
Theorem referenced_code_not_deleted (db : DB) (category k : string)
    (c : Category) :
  category_of category = Some c ->
  ((exists r, In r (inventory db) /\ fieldMap c r = k) ->
   DELETE_code db category k
   = (db, JsonError 400 (E_in_use (inUseCount c db k))))
  /\ (forall db' st u,
         DELETE_code db category k = (db', Json st u) ->
         (forall r, In r (inventory db) -> fieldMap c r <> k)
         /\ In k (codes_of c db) /\ ~ In k (codes_of c db')
         /\ inventory db' = inventory db)
  /\ ((forall r, In r (inventory db) -> fieldMap c r <> k) ->
      In k (codes_of c db) ->
      exists db', DELETE_code db category k = (db', Json 200 tt)
                  /\ ~ In k (codes_of c db')).
Proof.
  intros Hc. unfold DELETE_code. rewrite Hc.
  destruct (0 <? inUseCount c db k) eqn:U.
  - apply inUseCount_pos in U. split; [reflexivity|]. split.
    + discriminate.
    + intros N. destruct U as [r [I E]]. now destruct (N r I).
  - assert (N : forall r, In r (inventory db) -> fieldMap c r <> k).
    { intros r I E.
      assert (T : (0 <? inUseCount c db k) = true)
        by (apply inUseCount_pos; now exists r).
      congruence. }
    split; [|split].
    + intros [r [I E]]. now destruct (N r I).
    + intros db' st u. destruct (code_delete c db k) as [d|] eqn:D;
        [|discriminate].
      intros [= <- _ _]. split; [exact N|]. now apply code_delete_Some.
    + intros _ I. destruct (code_delete_In c db k I) as [d D]. rewrite D.
      exists d. split; [reflexivity|].
      now apply code_delete_Some in D.
Qed.

(** C9 on the color BL, which the first row of the example refers to. *)
Lemma referenced_code_not_deleted_witness :
  category_of "colors" = Some Ccolors
  /\ (exists r, In r (inventory (seeded_with [1]))
                /\ fieldMap Ccolors r = "BL")
  /\ DELETE_code (seeded_with [1]) "colors" "BL"
     = (seeded_with [1],
        JsonError 400 "Cannot delete: 1 inventory item(s) use this code").
Proof.
  assert (U : exists r, In r (inventory (seeded_with [1]))
                        /\ fieldMap Ccolors r = "BL").
  { exists (example_row 1). split; [now left | reflexivity]. }
  split; [reflexivity|]. split; [exact U|].
  exact (proj1 (referenced_code_not_deleted (seeded_with [1]) "colors" "BL"
                  Ccolors eq_refl) U).
Defined.

(* ================================================================== *)
(** ** The shape of the codes, of the key and of the identifier *)

Section Shape.
Variable tz : Z.

Lemma day_of_year_bounds doe :
  0 <= doe < 146097 -> 0 <= JS.day_of_year doe <= 365.
Proof.
  intros H. unfold JS.day_of_year, JS.year_of_era.
  Z.div_mod_to_equations. lia.
Qed.

(** The month is 1..12 and the day 1..31, whatever the day number. *)
Lemma civil_from_days_bounds day :
  1 <= snd (fst (JS.civil_from_days day)) <= 12
  /\ 1 <= snd (JS.civil_from_days day) <= 31.
Proof.
  unfold JS.civil_from_days. cbn [fst snd].
  assert (Hdoe : 0 <= JS.day_of_era day < 146097)
    by (unfold JS.day_of_era; apply Z.mod_pos_bound; lia).
  pose proof (day_of_year_bounds _ Hdoe) as Hdoy.
  set (doy := JS.day_of_year (JS.day_of_era day)) in *.
  assert (Hmp : 0 <= JS.month_index doy <= 11)
    by (unfold JS.month_index; Z.div_mod_to_equations; lia).
  split.
  - destruct (JS.month_index doy <? 10) eqn:C;
      [apply Z.ltb_lt in C | apply Z.ltb_ge in C]; lia.
  - unfold JS.month_index in *. Z.div_mod_to_equations. lia.
Qed.

(** A date that parses, with a year of four digits on the local calendar,
    has a date code of six characters. *)
Lemma length_dateCode s t :
  JS.Date_parse tz s = Some t ->
  String.length (JS.String_of_number (JS.getFullYear tz (Some t))) = 4%nat ->
  String.length (dateCode_of tz s) = 6%nat.
Proof.
  intros P Y. unfold dateCode_of. rewrite P, !length_append, length_slice, Y.
  unfold JS.getMonth, JS.getDate, JS.local_civil. cbn [option_map JS.succ].
  destruct (civil_from_days_bounds ((t + tz * JS.msPerMinute) / JS.msPerDay))
    as [Hm Hd].
  rewrite !length_pad2 by lia. reflexivity.
Qed.

Lemma catalog_length db c k :
  catalog_ok db -> In k (codes_of c db) -> String.length k = 2%nat.
Proof.
  intros Hc I. destruct (Hc c) as [_ F]. rewrite Forall_forall in F. auto.
Qed.

Lemma step_catalog_ok db c : catalog_ok db -> catalog_ok (step tz db c).
Proof.
  intros Hc. destruct c as [b|s|category b|category k|w skus]; cbn [step].
  5: { destruct (POST_sync_rows w db skus) as [inv [-> _]].
       intros c. specialize (Hc c). now destruct c. }
  - apply (catalog_ok_same db); [|assumption].
    intros c. apply POST_inventory_catalog.
  - apply (catalog_ok_same db); [|assumption].
    intros c. apply DELETE_inventory_catalog.
  - apply (POST_code_ok db category b Hc).
  - apply (DELETE_code_ok db category k Hc).
Qed.

Lemma run_catalog_ok cs : forall db, catalog_ok db -> catalog_ok (run tz db cs).
Proof.
  unfold run. induction cs as [|c cs IH]; intros db H; cbn; [assumption|].
  apply IH. now apply step_catalog_ok.
Qed.

Lemma code_exists_In c db k :
  In k (codes_of c db) -> code_exists c db k = true.
Proof.
  intros I. destruct c; cbn in *; destruct (findUnique_In _ _ I) as [r ->];
    reflexivity.
Qed.

End Shape.

(** C10, as stated, fails.  With the two-character codes of the seeded
    library the allocation key has 14 characters and the identifier 16, not
    12 and 14. *)
Lemma allocation_key_has_14_characters :
  catalog_ok seeded
  /\ POST_inventory 0 seeded example_body
     = (seeded_with [1], Json 201 (example_row 1))
  /\ String.length (baseKey 0 example_body) = 14%nat
  /\ String.length (sku (example_row 1)) = 16%nat.
Proof.
  split; [exact (proj2 seeded_ok)|]. vm_compute. repeat split.
Qed.

(** C10, amended.  A POST to the code library whose code is missing, is
    not two characters long or is already in the category is rejected with
    status 400 and creates nothing; so every code that is ever in the
    library has two characters and is unique in its category (upper case is
    not enforced: "bl" is accepted); and this makes every allocation key 14
    characters long and every identifier 16, for a purchase date whose
    local year is written with four digits. *)
Theorem catalog_shape (tz : Z) (db db' : DB) (category : string)
    (cb : CodeBody) (cs : list call) (b : InventoryBody) (st : Z)
    (item : Inventory) :
  (falsy_string (body_code cb) = true
   \/ String.length (body_code cb) <> 2%nat
   \/ (exists c, category_of category = Some c
                 /\ In (body_code cb) (codes_of c db)) ->
   exists e, POST_code db category cb = (db, JsonError 400 e))
  /\ (catalog_ok db -> catalog_ok (run tz db cs))
  /\ POST_code seeded "colors" (mkCodeBody "bl" "blue" None "")
     = (set_colors seeded (seed_colors ++ [mkColorRow "bl" "blue" None]),
        Json 200 (ColorItem (mkColorRow "bl" "blue" None)))
  /\ (db_ok db ->
      POST_inventory tz db b = (db', Json st item) ->
      String.length
        (JS.String_of_number
           (JS.getFullYear tz (JS.Date_parse tz (body_purchaseDate b)))) = 4%nat ->
      allocationKey item = baseKey tz b
      /\ String.length (allocationKey item) = 14%nat
      /\ String.length (sku item) = 16%nat).
Proof.
  split; [|split; [apply run_catalog_ok | split; [reflexivity|]]].
  - unfold POST_code. intros [F|[L|[c [Hc I]]]].
    + rewrite F. cbn. now exists E_code_name.
    + destruct (falsy_string (body_code cb) || falsy_string (body_name cb));
        [now exists E_code_name|].
      destruct (Nat.eqb_spec (String.length (body_code cb)) 2) as [E|_];
        [contradiction|]. now exists E_code_length.
    + destruct (falsy_string (body_code cb) || falsy_string (body_name cb));
        [now exists E_code_name|].
      destruct (negb (Nat.eqb (String.length (body_code cb)) 2));
        [now exists E_code_length|].
      rewrite Hc, (code_exists_In _ _ _ I). now exists E_code_exists.
  - intros [[_ Hrows] Hcat] P Y. apply POST_inventory_created in P.
    destruct P as [_ [P [-> N]]].
    pose proof (POST_prepare_row_ok tz db b item Hrows P) as [Hs [n [Hn En]]].
    pose proof P as P'. apply POST_prepare_inl in P'.
    destruct P' as [_ [_ [_ [Hk [[Rt [Rc [Rp Rz]]] [_ [_ [_ [_ [Hd _]]]]]]]]]].
    assert (Hk14 : String.length (baseKey tz b) = 14%nat).
    { unfold baseKey. rewrite !length_append.
      rewrite (catalog_length db Ctypes _ Hcat Rt).
      rewrite (catalog_length db Ccolors _ Hcat Rc).
      rewrite (catalog_length db Cpatterns _ Hcat Rp).
      rewrite (catalog_length db Csizes _ Hcat Rz).
      destruct (JS.Date_parse tz (body_purchaseDate b)) as [t|] eqn:Dp;
        [|discriminate].
      now rewrite (length_dateCode tz _ t Dp Y). }
    split; [exact Hk|]. split; [now rewrite Hk|].
    rewrite Hs, length_append, Hk, Hk14, En, length_pad2 by lia. reflexivity.
Qed.

(** C10, amended, on the seeded database. *)
Lemma catalog_shape_witness :
  db_ok seeded
  /\ (exists c, category_of "colors" = Some c
                /\ In "BL" (codes_of c seeded))
  /\ (exists e, POST_code seeded "colors" (mkCodeBody "BL" "Bleu" None "")
                = (seeded, JsonError 400 e))
  /\ POST_inventory 0 seeded example_body
     = (seeded_with [1], Json 201 (example_row 1))
  /\ String.length (sku (example_row 1)) = 16%nat.
Proof.
  assert (I : exists c, category_of "colors" = Some c
                        /\ In "BL" (codes_of c seeded)).
  { exists Ccolors. split; [reflexivity|]. vm_compute. tauto. }
  assert (P : POST_inventory 0 seeded example_body
              = (seeded_with [1], Json 201 (example_row 1)))
    by (vm_compute; reflexivity).
  split; [exact seeded_ok|]. split; [exact I|]. split.
  - apply (proj1 (catalog_shape 0 seeded seeded "colors"
                    (mkCodeBody "BL" "Bleu" None "") [] example_body 201
                    (example_row 1))).
    right. right. exact I.
  - split; [exact P|].
    apply (proj2 (proj2 (proj2 (catalog_shape 0 seeded (seeded_with [1])
                                  "colors" (mkCodeBody "BL" "Bleu" None "")
                                  [] example_body 201 (example_row 1))))
             seeded_ok P).
    vm_compute. reflexivity.
Defined.

(* ================================================================== *)
(** ** The calendar *)

Section Calendar.

Lemma era_split yoe :
  0 <= yoe <= 399 ->
  exists a b, 4 * a <= yoe < 4 * a + 4 /\ 100 * b <= yoe < 100 * b + 100
              /\ yoe / 4 = a /\ yoe / 100 = b /\ 0 <= b <= 3.
Proof.
  intros Hy. exists (yoe / 4), (yoe / 100).
  repeat split; Z.div_mod_to_equations; lia.
Qed.

(** A year of the era and a day of that year, back from the day of the
    era. *)
Lemma year_of_era_inv yoe doy :
  0 <= yoe <= 399 -> 0 <= doy ->
  (doy <= 364 \/ (doy = 365 /\ (yoe + 1) mod 4 = 0
                  /\ ((yoe + 1) mod 100 <> 0 \/ (yoe + 1) mod 400 = 0))) ->
  0 <= yoe * 365 + yoe / 4 - yoe / 100 + doy <= 146096
  /\ JS.year_of_era (yoe * 365 + yoe / 4 - yoe / 100 + doy) = yoe
  /\ JS.day_of_year (yoe * 365 + yoe / 4 - yoe / 100 + doy) = doy.
Proof.
  intros Hy Hd Hl.
  assert (Y : JS.year_of_era (yoe * 365 + yoe / 4 - yoe / 100 + doy) = yoe).
  { unfold JS.year_of_era.
    destruct (era_split yoe Hy) as [a [b [Ha [Hb [-> [-> Hb3]]]]]].
    assert (Hc : b = 0 \/ b = 1 \/ b = 2 \/ b = 3) by lia.
    destruct Hc as [-> | [-> | [-> | ->]]]; (Z.div_mod_to_equations; lia). }
  split; [|split; [exact Y|]].
  - destruct (era_split yoe Hy) as [a [b [Ha [Hb [-> [-> Hb3]]]]]].
    Z.div_mod_to_equations. lia.
  - unfold JS.day_of_year. rewrite Y. lia.
Qed.

(** The month, back from the day of the March-based year. *)
Lemma month_index_inv mp d :
  0 <= mp <= 11 -> 1 <= d <= 31 ->
  (mp = 11 -> d <= 29) ->
  ((mp = 1 \/ mp = 3 \/ mp = 6 \/ mp = 8) -> d <= 30) ->
  JS.month_index ((153 * mp + 2) / 5 + d - 1) = mp.
Proof.
  intros Hmp Hd H11 H30. unfold JS.month_index.
  assert (C : mp = 0 \/ mp = 1 \/ mp = 2 \/ mp = 3 \/ mp = 4 \/ mp = 5 \/ mp = 6
              \/ mp = 7 \/ mp = 8 \/ mp = 9 \/ mp = 10 \/ mp = 11) by lia.
  repeat (destruct C as [-> | C]); try subst mp;
    (Z.div_mod_to_equations; lia).
Qed.

Lemma InLeapYear_true y :
  JS.InLeapYear y = true <->
  y mod 4 = 0 /\ (y mod 100 <> 0 \/ y mod 400 = 0).
Proof.
  unfold JS.InLeapYear.
  rewrite orb_true_iff, andb_true_iff, negb_true_iff, !Z.eqb_eq, Z.eqb_neq.
  split; [|tauto]. intros [[H4 H100]|H400]; [tauto|].
  split; [|tauto]. Z.div_mod_to_equations. lia.
Qed.

(** The day number of a date of the calendar gives the date back. *)
Lemma civil_from_days_from_civil y m d :
  1 <= m <= 12 -> 1 <= d <= JS.DaysInMonth y m ->
  JS.civil_from_days (JS.days_from_civil y m d) = (y, m, d).
Proof.
  intros Hm Hd.
  set (y' := if m <=? 2 then y - 1 else y).
  set (era := y' / 400). set (yoe := y' - era * 400).
  set (mp := if m <=? 2 then m + 9 else m - 3).
  set (doy := (153 * mp + 2) / 5 + d - 1).
  assert (Hyoe : 0 <= yoe <= 399)
    by (subst yoe era; Z.div_mod_to_equations; lia).
  assert (Hmp : 0 <= mp <= 11 /\ (if mp <? 10 then mp + 3 else mp - 9) = m
                /\ (m <=? 2) = (10 <=? mp)).
  { subst mp. destruct (m <=? 2) eqn:C;
      [apply Z.leb_le in C | apply Z.leb_gt in C].
    - replace (m + 9 <? 10) with false by (symmetry; apply Z.ltb_ge; lia).
      replace (10 <=? m + 9) with true by (symmetry; apply Z.leb_le; lia).
      lia.
    - replace (m - 3 <? 10) with true by (symmetry; apply Z.ltb_lt; lia).
      replace (10 <=? m - 3) with false by (symmetry; apply Z.leb_gt; lia).
      lia. }
  destruct Hmp as [Hmp [Hm' Hle]].
  assert (Hdim : 1 <= d <= 31 /\ (mp = 11 -> d <= 29)
                 /\ ((mp = 1 \/ mp = 3 \/ mp = 6 \/ mp = 8) -> d <= 30)
                 /\ (mp = 11 -> d = 29 -> JS.InLeapYear y = true)).
  { unfold JS.DaysInMonth in Hd. subst mp.
    destruct (m <=? 2) eqn:C; [apply Z.leb_le in C | apply Z.leb_gt in C];
      destruct (m =? 2) eqn:E2; [apply Z.eqb_eq in E2 | apply Z.eqb_neq in E2
                                | apply Z.eqb_eq in E2 | apply Z.eqb_neq in E2];
      try lia.
    - destruct (JS.InLeapYear y); lia.
    - assert (m = 1) as -> by lia. cbn in Hd. lia.
    - destruct ((m =? 4) || (m =? 6) || (m =? 9) || (m =? 11)) eqn:E30.
      + lia.
      + rewrite !orb_false_iff, !Z.eqb_neq in E30. lia. }
  destruct Hdim as [Hd31 [H11 [H30 Hleap]]].
  assert (Hdoy : 0 <= doy
                 /\ (doy <= 364
                     \/ (doy = 365 /\ (yoe + 1) mod 4 = 0
                         /\ ((yoe + 1) mod 100 <> 0 \/ (yoe + 1) mod 400 = 0)))).
  { assert (C : mp = 11 /\ d = 29 \/ ~ (mp = 11 /\ d = 29)) by lia.
    destruct C as [[E11 E29]|C].
    - specialize (Hleap E11 E29). apply InLeapYear_true in Hleap.
      assert (Ey : y = era * 400 + yoe + 1).
      { assert (Cm : (m <=? 2) = true) by (rewrite Hle, E11; reflexivity).
        subst yoe era y'. rewrite Cm. lia. }
      subst doy. rewrite E11, E29. split; [vm_compute; discriminate|].
      right. split; [reflexivity|]. rewrite Ey in Hleap.
      Z.div_mod_to_equations. lia.
    - subst doy. split; [Z.div_mod_to_equations; lia|]. left.
      assert (Cm : mp = 0 \/ mp = 1 \/ mp = 2 \/ mp = 3 \/ mp = 4 \/ mp = 5
                   \/ mp = 6 \/ mp = 7 \/ mp = 8 \/ mp = 9 \/ mp = 10
                   \/ mp = 11) by lia.
      clear Hm' Hle. clearbody mp.
      repeat (destruct Cm as [-> | Cm]); try subst mp;
        (Z.div_mod_to_equations; lia). }
  destruct Hdoy as [Hdoy0 Hdoy].
  destruct (year_of_era_inv yoe doy Hyoe Hdoy0 Hdoy) as [Hdoe [Ey Ed]].
  set (doe := yoe * 365 + yoe / 4 - yoe / 100 + doy) in *.
  assert (Edays : JS.days_from_civil y m d + 719468 = era * 146097 + doe).
  { unfold JS.days_from_civil. fold y'. fold era. fold yoe. fold mp. fold doy.
    fold doe. lia. }
  unfold JS.civil_from_days, JS.day_of_era. rewrite Edays.
  replace ((era * 146097 + doe) mod 146097) with doe
    by (apply Z.mod_unique with (q := era); lia).
  replace ((era * 146097 + doe) / 146097) with era
    by (apply Z.div_unique with (r := doe); lia).
  rewrite Ey, Ed.
  assert (Emi : JS.month_index doy = mp)
    by (subst doy; apply month_index_inv; auto).
  rewrite Emi, Hm', Hle.
  f_equal; [f_equal|].
  - subst yoe y'. destruct (m <=? 2) eqn:Cm.
    + replace (10 <=? mp) with true by (symmetry; rewrite <- Hle; reflexivity).
      lia.
    + replace (10 <=? mp) with false by (symmetry; rewrite <- Hle; reflexivity).
      lia.
  - subst doy. lia.
Qed.

Lemma four_digits_spec (P : Z -> bool) :
  four_digits P = true -> forall y, 1000 <= y <= 9999 -> P y = true.
Proof.
  unfold four_digits. rewrite forallb_forall. intros H y Hy.
  apply H. rewrite in_map_iff. exists (Z.to_nat (y - 1000)). split; [lia|].
  apply in_seq. lia.
Qed.

Lemma year_prints_all y : 1000 <= y <= 9999 -> year_prints y = true.
Proof. apply four_digits_spec. vm_compute. reflexivity. Qed.

Lemma two_digits_print_all n : 0 <= n < 100 -> two_digits_print n = true.
Proof. apply below100_spec. vm_compute. reflexivity. Qed.

Lemma digit_is_no_sign a b h :
  JS.two_digits a b = Some h ->
  Ascii.eqb a "+" = false /\ Ascii.eqb a "-" = false.
Proof.
  unfold JS.two_digits. destruct (JS.is_digit a) eqn:D; [|discriminate].
  intros _. revert D.
  destruct a as [[] [] [] [] [] [] [] []]; (discriminate || now split).
Qed.

(** A day of the years 1000 to 9999 is a time value. *)
Lemma TimeClip_civil y m d :
  1000 <= y <= 9999 -> 1 <= m <= 12 -> 1 <= d <= 31 ->
  JS.TimeClip (JS.days_from_civil y m d * JS.msPerDay)
  = Some (JS.days_from_civil y m d * JS.msPerDay).
Proof.
  intros Hy Hm Hd. unfold JS.TimeClip.
  assert (B : -400000 <= JS.days_from_civil y m d <= 3000000).
  { unfold JS.days_from_civil.
    destruct (m <=? 2) eqn:C; [apply Z.leb_le in C | apply Z.leb_gt in C];
      Z.div_mod_to_equations; lia. }
  replace (Z.abs (JS.days_from_civil y m d * JS.msPerDay) <=? 8640000000000000)
    with true; [reflexivity|].
  symmetry. apply Z.leb_le. unfold JS.msPerDay. lia.
Qed.

(** [new Date] of the ISO form of a date is midnight UTC of its day,
    whatever the time zone of the server. *)
Lemma Date_parse_iso tz y m d :
  valid_date y m d ->
  JS.Date_parse tz (iso_date y m d)
  = Some (JS.days_from_civil y m d * JS.msPerDay)
  /\ JS.slice 2 (JS.String_of_Z y) = pad2 (Some (y mod 100)).
Proof.
  intros [Hy [Hm Hd]].
  assert (Hd31 : 1 <= d <= 31).
  { unfold JS.DaysInMonth in Hd.
    destruct (m =? 2); [destruct (JS.InLeapYear y); lia|].
    destruct ((m =? 4) || (m =? 6) || (m =? 9) || (m =? 11)); lia. }
  pose proof (year_prints_all y Hy) as Py.
  pose proof (two_digits_print_all m ltac:(lia)) as Pm.
  pose proof (two_digits_print_all d ltac:(lia)) as Pd.
  unfold iso_date. unfold year_prints in Py. unfold two_digits_print in Pm, Pd.
  destruct (JS.String_of_Z y) as [|a [|b [|c [|e [|? ?]]]]]; try discriminate.
  destruct (pad2 (Some m)) as [|m1 [|m2 [|? ?]]]; try discriminate.
  destruct (pad2 (Some d)) as [|d1 [|d2 [|? ?]]]; try discriminate.
  destruct (JS.two_digits a b) as [h|] eqn:Eh; [|discriminate].
  destruct (JS.two_digits c e) as [l|] eqn:El; [|discriminate].
  destruct (JS.two_digits m1 m2) as [km|] eqn:Em; [|discriminate].
  destruct (JS.two_digits d1 d2) as [kd|] eqn:Ed; [|discriminate].
  apply andb_prop in Py. destruct Py as [Py Ps].
  apply andb_prop in Py. destruct Py as [Ph Pl].
  apply Z.eqb_eq in Ph, Pl, Pm, Pd. apply String.eqb_eq in Ps. subst.
  split; [|cbn [JS.slice]; exact Ps].
  destruct (digit_is_no_sign _ _ _ Eh) as [Np Nm].
  unfold JS.Date_parse, JS.read_date, JS.read_year.
  cbn [append]. rewrite Np, Nm.
  cbn [JS.read2]. rewrite Eh. cbn [option_map JS.read2]. rewrite El.
  cbn [option_map fst snd JS.read2]. rewrite Em.
  cbn [option_map JS.read2]. rewrite Ed. cbn [option_map].
  replace (100 * (y / 100) + y mod 100) with y
    by (Z.div_mod_to_equations; lia).
  replace ((1 <=? m) && (m <=? 12) && (1 <=? d) && (d <=? 31))
    with true by (symmetry; rewrite !andb_true_iff, !Z.leb_le; lia).
  now apply TimeClip_civil.
Qed.

End Calendar.

(* ================================================================== *)
(** ** The date code of every date *)

Section DateCodes.

(** The local calendar date of midnight UTC of a day: the same day at an
    offset of 0 to 23 h 59 east, the day before at an offset of up to 24 h
    west. *)
Lemma local_civil_midnight tz day :
  JS.local_civil tz (day * JS.msPerDay)
  = JS.civil_from_days (day + tz * JS.msPerMinute / JS.msPerDay).
Proof.
  unfold JS.local_civil. f_equal. unfold JS.msPerDay, JS.msPerMinute.
  Z.div_mod_to_equations. lia.
Qed.

Lemma dateCode_of_local tz y m d y' m' d' :
  valid_date y m d ->
  JS.local_civil tz (JS.days_from_civil y m d * JS.msPerDay) = (y', m', d') ->
  dateCode_of tz (iso_date y m d)
  = JS.slice 2 (JS.String_of_Z y') ++ pad2 (Some m') ++ pad2 (Some d').
Proof.
  intros V L. unfold dateCode_of.
  rewrite (proj1 (Date_parse_iso tz y m d V)).
  unfold JS.getFullYear, JS.getMonth, JS.getDate. cbn [option_map JS.succ].
  rewrite L. cbn [fst snd JS.String_of_number].
  now replace (m' - 1 + 1) with m' by lia.
Qed.

Lemma dateCode_iso_east tz y m d :
  valid_date y m d -> 0 <= tz < 1440 ->
  dateCode_of tz (iso_date y m d)
  = pad2 (Some (y mod 100)) ++ pad2 (Some m) ++ pad2 (Some d).
Proof.
  intros V Htz. pose proof V as [Hy [Hm Hd]].
  rewrite (dateCode_of_local tz y m d y m d V).
  - now rewrite (proj2 (Date_parse_iso tz y m d V)).
  - rewrite local_civil_midnight.
    replace (tz * JS.msPerMinute / JS.msPerDay) with 0
      by (unfold JS.msPerMinute, JS.msPerDay; Z.div_mod_to_equations; lia).
    rewrite Z.add_0_r. now apply civil_from_days_from_civil.
Qed.

Lemma dateCode_iso_west tz y m d :
  valid_date y m d -> 2 <= d -> -1440 <= tz < 0 ->
  dateCode_of tz (iso_date y m d)
  = pad2 (Some (y mod 100)) ++ pad2 (Some m) ++ pad2 (Some (d - 1)).
Proof.
  intros V Hd2 Htz. pose proof V as [Hy [Hm Hd]].
  rewrite (dateCode_of_local tz y m d y m (d - 1) V).
  - now rewrite (proj2 (Date_parse_iso tz y m d V)).
  - rewrite local_civil_midnight.
    replace (tz * JS.msPerMinute / JS.msPerDay) with (-1)
      by (unfold JS.msPerMinute, JS.msPerDay; Z.div_mod_to_equations; lia).
    replace (JS.days_from_civil y m d + -1)
      with (JS.days_from_civil y m (d - 1))
      by (unfold JS.days_from_civil; lia).
    apply civil_from_days_from_civil; lia.
Qed.

End DateCodes.

(** X1.  In UTC and at every offset up to 23 h 59 east of it, the date
    code of a valid ISO date with a year of four digits is the date itself
    as YYMMDD: the last two digits of the year, the month and the day, each
    on two digits; it has six characters. *)
Theorem dateCode_is_YYMMDD (tz y m d : Z) :
  valid_date y m d -> 0 <= tz < 1440 ->
  dateCode_of tz (iso_date y m d)
  = pad2 (Some (y mod 100)) ++ pad2 (Some m) ++ pad2 (Some d)
  /\ String.length (dateCode_of tz (iso_date y m d)) = 6%nat.
Proof.
  intros V Htz. pose proof V as [Hy [Hm Hd]].
  rewrite (dateCode_iso_east tz y m d V Htz). split; [reflexivity|].
  assert (Hd31 : 1 <= d <= 31).
  { unfold JS.DaysInMonth in Hd.
    destruct (m =? 2); [destruct (JS.InLeapYear y); lia|].
    destruct ((m =? 4) || (m =? 6) || (m =? 9) || (m =? 11)); lia. }
  rewrite !length_append, !length_pad2; [reflexivity | lia | lia |].
  Z.div_mod_to_equations. lia.
Qed.

(** X1 on 29 February 2024, five and a half hours east of UTC. *)
Lemma dateCode_is_YYMMDD_witness :
  valid_date 2024 2 29 /\ 0 <= 330 < 1440
  /\ iso_date 2024 2 29 = "2024-02-29"
  /\ dateCode_of 330 "2024-02-29" = "240229".
Proof.
  assert (V : valid_date 2024 2 29) by (vm_compute; intuition discriminate).
  assert (T : 0 <= 330 < 1440) by lia.
  split; [exact V|]. split; [exact T|]. split; [vm_compute; reflexivity|].
  exact (proj1 (dateCode_is_YYMMDD 330 2024 2 29 V T)).
Defined.

(** X2.  On a server behind UTC, by up to 24 h, the date code of a valid
    ISO date is the code of the day before: for every day of the month but
    the first it is the year and the month of the date with the day minus
    one. *)
Theorem dateCode_is_the_day_before (tz y m d : Z) :
  valid_date y m d -> 2 <= d -> -1440 <= tz < 0 ->
  dateCode_of tz (iso_date y m d)
  = pad2 (Some (y mod 100)) ++ pad2 (Some m) ++ pad2 (Some (d - 1))
  /\ dateCode_of tz (iso_date y m d) <> dateCode_of 0 (iso_date y m d).
Proof.
  intros V Hd2 Htz. pose proof V as [Hy [Hm Hd]].
  rewrite (dateCode_iso_west tz y m d V Hd2 Htz).
  rewrite (dateCode_iso_east 0 y m d V) by lia.
  split; [reflexivity|]. intros E.
  assert (Hd31 : 2 <= d <= 31).
  { unfold JS.DaysInMonth in Hd.
    destruct (m =? 2); [destruct (JS.InLeapYear y); lia|].
    destruct ((m =? 4) || (m =? 6) || (m =? 9) || (m =? 11)); lia. }
  rewrite <- !append_assoc in E.
  apply append_same_tail in E; [|rewrite !length_pad2; lia].
  destruct E as [_ E]. apply pad2_inj in E; lia.
Qed.

(** X2 on 17 October 2025, eight hours behind UTC. *)
Lemma dateCode_is_the_day_before_witness :
  valid_date 2025 10 17 /\ 2 <= 17 /\ -1440 <= -480 < 0
  /\ iso_date 2025 10 17 = "2025-10-17"
  /\ dateCode_of (-480) "2025-10-17" = "251016".
Proof.
  assert (V : valid_date 2025 10 17) by (vm_compute; intuition discriminate).
  assert (D : 2 <= 17) by lia.
  assert (T : -1440 <= -480 < 0) by lia.
  split; [exact V|]. split; [exact D|]. split; [exact T|].
  split; [vm_compute; reflexivity|].
  exact (proj1 (dateCode_is_the_day_before (-480) 2025 10 17 V D T)).
Defined.

(** X3.  The date code keeps the last two digits of the year only.  On a
    server in UTC or up to 23 h 59 east of it, and on a server up to 24 h
    west of it for every day but the first of a month, two purchase dates a
    century apart give one and the same allocation key, so their items
    share one run of sequence numbers. *)
Theorem century_apart_same_key (tz y m d : Z) (b : InventoryBody) :
  valid_date y m d -> valid_date (y + 100) m d ->
  0 <= tz < 1440 \/ (-1440 <= tz < 0 /\ 2 <= d) ->
  baseKey tz (with_date b (iso_date y m d))
  = baseKey tz (with_date b (iso_date (y + 100) m d)).
Proof.
  intros V V' Htz. unfold baseKey, with_date.
  cbn [body_typeCode body_colorCode body_patternCode body_sizeCode
       body_purchaseDate].
  destruct Htz as [Htz|[Htz Hd]].
  - rewrite (dateCode_iso_east tz y m d V Htz).
    rewrite (dateCode_iso_east tz (y + 100) m d V' Htz).
    replace ((y + 100) mod 100) with (y mod 100)
      by (Z.div_mod_to_equations; lia).
    reflexivity.
  - rewrite (dateCode_iso_west tz y m d V Hd Htz).
    rewrite (dateCode_iso_west tz (y + 100) m d V' Hd Htz).
    replace ((y + 100) mod 100) with (y mod 100)
      by (Z.div_mod_to_equations; lia).
    reflexivity.
Qed.

(** X3 on 17 October of 1925 and of 2025. *)
Lemma century_apart_same_key_witness :
  valid_date 1925 10 17 /\ valid_date (1925 + 100) 10 17
  /\ (0 <= 0 < 1440 \/ (-1440 <= 0 < 0 /\ 2 <= 17))
  /\ baseKey 0 (with_date example_body "1925-10-17")
     = baseKey 0 (with_date example_body "2025-10-17").
Proof.
  assert (V : valid_date 1925 10 17) by (vm_compute; intuition discriminate).
  assert (V' : valid_date (1925 + 100) 10 17)
    by (vm_compute; intuition discriminate).
  assert (T : 0 <= 0 < 1440 \/ (-1440 <= 0 < 0 /\ 2 <= 17)) by (left; lia).
  split; [exact V|]. split; [exact V'|]. split; [exact T|].
  exact (century_apart_same_key 0 1925 10 17 example_body V V' T).
Defined.

(** West of UTC the first of March is the last of February, which is the
    29th in 2000 and the 28th in 2100. *)
Example century_apart_first_of_march :
  baseKey (-300) (with_date example_body "2000-03-01") = "DRBLFLMD000229"
  /\ baseKey (-300) (with_date example_body "2100-03-01") = "DRBLFLMD000228".
Proof. vm_compute. split; reflexivity. Qed.

(* ================================================================== *)
(** ** What the handlers leave alone *)

Section Frames.
Variable tz : Z.

Lemma POST_inventory_tables db b :
  fst (POST_inventory tz db b)
  = set_inventory db (inventory (fst (POST_inventory tz db b))).
Proof.
  destruct (POST_inventory tz db b) as [db' r] eqn:E.
  destruct (POST_inventory_cases _ _ _ _ _ E)
    as [[-> _]|[i [_ [_ [-> _]]]]]; cbn; [now destruct db | reflexivity].
Qed.

Lemma DELETE_inventory_tables db s :
  fst (DELETE_inventory db s)
  = set_inventory db (inventory (fst (DELETE_inventory db s))).
Proof.
  destruct (DELETE_inventory_cases db s) as [[inv [_ ->]]|[_ ->]]; cbn;
    [reflexivity | now destruct db].
Qed.

Lemma POST_code_cases db category b :
  (fst (POST_code db category b) = db
   /\ exists st e, snd (POST_code db category b) = JsonError st e)
  \/ (exists c, category_of category = Some c
                /\ falsy_string (body_code b) = false
                /\ falsy_string (body_name b) = false
                /\ String.length (body_code b) = 2%nat
                /\ code_exists c db (body_code b) = false
                /\ code_create db (code_item c db b)
                   = Some (fst (POST_code db category b))
                /\ snd (POST_code db category b)
                   = Json 200 (code_item c db b)).
Proof.
  unfold POST_code.
  destruct (falsy_string (body_code b)) eqn:Fc;
    [left; split; [reflexivity | now exists 400, E_code_name]|].
  destruct (falsy_string (body_name b)) eqn:Fn;
    [left; split; [reflexivity | now exists 400, E_code_name]|].
  cbn [orb].
  destruct (Nat.eqb_spec (String.length (body_code b)) 2) as [L|L];
    cbn [negb]; [|left; split; [reflexivity | now exists 400, E_code_length]].
  destruct (category_of category) as [c|];
    [|left; split; [reflexivity | now exists 400, E_category]].
  destruct (code_exists c db (body_code b)) eqn:X;
    [left; split; [reflexivity | now exists 400, E_code_exists]|].
  destruct (code_create db (code_item c db b)) as [db'|] eqn:C;
    [|left; split; [reflexivity | now exists 500, E_add_code]].
  right. exists c. repeat split; auto.
Qed.

Lemma DELETE_code_cases db category k :
  (fst (DELETE_code db category k) = db
   /\ exists st e, snd (DELETE_code db category k) = JsonError st e)
  \/ (exists c, category_of category = Some c
                /\ inUseCount c db k = 0
                /\ code_delete c db k = Some (fst (DELETE_code db category k))
                /\ snd (DELETE_code db category k) = Json 200 tt).
Proof.
  unfold DELETE_code.
  destruct (category_of category) as [c|];
    [|left; split; [reflexivity | now exists 400, E_category]].
  destruct (0 <? inUseCount c db k) eqn:U;
    [left; split; [reflexivity | eexists; eexists; reflexivity]|].
  destruct (code_delete c db k) as [db'|] eqn:D;
    [|left; split; [reflexivity | now exists 500, E_delete_code]].
  right. exists c. repeat split; auto.
  apply Z.ltb_ge in U. unfold inUseCount in *. lia.
Qed.

Lemma POST_code_inventory db category b :
  inventory (fst (POST_code db category b)) = inventory db.
Proof.
  destruct (POST_code_cases db category b)
    as [[E _]|[c [_ [_ [_ [_ [_ [C _]]]]]]]]; [now rewrite E|].
  destruct (code_item c db b) as [r|r|r|r]; cbn in C;
    match type of C with
    | option_map _ (create ?t ?r) = _ =>
        destruct (create t r) as [t'|]; [|discriminate]
    end; injection C as C; now rewrite <- C.
Qed.

Lemma DELETE_code_inventory db category k :
  inventory (fst (DELETE_code db category k)) = inventory db.
Proof.
  destruct (DELETE_code_cases db category k)
    as [[E _]|[c [_ [_ [D _]]]]]; [now rewrite E|].
  now apply code_delete_Some in D.
Qed.

End Frames.

(** X4.  No handler writes when it answers with an error: a call to any of
    the four handlers that returns an error leaves the whole database as it
    was. *)
Theorem errors_change_nothing (tz : Z) (db : DB) :
  (forall b, succeeded (snd (POST_inventory tz db b)) = false ->
             fst (POST_inventory tz db b) = db)
  /\ (forall s, succeeded (snd (DELETE_inventory db s)) = false ->
                fst (DELETE_inventory db s) = db)
  /\ (forall category b,
         succeeded (snd (POST_code db category b)) = false ->
         fst (POST_code db category b) = db)
  /\ (forall category k,
         succeeded (snd (DELETE_code db category k)) = false ->
         fst (DELETE_code db category k) = db).
Proof.
  repeat split.
  - intros b F. destruct (POST_inventory tz db b) as [db' r] eqn:E.
    destruct (POST_inventory_cases _ _ _ _ _ E)
      as [[-> _]|[i [_ [-> _]]]]; [reflexivity | discriminate].
  - intros s F.
    destruct (DELETE_inventory_cases db s) as [[inv [_ E]]|[_ E]];
      rewrite E in *; [discriminate | reflexivity].
  - intros category b F.
    destruct (POST_code_cases db category b)
      as [[E _]|[c [_ [_ [_ [_ [_ [_ E]]]]]]]]; [exact E|].
    rewrite E in F. discriminate.
  - intros category k F.
    destruct (DELETE_code_cases db category k)
      as [[E _]|[c [_ [_ [_ E]]]]]; [exact E|].
    rewrite E in F. discriminate.
Qed.

(** X4 on a request for a code that is not in the library. *)
Lemma errors_change_nothing_witness :
  succeeded (snd (POST_inventory 0 seeded (with_codes "DR" "ZZ"))) = false
  /\ fst (POST_inventory 0 seeded (with_codes "DR" "ZZ")) = seeded.
Proof.
  assert (F : succeeded (snd (POST_inventory 0 seeded (with_codes "DR" "ZZ")))
              = false) by (vm_compute; reflexivity).
  split; [exact F|].
  exact (proj1 (errors_change_nothing 0 seeded) (with_codes "DR" "ZZ") F).
Defined.

(** X5.  The handlers of the inventory never touch the code library, and
    the handlers of the code library never touch the inventory nor the
    tables of the other categories. *)
Theorem handlers_keep_to_their_tables (tz : Z) (db : DB) :
  (forall b, fst (POST_inventory tz db b)
             = set_inventory db (inventory (fst (POST_inventory tz db b))))
  /\ (forall s, fst (DELETE_inventory db s)
                = set_inventory db (inventory (fst (DELETE_inventory db s))))
  /\ (forall category b,
         inventory (fst (POST_code db category b)) = inventory db
         /\ forall c, category_of category <> Some c ->
                      same_table c db (fst (POST_code db category b)))
  /\ (forall category k,
         inventory (fst (DELETE_code db category k)) = inventory db
         /\ forall c, category_of category <> Some c ->
                      same_table c db (fst (DELETE_code db category k))).
Proof.
  split; [intros b; apply POST_inventory_tables|].
  split; [intros s; apply DELETE_inventory_tables|]. split.
  - intros category b.
    destruct (POST_code_cases db category b)
      as [[E _]|[c [Hc [_ [_ [_ [_ [C _]]]]]]]];
      [rewrite E; split; [reflexivity | intros c _; now destruct c]|].
    destruct (fst (POST_code db category b)) as [t' c' p' z' i'].
    rewrite Hc.
    destruct c; cbn in C;
      match type of C with
      | option_map _ (create ?t ?r) = _ => destruct (create t r); [|discriminate]
      end; injection C as <- <- <- <- <-;
      (split; [reflexivity|]); intros c N; destruct c;
      try reflexivity; now destruct N.
  - intros category k.
    destruct (DELETE_code_cases db category k)
      as [[E _]|[c [Hc [_ [D _]]]]];
      [rewrite E; split; [reflexivity | intros c _; now destruct c]|].
    destruct (fst (DELETE_code db category k)) as [t' c' p' z' i'].
    rewrite Hc.
    destruct c; cbn in D;
      match type of D with
      | option_map _ (delete ?t ?k) = _ => destruct (delete t k); [|discriminate]
      end; injection D as <- <- <- <- <-;
      (split; [reflexivity|]); intros c N; destruct c;
      try reflexivity; now destruct N.
Qed.

(** X5 on a new color: the types are as they were. *)
Lemma handlers_keep_to_their_tables_witness :
  category_of "colors" <> Some Ctypes
  /\ types (fst (POST_code seeded "colors" (mkCodeBody "AQ" "Aqua" None "")))
     = types seeded.
Proof.
  assert (N : category_of "colors" <> Some Ctypes) by discriminate.
  split; [exact N|].
  exact (proj2 (proj1 (proj2 (proj2 (handlers_keep_to_their_tables 0 seeded)))
                  "colors" (mkCodeBody "AQ" "Aqua" None "")) Ctypes N).
Defined.

(* ================================================================== *)
(** ** Referential integrity *)

Section Integrity.
Variable tz : Z.

Lemma Category_eq_dec (c c' : Category) : {c = c'} + {c <> c'}.
Proof. decide equality. Qed.

Lemma code_create_ok_inventory db i db' :
  code_create db i = Some db' -> inventory db' = inventory db /\ True.
Proof.
  intros C. split; [|exact I].
  destruct i as [r|r|r|r]; cbn in C;
    match type of C with
    | option_map _ (create ?t ?r) = _ =>
        destruct (create t r) as [t'|]; [|discriminate]
    end; now injection C as <-.
Qed.

Lemma row_refs_ok_iff db r :
  row_refs_ok db r <-> forall c, In (fieldMap c r) (codes_of c db).
Proof.
  unfold row_refs_ok. split.
  - intros [Ht [Hc [Hp Hz]]] c. now destruct c.
  - intros H. repeat split;
      [apply (H Ctypes) | apply (H Ccolors) | apply (H Cpatterns)
       | apply (H Csizes)].
Qed.

Lemma keys_filter_neq {A} `{Model A} (t : list A) k x :
  In x (keys (filter (fun r => negb (String.eqb (key r) k)) t))
  <-> In x (keys t) /\ x <> k.
Proof.
  unfold keys. rewrite !in_map_iff. split.
  - intros [r [<- I]]. apply filter_In in I. destruct I as [I N].
    apply negb_true_iff, String.eqb_neq in N. split; [now exists r | exact N].
  - intros [[r [<- I]] N]. exists r. split; [reflexivity|].
    apply filter_In. split; [exact I|].
    now apply negb_true_iff, String.eqb_neq.
Qed.

(** A [create] of the library keeps every code there was. *)
Lemma code_create_incl db i db' c x :
  code_create db i = Some db' -> In x (codes_of c db) -> In x (codes_of c db').
Proof.
  intros C I.
  destruct i as [r|r|r|r]; cbn in C;
    match type of C with
    | option_map _ (create ?t ?r) = _ =>
        destruct (create t r) as [t'|] eqn:E; [|discriminate]
    end; injection C as <-; apply create_Some in E; destruct E as [-> _];
    destruct c; cbn in *; auto; unfold keys in *; rewrite map_app;
    apply in_or_app; now left.
Qed.

(** A [delete] of the library keeps every code but the one deleted. *)
Lemma code_delete_keeps c db k db' c' x :
  code_delete c db k = Some db' -> In x (codes_of c' db) ->
  c' <> c \/ x <> k -> In x (codes_of c' db').
Proof.
  intros D I N.
  destruct c; cbn in D;
    match type of D with
    | option_map _ (delete ?t ?k) = _ =>
        destruct (delete t k) as [t'|] eqn:E; [|discriminate]
    end; injection D as <-; apply delete_Some in E;
    destruct E as [_ [_ ->]]; destruct c'; cbn in *; auto;
    apply keys_filter_neq; (split; [exact I|]);
    destruct N as [N|N]; auto; now destruct N.
Qed.

Lemma inUseCount_zero c db k :
  inUseCount c db k = 0 -> forall r, In r (inventory db) -> fieldMap c r <> k.
Proof.
  intros Z0 r I E.
  assert (P : (0 <? inUseCount c db k) = true)
    by (apply inUseCount_pos; now exists r).
  rewrite Z0 in P. discriminate.
Qed.

Lemma fk_ok_same db db' :
  inventory db' = inventory db ->
  (forall c x, In x (codes_of c db) ->
               (exists r, In r (inventory db) /\ fieldMap c r = x) ->
               In x (codes_of c db')) ->
  fk_ok db -> fk_ok db'.
Proof.
  unfold fk_ok. intros Ei Hc F. rewrite Ei. rewrite Forall_forall in *.
  intros r I. apply row_refs_ok_iff. intros c. apply Hc.
  - now apply (proj1 (row_refs_ok_iff db r) (F r I)).
  - now exists r.
Qed.

Lemma POST_inventory_fk_ok db b :
  fk_ok db -> fk_ok (fst (POST_inventory tz db b)).
Proof.
  intros F. destruct (POST_inventory tz db b) as [db' r] eqn:E.
  destruct (POST_inventory_cases _ _ _ _ _ E)
    as [[-> _]|[i [P [_ [-> _]]]]]; cbn [fst]; [assumption|].
  unfold fk_ok in *. cbn [inventory set_inventory].
  apply Forall_app. split.
  - rewrite Forall_forall in *. intros x I. specialize (F x I).
    unfold row_refs_ok in *. now destruct db.
  - constructor; [|constructor]. apply POST_prepare_inl in P.
    destruct P as [_ [_ [_ [_ [R [Et [Ec [Ep [Ez _]]]]]]]]].
    unfold row_refs_ok, resolved in *. rewrite Et, Ec, Ep, Ez.
    now destruct db.
Qed.

Lemma DELETE_inventory_fk_ok db s :
  fk_ok db -> fk_ok (fst (DELETE_inventory db s)).
Proof.
  intros F.
  destruct (DELETE_inventory_cases db s) as [[inv [D ->]]|[_ ->]];
    [|assumption].
  apply delete_Some in D. destruct D as [_ [_ ->]].
  unfold fk_ok in *. cbn. rewrite Forall_forall in *. intros r I.
  apply filter_In in I. destruct I as [I _]. specialize (F r I).
  unfold row_refs_ok in *. now destruct db.
Qed.

Lemma POST_code_fk_ok db category b :
  fk_ok db -> fk_ok (fst (POST_code db category b)).
Proof.
  intros F.
  destruct (POST_code_cases db category b)
    as [[E _]|[c [_ [_ [_ [_ [_ [C _]]]]]]]]; [now rewrite E|].
  apply (fk_ok_same db); [| |assumption].
  - now destruct (code_create_ok_inventory db _ _ C).
  - intros c' x I _. now apply (code_create_incl _ _ _ _ _ C).
Qed.

Lemma DELETE_code_fk_ok db category k :
  fk_ok db -> fk_ok (fst (DELETE_code db category k)).
Proof.
  intros F.
  destruct (DELETE_code_cases db category k)
    as [[E _]|[c [_ [Z0 [D _]]]]]; [now rewrite E|].
  apply (fk_ok_same db); [| |assumption].
  - now apply code_delete_Some in D.
  - intros c' x I [r [Ir Er]]. apply (code_delete_keeps _ _ _ _ _ _ D I).
    destruct (Category_eq_dec c' c) as [->|N]; [right|now left].
    rewrite <- Er. now apply (inUseCount_zero c db k Z0).
Qed.

Lemma POST_sync_fk_ok w db skus :
  fk_ok db -> fk_ok (fst (POST_sync w db skus)).
Proof.
  intros F. destruct (POST_sync_rows w db skus) as [inv [-> S]].
  unfold fk_ok in *. cbn [inventory set_inventory].
  induction S as [|r r' t t' Hr _ IH]; [constructor|].
  inversion F; subst. constructor; [|now apply IH].
  assert (R : row_refs_ok db r') by now destruct Hr as [->|[at_ ->]].
  unfold row_refs_ok in *. now destruct db.
Qed.

Lemma step_fk_ok db c : fk_ok db -> fk_ok (step tz db c).
Proof.
  intros F. destruct c; cbn [step];
    [apply POST_inventory_fk_ok | apply DELETE_inventory_fk_ok
     | apply POST_code_fk_ok | apply DELETE_code_fk_ok
     | apply POST_sync_fk_ok]; assumption.
Qed.

Lemma run_fk_ok cs : forall db, fk_ok db -> fk_ok (run tz db cs).
Proof.
  unfold run. induction cs as [|c cs IH]; intros db H; cbn; [assumption|].
  apply IH. now apply step_fk_ok.
Qed.

End Integrity.

(** The rows of the example refer to codes of the seeded library. *)
Lemma seeded_with_fk_ok ns : fk_ok (seeded_with ns).
Proof.
  unfold fk_ok, seeded_with. cbn [inventory set_inventory].
  apply Forall_forall. intros r I. apply in_map_iff in I.
  destruct I as [n [<- _]]. repeat split; vm_compute; tauto.
Qed.

(** X6.  Referential integrity: after every history of calls, the four
    codes of every row of the inventory still have a row in their category
    of the code library; a code that a row refers to is never deleted and a
    row is never created with a code that is not there. *)
Theorem referential_integrity (tz : Z) (db : DB) (cs : list call)
    (r : Inventory) :
  fk_ok db ->
  In r (inventory (run tz db cs)) ->
  findUnique (types (run tz db cs)) (typeCode r) <> None
  /\ findUnique (colors (run tz db cs)) (colorCode r) <> None
  /\ findUnique (patterns (run tz db cs)) (patternCode r) <> None
  /\ findUnique (sizes (run tz db cs)) (sizeCode r) <> None.
Proof.
  intros F I. pose proof (run_fk_ok tz cs db F) as F'.
  unfold fk_ok in F'. rewrite Forall_forall in F'.
  destruct (F' r I) as [Ht [Hc [Hp Hz]]]. unfold codes_of in *.
  repeat split; intros N; apply findUnique_None in N; contradiction.
Qed.

(** X6 on the seeded database: after an allocation, a try to delete the
    color of the row, and the deletion of another color. *)
Lemma referential_integrity_witness :
  fk_ok seeded
  /\ In (example_row 1)
       (inventory (run 0 seeded [Allocate example_body;
                                 DeleteCode "colors" "BL";
                                 DeleteCode "colors" "RD"]))
  /\ findUnique
       (colors (run 0 seeded [Allocate example_body;
                              DeleteCode "colors" "BL";
                              DeleteCode "colors" "RD"])) "BL" <> None.
Proof.
  assert (F : fk_ok seeded) by constructor.
  assert (I : In (example_row 1)
                (inventory (run 0 seeded [Allocate example_body;
                                          DeleteCode "colors" "BL";
                                          DeleteCode "colors" "RD"])))
    by (vm_compute; tauto).
  split; [exact F|]. split; [exact I|].
  exact (proj1 (proj2 (referential_integrity 0 seeded _ (example_row 1) F I))).
Defined.

(* ================================================================== *)
(** ** The ledger only grows, but for deletions *)

Section AppendOnly.
Variable tz : Z.

Lemma app_same_head (a b c d : list Inventory) :
  (a ++ b = c ++ d)%list -> List.length a = List.length c -> a = c.
Proof.
  revert c. induction a as [|x a IH]; intros [|y c] E L;
    try discriminate L; [reflexivity|].
  cbn in E, L. injection E as -> E. f_equal. apply IH; [exact E | lia].
Qed.

(** A call that is not the deletion of an item keeps the rows there are,
    in their order, writing at most the columns of the synchronisation, and
    puts the new rows behind them. *)
Lemma step_appends db c :
  keeps_rows c = true ->
  exists old new,
    inventory (step tz db c) = (old ++ new)%list
    /\ Forall2 sync_only (inventory db) old
    /\ (no_sync c = true -> old = inventory db).
Proof.
  assert (Same : forall db', inventory db' = inventory db ->
            exists old new,
              inventory db' = (old ++ new)%list
              /\ Forall2 sync_only (inventory db) old
              /\ (no_sync c = true -> old = inventory db)).
  { intros db' E. exists (inventory db), []. rewrite app_nil_r.
    split; [exact E|]. split; [apply sync_only_all_refl | reflexivity]. }
  intros K. destruct c as [b|s|category b|category k|w skus]; cbn [step];
    [| discriminate | | |].
  - destruct (POST_inventory tz db b) as [db' r] eqn:E.
    destruct (POST_inventory_cases _ _ _ _ _ E)
      as [[-> _]|[i [_ [_ [-> _]]]]]; cbn [fst]; [now apply Same|].
    exists (inventory db), [i]. split; [reflexivity|].
    split; [apply sync_only_all_refl | reflexivity].
  - apply Same, POST_code_inventory.
  - apply Same, DELETE_code_inventory.
  - destruct (POST_sync_rows w db skus) as [inv [-> F]].
    exists inv, []. rewrite app_nil_r.
    split; [reflexivity|]. split; [exact F | discriminate].
Qed.

Lemma run_appends cs : forall db,
  forallb keeps_rows cs = true ->
  exists old new,
    inventory (run tz db cs) = (old ++ new)%list
    /\ Forall2 sync_only (inventory db) old
    /\ (forallb no_sync cs = true -> old = inventory db).
Proof.
  unfold run. induction cs as [|c cs IH]; intros db K; cbn [fold_left].
  - exists (inventory db), []. rewrite app_nil_r.
    split; [reflexivity|]. split; [apply sync_only_all_refl | reflexivity].
  - cbn [forallb] in K. apply andb_prop in K. destruct K as [Kc Kcs].
    destruct (step_appends db c Kc) as [o1 [n1 [E1 [F1 N1]]]].
    destruct (IH (step tz db c) Kcs) as [o2 [n2 [E2 [F2 N2]]]].
    rewrite E1 in F2. apply Forall2_app_inv_l in F2.
    destruct F2 as [o2a [o2b [Fa [Fb ->]]]].
    exists o2a, (o2b ++ n2)%list. split; [now rewrite E2, app_assoc|].
    split; [now apply (sync_only_all_trans _ o1)|].
    cbn [forallb]. intros S. apply andb_prop in S. destruct S as [Sc Scs].
    specialize (N1 Sc). specialize (N2 Scs). subst o1.
    pose proof (Forall2_length Fa) as La.
    apply (app_same_head o2a (o2b ++ n2) (inventory db) (n1 ++ n2));
      [|now symmetry].
    now rewrite !app_assoc, N2, E1.
Qed.

(** The identifiers of a ledger whose rows were kept. *)
Lemma run_appends_keys cs db :
  forallb keeps_rows cs = true ->
  exists new,
    keys (inventory (run tz db cs)) = (keys (inventory db) ++ new)%list.
Proof.
  intros K. destruct (run_appends cs db K) as [old [new [E [F _]]]].
  exists (keys new). now rewrite E, keys_app, (sync_only_keys _ _ F).
Qed.

End AppendOnly.

(** X7.  The ledger only grows but for deletions: in a history without
    [DELETE /api/inventory/[sku]] the rows there were are still there, in
    their order and before the rows created since, each as it was or with
    the flag and the time of the synchronisation set (the one thing
    [POST /api/loyverse/sync] writes); without a synchronisation the
    inventory at the end is the inventory at the start followed by the new
    rows. *)
Theorem ledger_append_only (tz : Z) (cs : list call) (db : DB) :
  forallb keeps_rows cs = true ->
  (exists old new,
      inventory (run tz db cs) = (old ++ new)%list
      /\ Forall2 sync_only (inventory db) old)
  /\ (exists new,
         map sku (inventory (run tz db cs))
         = (map sku (inventory db) ++ new)%list)
  /\ (forall r, In r (inventory db) ->
                exists r', In r' (inventory (run tz db cs))
                           /\ sync_only r r')
  /\ (forallb no_sync cs = true ->
      exists new, inventory (run tz db cs) = (inventory db ++ new)%list).
Proof.
  intros K. destruct (run_appends tz cs db K) as [old [new [E [F N]]]].
  split; [now exists old, new|]. split; [|split].
  - exact (run_appends_keys tz cs db K).
  - intros r I. rewrite E. clear E N.
    induction F as [|a b t t' Hab _ IH]; [contradiction|].
    destruct I as [->|I].
    + exists b. split; [now left | exact Hab].
    + destruct (IH I) as [r' [I' S]]. exists r'. split; [now right|exact S].
  - intros S. exists new. now rewrite E, (N S).
Qed.

(** X7 on the ledger with the first row of the example, which is then
    synchronised. *)
Lemma ledger_append_only_witness :
  let cs := [Allocate example_body;
             Sync example_world (Some ["DRBLFLMD25101701"]);
             DeleteCode "colors" "RD"] in
  forallb keeps_rows cs = true
  /\ inventory (run 0 (seeded_with [1]) cs)
     = [mark_synced 1760700000000 (example_row 1); example_row 2]
  /\ exists new,
       map sku (inventory (run 0 (seeded_with [1]) cs))
       = (map sku (inventory (seeded_with [1])) ++ new)%list.
Proof.
  intros cs.
  assert (K : forallb keeps_rows cs = true) by reflexivity.
  split; [exact K|]. split; [vm_compute; reflexivity|].
  exact (proj1 (proj2 (ledger_append_only 0 cs (seeded_with [1]) K))).
Defined.

(* ================================================================== *)
(** ** Adding a code *)

Section AddCode.
Variable tz : Z.

Lemma code_exists_false c db k :
  code_exists c db k = false <-> ~ In k (codes_of c db).
Proof.
  destruct c; cbn; rewrite <- findUnique_None;
    match goal with
    | |- context [findUnique ?t ?k] => destruct (findUnique t k)
    end; cbn; split; congruence.
Qed.

Lemma code_item_in c db b :
  match code_item c db b with
  | TypeItem _ => c = Ctypes
  | ColorItem _ => c = Ccolors
  | PatternItem _ => c = Cpatterns
  | SizeItem _ => c = Csizes
  end.
Proof. now destruct c. Qed.

(** The [create] of a code that is not in its category succeeds, and puts
    the code at the end of the category. *)
Lemma code_create_fresh c db b :
  ~ In (body_code b) (codes_of c db) ->
  exists db', code_create db (code_item c db b) = Some db'
              /\ codes_of c db' = (codes_of c db ++ [body_code b])%list.
Proof.
  intros N. destruct c; cbn in *; rewrite create_fresh by exact N; cbn;
    eexists; (split; [reflexivity|]); cbn; unfold keys; now rewrite map_app.
Qed.

Lemma fold_left_max_ge xs : forall x y,
  In y (x :: xs) -> y <= fold_left Z.max xs x.
Proof.
  induction xs as [|a xs IH]; intros x y I; cbn [fold_left].
  - destruct I as [E|[]]. lia.
  - pose proof (IH (Z.max x a) (Z.max x a) (or_introl eq_refl)) as M.
    destruct I as [E|[E|I]]; [lia | lia |].
    apply IH. now right.
Qed.

(** The rank a new size is given is above the rank of every size. *)
Lemma new_sortOrder_above db b z :
  In z (sizes db) ->
  sortOrder z
  < match code_item Csizes db b with
    | SizeItem r => sortOrder r
    | _ => 0
    end.
Proof.
  intros I. cbn. unfold max_sortOrder.
  assert (Im : In (sortOrder z) (map sortOrder (sizes db)))
    by now apply in_map.
  destruct (map sortOrder (sizes db)) as [|x xs]; [contradiction|].
  pose proof (fold_left_max_ge xs x _ Im). lia.
Qed.

Lemma ranks_filter (keep : SizeRow -> bool) (zs : list SizeRow) :
  NoDup (map sortOrder zs) -> NoDup (map sortOrder (filter keep zs)).
Proof.
  induction zs as [|z zs IH]; cbn; intros ND; [constructor|].
  inversion ND as [|? ? N ND']; subst. destruct (keep z); cbn; [|auto].
  constructor; [|auto]. intros I. apply N. apply in_map_iff in I.
  destruct I as [x [E Ix]]. apply filter_In in Ix. rewrite <- E.
  apply in_map. tauto.
Qed.

Lemma or_string_nonempty x y :
  falsy_string y = false -> or_string x y <> EmptyString.
Proof.
  unfold or_string. destruct x; cbn; [|discriminate].
  destruct y; [discriminate|]. discriminate.
Qed.

Lemma POST_code_rows_ok db category b :
  library_rows_ok db -> library_rows_ok (fst (POST_code db category b)).
Proof.
  intros [Ha [Hh Hs]].
  destruct (POST_code_cases db category b)
    as [[E _]|[c [_ [Fc [_ [_ [_ [C _]]]]]]]];
    [rewrite E; now repeat split|].
  destruct c; cbn in C;
    match type of C with
    | option_map _ (create ?t ?r) = _ =>
        destruct (create t r) as [t'|] eqn:E; [|discriminate]
    end; injection C as <-; apply create_Some in E; destruct E as [-> _];
    unfold library_rows_ok; cbn; try (now repeat split).
  - split; [exact Ha|]. split; [|exact Hs].
    apply Forall_app. split; [exact Hh|]. constructor; [|constructor]. cbn.
    destruct (body_hexValue b) as [h|]; [|discriminate].
    destruct h; cbn; discriminate.
  - split; [|split; [exact Hh|]].
    + apply Forall_app. split; [exact Ha|]. constructor; [|constructor].
      cbn. now apply or_string_nonempty.
    + rewrite map_app. cbn [map sortOrder].
      apply NoDup_app; [exact Hs | repeat constructor; intros [] |].
      intros x Ix [<-|[]]. apply in_map_iff in Ix.
      destruct Ix as [z [Ez Iz]].
      pose proof (new_sortOrder_above db b z Iz) as L. cbn in L. lia.
Qed.

Lemma DELETE_code_rows_ok db category k :
  library_rows_ok db -> library_rows_ok (fst (DELETE_code db category k)).
Proof.
  intros [Ha [Hh Hs]].
  destruct (DELETE_code_cases db category k)
    as [[E _]|[c [_ [_ [D _]]]]]; [rewrite E; now repeat split|].
  destruct c; cbn in D;
    match type of D with
    | option_map _ (delete ?t ?k) = _ =>
        destruct (delete t k) as [t'|] eqn:E; [|discriminate]
    end; injection D as <-; apply delete_Some in E;
    destruct E as [_ [_ ->]]; unfold library_rows_ok; cbn;
    try (now repeat split).
  - split; [exact Ha|]. split; [|exact Hs].
    rewrite Forall_forall in *. intros x Ix. apply filter_In in Ix.
    apply Hh. tauto.
  - split; [|split; [exact Hh|]].
    + rewrite Forall_forall in *. intros x Ix. apply filter_In in Ix.
      apply Ha. tauto.
    + now apply ranks_filter.
Qed.

Lemma step_rows_ok db c : library_rows_ok db -> library_rows_ok (step tz db c).
Proof.
  intros H. destruct c as [b|s|category b|category k|w skus]; cbn [step].
  5: { destruct (POST_sync_rows w db skus) as [inv [-> _]]. now destruct db. }
  - rewrite POST_inventory_tables. now destruct db.
  - rewrite DELETE_inventory_tables. now destruct db.
  - now apply POST_code_rows_ok.
  - now apply DELETE_code_rows_ok.
Qed.

Lemma run_rows_ok cs : forall db,
  library_rows_ok db -> library_rows_ok (run tz db cs).
Proof.
  unfold run. induction cs as [|c cs IH]; intros db H; cbn; [assumption|].
  apply IH. now apply step_rows_ok.
Qed.

End AddCode.

Section AddCodeFacts.

Lemma seeded_rows_ok : library_rows_ok seeded.
Proof.
  split; [|split].
  - cbn. repeat (constructor; [discriminate|]). constructor.
  - cbn. repeat (constructor; [discriminate|]). constructor.
  - cbn. repeat (constructor; [cbn; intuition discriminate|]). constructor.
Qed.

Lemma inUseCount_unreferenced c db k :
  (forall r, In r (inventory db) -> fieldMap c r <> k) ->
  inUseCount c db k = 0.
Proof.
  intros N. destruct (0 <? inUseCount c db k) eqn:P.
  - apply inUseCount_pos in P. destruct P as [r [I E]]. now destruct (N r I).
  - apply Z.ltb_ge in P. unfold inUseCount in *. lia.
Qed.

(** Deleting the code a [create] has just put in gives the library back. *)
Lemma code_delete_created c db b db' :
  ~ In (body_code b) (codes_of c db) ->
  code_create db (code_item c db b) = Some db' ->
  code_delete c db' (body_code b) = Some db.
Proof.
  intros N C.
  destruct c; cbn in *;
    match type of C with
    | option_map _ (create ?t ?r) = _ =>
        destruct (create t r) as [t'|] eqn:E; [|discriminate]
    end; injection C as <-; apply create_Some in E; destruct E as [-> _];
    cbn.
  - pose proof (@delete_last CodeRow CodeRow_Model (types db)
                  (mkCodeRow (body_code b) (body_name b)) N) as D.
    cbn in D. rewrite D. now destruct db.
  - pose proof (@delete_last ColorRow ColorRow_Model (colors db)
                  (mkColorRow (body_code b) (body_name b)
                     match body_hexValue b with
                     | Some h => if falsy_string h then None else Some h
                     | None => None
                     end) N) as D.
    cbn in D. rewrite D. now destruct db.
  - pose proof (@delete_last CodeRow CodeRow_Model (patterns db)
                  (mkCodeRow (body_code b) (body_name b)) N) as D.
    cbn in D. rewrite D. now destruct db.
  - pose proof (@delete_last SizeRow SizeRow_Model (sizes db)
                  (mkSizeRow (body_code b) (body_name b)
                     (or_string (body_abbrev b) (body_code b))
                     (match max_sortOrder (sizes db) with
                      | Some m => m
                      | None => 0
                      end + 1)) N) as D.
    cbn in D. rewrite D. now destruct db.
Qed.

End AddCodeFacts.

(** X8.  The rows of the code library stay well formed: after every
    history of calls every size has a non-empty abbreviation, no color has
    the empty string as its hex value, and no two sizes have the same rank;
    a size that is added gets an abbreviation (its code when the request
    has none) and a rank above the rank of every size there is. *)
Theorem library_rows_stay_well_formed (tz : Z) (db : DB) (cs : list call)
    (category : string) (b : CodeBody) (r : SizeRow) :
  library_rows_ok db ->
  library_rows_ok (run tz db cs)
  /\ (snd (POST_code db category b) = Json 200 (SizeItem r) ->
      abbrev r <> EmptyString
      /\ (body_abbrev b = EmptyString -> abbrev r = size_code r)
      /\ forall z, In z (sizes db) -> sortOrder z < sortOrder r).
Proof.
  intros H. split; [now apply run_rows_ok|]. intros E.
  destruct (POST_code_cases db category b)
    as [[_ [st [e E']]]|[c [_ [Fc [_ [_ [_ [_ E']]]]]]]]; [congruence|].
  rewrite E' in E. injection E as E.
  pose proof (code_item_in c db b) as Hc. rewrite E in Hc. subst c.
  cbn in E. injection E as <-. cbn. split; [|split].
  - now apply or_string_nonempty.
  - intros ->. reflexivity.
  - intros z Iz. pose proof (new_sortOrder_above db b z Iz) as L.
    cbn in L. exact L.
Qed.

(** X8 on the seeded database and a new size without an abbreviation. *)
Lemma library_rows_stay_well_formed_witness :
  library_rows_ok seeded
  /\ snd (POST_code seeded "sizes" (mkCodeBody "4X" "4X Large" None ""))
     = Json 200 (SizeItem (mkSizeRow "4X" "4X Large" "4X" 9))
  /\ forall z, In z (sizes seeded) -> sortOrder z < 9.
Proof.
  assert (E : snd (POST_code seeded "sizes"
                     (mkCodeBody "4X" "4X Large" None ""))
              = Json 200 (SizeItem (mkSizeRow "4X" "4X Large" "4X" 9)))
    by (vm_compute; reflexivity).
  split; [exact seeded_rows_ok|]. split; [exact E|].
  exact (proj2 (proj2 (proj2 (library_rows_stay_well_formed 0 seeded []
                                "sizes" (mkCodeBody "4X" "4X Large" None "")
                                (mkSizeRow "4X" "4X Large" "4X" 9)
                                seeded_rows_ok) E))).
Defined.

(** X9.  A POST to the code library succeeds exactly when the code and the
    name are present, the code has two characters, the category is one of
    the four and the code is not yet in it; the code is then the last of
    its category, and the same request sent again is rejected with "Code
    already exists". *)
Theorem add_code_outcome (db : DB) (category : string) (b : CodeBody) :
  (succeeded (snd (POST_code db category b)) = true <->
   falsy_string (body_code b) = false /\ falsy_string (body_name b) = false
   /\ String.length (body_code b) = 2%nat
   /\ exists c, category_of category = Some c
                /\ ~ In (body_code b) (codes_of c db))
  /\ (forall c, category_of category = Some c ->
                succeeded (snd (POST_code db category b)) = true ->
                codes_of c (fst (POST_code db category b))
                = (codes_of c db ++ [body_code b])%list
                /\ POST_code (fst (POST_code db category b)) category b
                   = (fst (POST_code db category b),
                      JsonError 400 E_code_exists)).
Proof.
  assert (Ok : forall c, category_of category = Some c ->
                 falsy_string (body_code b) = false ->
                 falsy_string (body_name b) = false ->
                 String.length (body_code b) = 2%nat ->
                 ~ In (body_code b) (codes_of c db) ->
                 exists db', POST_code db category b
                             = (db', Json 200 (code_item c db b))
                             /\ codes_of c db'
                                = (codes_of c db ++ [body_code b])%list).
  { intros c Hc Fc Fn L N. unfold POST_code. rewrite Fc, Fn, L, Hc. cbn.
    rewrite (proj2 (code_exists_false c db _) N).
    destruct (code_create_fresh c db b N) as [db' [-> E]]. now exists db'. }
  split.
  - split.
    + intros S. destruct (POST_code_cases db category b)
        as [[_ [st [e E]]]|[c [Hc [Fc [Fn [L [X _]]]]]]];
        [rewrite E in S; discriminate|].
      repeat split; auto. exists c. split; [exact Hc|].
      now apply code_exists_false.
    + intros [Fc [Fn [L [c [Hc N]]]]].
      destruct (Ok c Hc Fc Fn L N) as [db' [-> _]]. reflexivity.
  - intros c Hc S. destruct (POST_code_cases db category b)
      as [[_ [st [e E]]]|[c' [Hc' [Fc [Fn [L [X _]]]]]]];
      [rewrite E in S; discriminate|].
    assert (c' = c) as -> by congruence.
    apply code_exists_false in X.
    destruct (Ok c Hc Fc Fn L X) as [db' [E Ec]]. rewrite E. cbn [fst].
    split; [exact Ec|]. unfold POST_code. rewrite Fc, Fn, L, Hc. cbn.
    rewrite code_exists_In; [reflexivity|].
    rewrite Ec. apply in_or_app. right. now left.
Qed.

(** X9 on the seeded database and the new color AQ. *)
Lemma add_code_outcome_witness :
  category_of "colors" = Some Ccolors
  /\ succeeded (snd (POST_code seeded "colors"
                       (mkCodeBody "AQ" "Aqua" None ""))) = true
  /\ POST_code (fst (POST_code seeded "colors"
                       (mkCodeBody "AQ" "Aqua" None "")))
       "colors" (mkCodeBody "AQ" "Aqua" None "")
     = (fst (POST_code seeded "colors" (mkCodeBody "AQ" "Aqua" None "")),
        JsonError 400 E_code_exists).
Proof.
  assert (S : succeeded (snd (POST_code seeded "colors"
                                (mkCodeBody "AQ" "Aqua" None ""))) = true)
    by (vm_compute; reflexivity).
  split; [reflexivity|]. split; [exact S|].
  exact (proj2 (proj2 (add_code_outcome seeded "colors"
                         (mkCodeBody "AQ" "Aqua" None ""))
                  Ccolors eq_refl S)).
Defined.

(** X10.  Adding a code and deleting it again gives the database back: in
    a database with referential integrity, a POST to the code library that
    succeeds followed by the DELETE of the same code in the same category
    succeeds and restores the database exactly. *)
Theorem add_then_delete_code (db : DB) (category : string) (b : CodeBody) :
  fk_ok db ->
  succeeded (snd (POST_code db category b)) = true ->
  DELETE_code (fst (POST_code db category b)) category (body_code b)
  = (db, Json 200 tt).
Proof.
  intros F S. destruct (POST_code_cases db category b)
    as [[_ [st [e E]]]|[c [Hc [_ [_ [_ [X [C _]]]]]]]];
    [rewrite E in S; discriminate|].
  apply code_exists_false in X.
  pose proof (POST_code_inventory db category b) as Ei.
  set (db' := fst (POST_code db category b)) in *.
  assert (U : inUseCount c db' (body_code b) = 0).
  { apply inUseCount_unreferenced. rewrite Ei. intros r I E. apply X.
    unfold fk_ok in F. rewrite Forall_forall in F.
    rewrite <- E. now apply (proj1 (row_refs_ok_iff db r) (F r I)). }
  unfold DELETE_code. rewrite Hc, U. cbn.
  now rewrite (code_delete_created c db b db' X C).
Qed.

(** X10 on the seeded database with a row in the inventory. *)
Lemma add_then_delete_code_witness :
  fk_ok (seeded_with [1])
  /\ succeeded (snd (POST_code (seeded_with [1]) "patterns"
                       (mkCodeBody "HB" "Herringbone" None ""))) = true
  /\ DELETE_code (fst (POST_code (seeded_with [1]) "patterns"
                         (mkCodeBody "HB" "Herringbone" None "")))
       "patterns" "HB"
     = (seeded_with [1], Json 200 tt).
Proof.
  assert (F : fk_ok (seeded_with [1])) by apply seeded_with_fk_ok.
  assert (S : succeeded (snd (POST_code (seeded_with [1]) "patterns"
                                (mkCodeBody "HB" "Herringbone" None "")))
              = true) by (vm_compute; reflexivity).
  split; [exact F|]. split; [exact S|].
  exact (add_then_delete_code (seeded_with [1]) "patterns"
           (mkCodeBody "HB" "Herringbone" None "") F S).
Defined.

(* ================================================================== *)
(** ** Creating, reading and deleting an item *)

Section ItemLifeCycle.
Variable tz : Z.

Lemma findUnique_snoc {A} `{Model A} (t : list A) r :
  ~ In (key r) (keys t) -> findUnique (t ++ [r]) (key r) = Some r.
Proof.
  intros N. unfold findUnique. induction t as [|x t IH]; cbn.
  - now rewrite String.eqb_refl.
  - destruct (String.eqb_spec (key x) (key r)) as [E|_].
    + exfalso. apply N. left. exact E.
    + apply IH. intros I. apply N. now right.
Qed.

Lemma fk_ok_include db r :
  fk_ok db -> In r (inventory db) ->
  exists x, include db r = Some x /\ the_item x = r
            /\ code (the_type x) = typeCode r
            /\ color_code (the_color x) = colorCode r
            /\ code (the_pattern x) = patternCode r
            /\ size_code (the_size x) = sizeCode r.
Proof.
  intros F I. unfold fk_ok in F. rewrite Forall_forall in F.
  destruct (F r I) as [Ht [Hc [Hp Hz]]]. unfold codes_of in *.
  destruct (findUnique_In _ _ Ht) as [t Ft].
  destruct (findUnique_In _ _ Hc) as [c Fc].
  destruct (findUnique_In _ _ Hp) as [p Fp].
  destruct (findUnique_In _ _ Hz) as [z Fz].
  unfold include. rewrite Ft, Fc, Fp, Fz. eexists. split; [reflexivity|].
  apply findUnique_Some in Ft, Fc, Fp, Fz. cbn. intuition.
Qed.

Lemma length_filter_remove {A} `{Model A} (t : list A) k :
  NoDup (keys t) -> In k (keys t) ->
  S (List.length (filter (fun r => negb (String.eqb (key r) k)) t))
  = List.length t.
Proof.
  induction t as [|x t IH]; cbn; intros ND I; [contradiction|].
  inversion ND as [|? ? N ND']; subst.
  destruct (String.eqb_spec (key x) k) as [E|E]; cbn.
  - f_equal. rewrite forallb_filter_id; [reflexivity|].
    apply forallb_forall. intros y Iy.
    destruct (String.eqb_spec (key y) k) as [E'|]; [|reflexivity].
    exfalso. apply N. rewrite E, <- E'. now apply in_map.
  - f_equal. apply IH; [assumption|]. destruct I as [I|I]; [contradiction|].
    exact I.
Qed.

End ItemLifeCycle.



(** X12.  Deleting an item: when the identifier is in the inventory, whose
    identifiers are distinct, the call answers 200 and removes that one
    row, keeping every other row; when it is not, the call answers 500, not
    404, and changes nothing, so a second deletion of the same item
    fails. *)
Theorem delete_item_outcome (db : DB) (s : string) :
  NoDup (map sku (inventory db)) ->
  (In s (map sku (inventory db)) ->
   snd (DELETE_inventory db s) = Json 200 tt
   /\ ~ In s (map sku (inventory (fst (DELETE_inventory db s))))
   /\ (forall r, In r (inventory db) -> sku r <> s ->
                 In r (inventory (fst (DELETE_inventory db s))))
   /\ S (List.length (inventory (fst (DELETE_inventory db s))))
      = List.length (inventory db)
   /\ DELETE_inventory (fst (DELETE_inventory db s)) s
      = (fst (DELETE_inventory db s), JsonError 500 E_delete_item))
  /\ (~ In s (map sku (inventory db)) ->
      DELETE_inventory db s = (db, JsonError 500 E_delete_item)).
Proof.
  intros ND.
  assert (Miss : forall d, ~ In s (map sku (inventory d)) ->
                           DELETE_inventory d s
                           = (d, JsonError 500 E_delete_item)).
  { intros d N. unfold DELETE_inventory, delete.
    apply (findUnique_None (H := Inventory_Model)) in N. now rewrite N. }
  split; [|apply Miss].
  intros I. destruct (DELETE_inventory_cases db s) as [[inv [D E]]|[D E]].
  - rewrite E. cbn [fst snd inventory set_inventory].
    apply delete_Some in D. destruct D as [_ [N Einv]].
    split; [reflexivity|]. split; [exact N|]. split; [|split].
    + intros r Ir Nr. rewrite Einv. apply filter_In. split; [exact Ir|].
      now apply negb_true_iff, String.eqb_neq.
    + rewrite Einv.
      apply (length_filter_remove (H := Inventory_Model)); assumption.
    + apply Miss. exact N.
  - exfalso. unfold delete in D.
    destruct (findUnique_In (H := Inventory_Model) _ _ I) as [r F].
    now rewrite F in D.
Qed.

(** X12 on the ledger with the first two rows of the example. *)
Lemma delete_item_outcome_witness :
  NoDup (map sku (inventory (seeded_with [1; 2])))
  /\ In "DRBLFLMD25101701" (map sku (inventory (seeded_with [1; 2])))
  /\ DELETE_inventory (seeded_with [1; 2]) "DRBLFLMD25101701"
     = (seeded_with [2], Json 200 tt)
  /\ DELETE_inventory (seeded_with [2]) "DRBLFLMD25101701"
     = (seeded_with [2], JsonError 500 E_delete_item).
Proof.
  assert (ND : NoDup (map sku (inventory (seeded_with [1; 2])))).
  { repeat constructor; cbn; intuition discriminate. }
  assert (I : In "DRBLFLMD25101701"
                (map sku (inventory (seeded_with [1; 2])))) by now left.
  assert (E : DELETE_inventory (seeded_with [1; 2]) "DRBLFLMD25101701"
              = (seeded_with [2], Json 200 tt)) by (vm_compute; reflexivity).
  split; [exact ND|]. split; [exact I|]. split; [exact E|].
  pose proof (proj1 (delete_item_outcome (seeded_with [1; 2])
                       "DRBLFLMD25101701" ND) I) as [_ [_ [_ [_ T]]]].
  rewrite E in T. exact T.
Defined.

(** X13.  Reading back: the row a POST to the inventory returned is found
    by GET under its identifier, with the four rows of the code library
    whose names make its display name; before the call GET answered 404
    under this identifier, and once the item is deleted it answers 404
    again. *)
Theorem created_item_is_found (tz : Z) (db db' : DB) (b : InventoryBody)
    (st : Z) (item : Inventory) :
  POST_inventory tz db b = (db', Json st item) ->
  (exists x,
      GET_item db' (sku item) = Json 200 x
      /\ the_item x = item
      /\ displayName item
         = name (the_type x) ++ ", " ++ color_name (the_color x) ++ " "
           ++ name (the_pattern x) ++ ", " ++ abbrev (the_size x))
  /\ GET_item db (sku item) = JsonError 404 E_not_found
  /\ GET_item (fst (DELETE_inventory db' (sku item))) (sku item)
     = JsonError 404 E_not_found.
Proof.
  intros P. pose proof (DELETE_after_POST tz _ _ _ _ _ P) as D.
  pose proof P as P'. apply POST_inventory_created in P'.
  destruct P' as [_ [Pp [-> N]]].
  assert (G : GET_item db (sku item) = JsonError 404 E_not_found).
  { unfold GET_item.
    apply (findUnique_None (H := Inventory_Model)) in N. now rewrite N. }
  split; [|split; [exact G | now rewrite D]].
  unfold GET_item. cbn [inventory set_inventory].
  pose proof (findUnique_snoc (H := Inventory_Model) _ item N) as Fi.
  change (key item) with (sku item) in Fi. rewrite Fi.
  unfold POST_prepare in Pp.
  destruct (missing_fields b); [discriminate|].
  destruct (nextSequenceNum _) as [s|]; [|discriminate].
  destruct (findUnique (types db) _) as [t|] eqn:Ft; [|discriminate].
  destruct (findUnique (colors db) _) as [c|] eqn:Fc; [|discriminate].
  destruct (findUnique (patterns db) _) as [p|] eqn:Fp; [|discriminate].
  destruct (findUnique (sizes db) _) as [z|] eqn:Fz; [|discriminate].
  injection Pp as <-. unfold include.
  cbn [typeCode colorCode patternCode sizeCode types colors patterns sizes
       set_inventory].
  rewrite Ft, Fc, Fp, Fz.
  eexists. split; [reflexivity|]. split; reflexivity.
Qed.

(** X13 on the seeded database and the example. *)
Lemma created_item_is_found_witness :
  POST_inventory 0 seeded example_body
  = (seeded_with [1], Json 201 (example_row 1))
  /\ GET_item (fst (DELETE_inventory (seeded_with [1])
                      (sku (example_row 1)))) (sku (example_row 1))
     = JsonError 404 E_not_found.
Proof.
  assert (P : POST_inventory 0 seeded example_body
              = (seeded_with [1], Json 201 (example_row 1)))
    by (vm_compute; reflexivity).
  split; [exact P|].
  exact (proj2 (proj2 (created_item_is_found 0 seeded (seeded_with [1])
                         example_body 201 (example_row 1) P))).
Defined.

(* ================================================================== *)
(** ** Reading the inventory *)

Section Reading.










End Reading.

(** X14.  GET of one item in a database with referential integrity: the
    call answers 200 with the row and its four relations exactly when the
    identifier is in the inventory, and 404 otherwise; it never answers
    500. *)
Theorem get_item_outcome (db : DB) (s : string) :
  fk_ok db ->
  (In s (map sku (inventory db)) ->
   exists x, GET_item db s = Json 200 x
             /\ sku (the_item x) = s /\ In (the_item x) (inventory db)
             /\ code (the_type x) = typeCode (the_item x)
             /\ color_code (the_color x) = colorCode (the_item x)
             /\ code (the_pattern x) = patternCode (the_item x)
             /\ size_code (the_size x) = sizeCode (the_item x))
  /\ (~ In s (map sku (inventory db)) ->
      GET_item db s = JsonError 404 E_not_found).
Proof.
  intros F. unfold GET_item. split.
  - intros I. destruct (findUnique_In (H := Inventory_Model) _ _ I) as [r Fr].
    rewrite Fr. apply findUnique_Some in Fr. destruct Fr as [Ir Er].
    destruct (fk_ok_include db r F Ir) as [x [-> [Ex [Et [Ec [Ep Ez]]]]]].
    exists x. rewrite Ex. repeat split; auto.
  - intros N. apply (findUnique_None (H := Inventory_Model)) in N.
    now rewrite N.
Qed.

(** X14 on the ledger with the first row of the example. *)
Lemma get_item_outcome_witness :
  fk_ok (seeded_with [1])
  /\ In "DRBLFLMD25101701" (map sku (inventory (seeded_with [1])))
  /\ exists x, GET_item (seeded_with [1]) "DRBLFLMD25101701" = Json 200 x
               /\ sku (the_item x) = "DRBLFLMD25101701".
Proof.
  assert (F : fk_ok (seeded_with [1])) by apply seeded_with_fk_ok.
  assert (I : In "DRBLFLMD25101701" (map sku (inventory (seeded_with [1]))))
    by now left.
  split; [exact F|]. split; [exact I|].
  destruct (proj1 (get_item_outcome (seeded_with [1]) "DRBLFLMD25101701" F) I)
    as [x [G [E _]]].
  now exists x.
Defined.



(* ================================================================== *)
(** ** An exhausted key, and two requests for one number *)

Section Exhaustion.
Variable tz : Z.

Lemma existingItems_app k db new :
  existingItems k (set_inventory db (inventory db ++ new))
  = (existingItems k db
     ++ filter (fun r => startsWith k (sku r)) new)%list.
Proof. unfold existingItems. cbn. apply filter_app. Qed.

(** What the handler observes under a key depends on the identifiers of
    the ledger only. *)
Lemma observed_keys k db :
  observed k db
  = map (fun s => JS.parseInt (trailing2 s))
      (filter (startsWith k) (keys (inventory db))).
Proof.
  unfold observed, existingItems, keys.
  induction (inventory db) as [|r t IH]; [reflexivity|].
  cbn [filter map]. change (key r) with (sku r).
  destruct (startsWith k (sku r)); cbn [map]; now rewrite IH.
Qed.

(** Rows that come on top of a maximum of 99 leave it at 99. *)
Lemma numeric_max_99_grows k db db' new :
  Forall row_ok (inventory db') ->
  keys (inventory db') = (keys (inventory db) ++ new)%list ->
  numeric_max (observed k db) 99 -> numeric_max (observed k db') 99.
Proof.
  intros Hok Ei [I M]. split.
  - rewrite observed_keys in *. rewrite Ei, filter_app, map_app.
    apply in_or_app. now left.
  - intros x Ix. rewrite (observed_sequenceNum k db' Hok) in Ix.
    apply in_map_iff in Ix. destruct Ix as [r [<- Ir]].
    pose proof (existingItems_ok k db' Hok) as Hx.
    rewrite Forall_forall in Hx.
    destruct (row_ok_parse r (Hx r Ir)) as [n [Hn [_ P]]].
    exists n. split; [exact P | lia].
Qed.

End Exhaustion.

(** X16.  An exhausted key stays exhausted: once 99 is the maximum
    sequence number under the key of a request, the request is refused with
    the error of the exhausted sequence after every further history of
    calls that deletes no item, whatever else is allocated or changed in
    the code library. *)
Theorem exhausted_key_stays_exhausted (tz : Z) (db : DB) (b : InventoryBody)
    (cs : list call) :
  db_ok db ->
  numeric_max (observed (baseKey tz b) db) 99 ->
  missing_fields b = false ->
  forallb keeps_rows cs = true ->
  POST_inventory tz (run tz db cs) b
  = (run tz db cs, JsonError 400 E_exhausted).
Proof.
  intros Hok N Hm K.
  destruct (run_ok tz cs db Hok) as [[_ Hrows] _].
  pose proof (run_appends_keys tz cs db K) as A.
  destruct A as [new Ei].
  pose proof (numeric_max_99_grows _ db _ new Hrows Ei N) as N'.
  rewrite (POST_inventory_exhausted tz _ b
             (numeric_max_99_exhausted _ _ Hrows N')).
  now rewrite Hm.
Qed.

(** X16 on a ledger with the number 99, after another key is served and a
    color is added. *)
Lemma exhausted_key_stays_exhausted_witness :
  db_ok (seeded_with [99])
  /\ numeric_max (observed (baseKey 0 example_body) (seeded_with [99])) 99
  /\ POST_inventory 0
       (run 0 (seeded_with [99])
          [Allocate (with_codes "SH" "BL");
           AddCode "colors" (mkCodeBody "AQ" "Aqua" None "")])
       example_body
     = (run 0 (seeded_with [99])
          [Allocate (with_codes "SH" "BL");
           AddCode "colors" (mkCodeBody "AQ" "Aqua" None "")],
        JsonError 400 E_exhausted).
Proof.
  assert (Hok : db_ok (seeded_with [99])).
  { split; [|exact (proj2 seeded_ok)]. split.
    - repeat constructor. intros [].
    - repeat constructor. exists 99. split; [lia | reflexivity]. }
  assert (N : numeric_max
                (observed (baseKey 0 example_body) (seeded_with [99])) 99).
  { split; [vm_compute; tauto|]. intros x Ix. vm_compute in Ix.
    destruct Ix as [<-|[]]. exists 99. split; [reflexivity|lia]. }
  split; [exact Hok|]. split; [exact N|].
  exact (exhausted_key_stays_exhausted 0 (seeded_with [99]) example_body
           [Allocate (with_codes "SH" "BL");
            AddCode "colors" (mkCodeBody "AQ" "Aqua" None "")]
           Hok N eq_refl eq_refl).
Defined.

(** X17.  Two requests for one number: when two handlers have read the
    same well-formed ledger for requests with the same allocation key and a
    purchase date that is a date, they have prepared the same identifier;
    the insert that comes first succeeds and appends its row, and the other
    is then answered 500 and writes nothing. *)
Theorem same_key_race_has_one_winner (tz : Z) (db : DB)
    (b1 b2 : InventoryBody) (d1 d2 : Inventory) :
  ledger_ok db ->
  POST_prepare tz db b1 = inl d1 ->
  POST_prepare tz db b2 = inl d2 ->
  baseKey tz b1 = baseKey tz b2 ->
  JS.Date_parse tz (body_purchaseDate b1) <> None ->
  sku d1 = sku d2
  /\ POST_commit db (inl d1)
     = (set_inventory db (inventory db ++ [d1]), Json 201 d1)
  /\ POST_commit (set_inventory db (inventory db ++ [d1])) (inl d2)
     = (set_inventory db (inventory db ++ [d1]), JsonError 500 E_create).
Proof.
  intros [_ Hok] P1 P2 Ek Hd. pose proof P1 as Q1.
  apply POST_prepare_inl in Q1. apply POST_prepare_inl in P2.
  destruct Q1 as [Hm [E1 [S1 [_ [Hr _]]]]]. destruct P2 as [_ [E2 [S2 _]]].
  assert (Es : sku d1 = sku d2).
  { rewrite S1, S2, Ek. f_equal. rewrite Ek in E1. congruence. }
  split; [exact Es|].
  destruct (POST_inventory_succeeds tz db b1 _ Hok Hm Hr Hd E1)
    as [item [C [P _]]].
  rewrite P1 in P. injection P as <-.
  unfold POST_inventory in C. rewrite P1 in C. split; [exact C|].
  unfold POST_commit. rewrite inventory_create_duplicate; [reflexivity|].
  cbn [inventory set_inventory]. rewrite keys_app. apply in_or_app.
  right. left. exact Es.
Qed.

(** X17 on two requests for the example that differ in their price. *)
Lemma same_key_race_has_one_winner_witness :
  ledger_ok seeded
  /\ POST_prepare 0 seeded example_body = inl (example_row 1)
  /\ POST_prepare 0 seeded (with_amounts (Some (10 # 1)) (Some (25 # 1)))
     = inl (first_row_with (10 # 1) (25 # 1))
  /\ POST_commit seeded (inl (example_row 1))
     = (seeded_with [1], Json 201 (example_row 1))
  /\ POST_commit (seeded_with [1]) (inl (first_row_with (10 # 1) (25 # 1)))
     = (seeded_with [1], JsonError 500 E_create).
Proof.
  assert (P1 : POST_prepare 0 seeded example_body = inl (example_row 1))
    by (vm_compute; reflexivity).
  assert (P2 : POST_prepare 0 seeded
                 (with_amounts (Some (10 # 1)) (Some (25 # 1)))
               = inl (first_row_with (10 # 1) (25 # 1)))
    by (vm_compute; reflexivity).
  assert (D : JS.Date_parse 0 (body_purchaseDate example_body) <> None)
    by (vm_compute; discriminate).
  split; [exact (proj1 seeded_ok)|]. split; [exact P1|]. split; [exact P2|].
  exact (proj2 (same_key_race_has_one_winner 0 seeded example_body
                  (with_amounts (Some (10 # 1)) (Some (25 # 1)))
                  (example_row 1) (first_row_with (10 # 1) (25 # 1))
                  (proj1 seeded_ok) P1 P2 ltac:(vm_compute; reflexivity) D)).
Defined.

(* ================================================================== *)
(** ** The page of the labels *)

Section Labels.
Import PrintPage.

Lemma has_app (s t : JSSet) y : has (s ++ t)%list y = has s y || has t y.
Proof. unfold has. apply existsb_app. Qed.

Lemma has_add s x y : has (add s x) y = has s y || String.eqb y x.
Proof.
  unfold add. destruct (has s x) eqn:Hx.
  - destruct (String.eqb_spec y x) as [->|_];
      [now rewrite Hx | now rewrite orb_false_r].
  - rewrite has_app. cbn. now rewrite orb_false_r.
Qed.

Lemma has_delete s x y :
  has (PrintPage.delete s x) y = has s y && negb (String.eqb y x).
Proof.
  unfold has, PrintPage.delete. induction s as [|a s IH]; cbn; [reflexivity|].
  destruct (String.eqb a x) eqn:Eax; cbn; rewrite IH.
  - apply String.eqb_eq in Eax. subst a.
    destruct (String.eqb y x); cbn; [now rewrite andb_false_r | reflexivity].
  - destruct (String.eqb y a) eqn:Eya; cbn; [|reflexivity].
    apply String.eqb_eq in Eya. subst a. now rewrite Eax.
Qed.

Lemma has_fold_add l : forall s y,
  has (fold_left add l s) y = has s y || existsb (String.eqb y) l.
Proof.
  induction l as [|a l IH]; intros s y; cbn [fold_left existsb];
    [now rewrite orb_false_r|].
  now rewrite IH, has_add, orb_assoc.
Qed.

Lemma has_In s y : has s y = true <-> In y s.
Proof.
  unfold has. rewrite existsb_exists. split.
  - intros [x [I E]]. apply String.eqb_eq in E. now subst.
  - intros I. exists y. split; [exact I | apply String.eqb_refl].
Qed.

(** [new Set] of a list without repetition is the list. *)
Lemma fold_add_NoDup l : forall s,
  NoDup (s ++ l) -> fold_left add l s = (s ++ l)%list.
Proof.
  induction l as [|a l IH]; intros s ND; cbn; [now rewrite app_nil_r|].
  assert (Ha : has s a = false).
  { destruct (has s a) eqn:H; [|reflexivity]. apply has_In in H.
    apply NoDup_remove_2 in ND. exfalso. apply ND. apply in_or_app.
    now left. }
  unfold add at 2. rewrite Ha. rewrite IH; rewrite <- app_assoc; [reflexivity|].
  exact ND.
Qed.

Lemma handle_copies_ok st e : copies_ok st -> copies_ok (handle st e).
Proof.
  intros H. destruct e as [data|k| |k v]; cbn; try exact H.
  - intros k n. cbn. destruct (existsb _ data); [|discriminate].
    intros [= <-]. lia.
  - intros k' n. cbn. destruct (String.eqb k' k); [|apply H].
    intros [= <-]. lia.
Qed.

Lemma after_copies_ok es : copies_ok (after es).
Proof.
  unfold after.
  assert (G : forall st, copies_ok st -> copies_ok (fold_left handle es st)).
  { induction es as [|e es IH]; intros st H; cbn; [exact H|].
    apply IH. now apply handle_copies_ok. }
  apply G. intros k n. discriminate.
Qed.

Lemma copyCount_bounds st x : copies_ok st -> 1 <= copyCount st x <= 99.
Proof.
  intros H. unfold copyCount.
  destruct (copies st (item_sku x)) as [n|] eqn:E; [|lia].
  specialize (H _ _ E). destruct (n =? 0); lia.
Qed.

(** The labels of a list of items, for any selection and any count. *)
Lemma labels_length (sel : ItemWithRelations -> bool)
    (cnt : ItemWithRelations -> Z) (l : list ItemWithRelations) :
  (forall x, 1 <= cnt x <= 99) ->
  (List.length (filter sel l)
   <= List.length
        (flat_map (fun x => if sel x then repeat x (Z.to_nat (cnt x)) else [])
           l)
   <= 99 * List.length (filter sel l))%nat.
Proof.
  intros H. induction l as [|a l IH]; cbn; [lia|].
  rewrite length_app. destruct (sel a); cbn [List.length].
  - rewrite repeat_length. specialize (H a). lia.
  - lia.
Qed.

Lemma labels_of_sku (sel : ItemWithRelations -> bool)
    (cnt : ItemWithRelations -> Z) (l : list ItemWithRelations) x :
  NoDup (map item_sku l) -> In x l ->
  List.length
    (filter (fun y => String.eqb (item_sku y) (item_sku x))
       (flat_map (fun x => if sel x then repeat x (Z.to_nat (cnt x)) else [])
          l))
  = if sel x then Z.to_nat (cnt x) else 0%nat.
Proof.
  set (f := fun x => if sel x then repeat x (Z.to_nat (cnt x)) else []).
  set (p := fun y => String.eqb (item_sku y) (item_sku x)).
  assert (Out : forall l', ~ In (item_sku x) (map item_sku l') ->
                           filter p (flat_map f l') = []).
  { induction l' as [|a l' IH]; cbn; intros N; [reflexivity|].
    rewrite filter_app, IH by tauto. rewrite app_nil_r.
    unfold f. destruct (sel a); [|reflexivity].
    induction (Z.to_nat (cnt a)) as [|n IHn]; cbn; [reflexivity|].
    unfold p at 1. destruct (String.eqb_spec (item_sku a) (item_sku x)) as [E|_];
      [exfalso; apply N; now left | exact IHn]. }
  induction l as [|a l IH]; cbn; intros ND I; [contradiction|].
  inversion ND as [|? ? N ND']; subst. rewrite filter_app, length_app.
  destruct I as [->|I].
  - rewrite (Out l N). cbn [List.length]. rewrite Nat.add_0_r.
    unfold f. destruct (sel x); [|reflexivity].
    rewrite forallb_filter_id; [apply repeat_length|].
    apply forallb_forall. intros y Iy. apply repeat_spec in Iy. subst y.
    unfold p. apply String.eqb_refl.
  - rewrite (IH ND' I).
    replace (filter p (f a)) with (@nil ItemWithRelations); [reflexivity|].
    unfold f. destruct (sel a); [|reflexivity].
    induction (Z.to_nat (cnt a)) as [|n IHn]; cbn; [reflexivity|].
    unfold p at 1. destruct (String.eqb_spec (item_sku a) (item_sku x)) as [E|_];
      [|exact IHn].
    exfalso. apply N. rewrite E. now apply in_map.
Qed.

End Labels.

(** X18.  The labels of the print page, in every state the page can
    reach: a copy count is always between 1 and 99; every label is a
    selected item of the list; the number of labels is between the number
    of selected items and 99 times that number; and, the identifiers of the
    list being distinct, an item has as many labels as it has copies if it
    is selected, and none if it is not. *)
Theorem labels_of_every_state (es : list PrintPage.event)
    (x : ItemWithRelations) :
  let st := PrintPage.after es in
  1 <= PrintPage.copyCount st x <= 99
  /\ (In x (PrintPage.labels st) ->
      In x (PrintPage.items st)
      /\ PrintPage.has (PrintPage.selectedItems st) (PrintPage.item_sku x)
         = true)
  /\ (List.length (PrintPage.selected_items st)
      <= List.length (PrintPage.labels st)
      <= 99 * List.length (PrintPage.selected_items st))%nat
  /\ (NoDup (map PrintPage.item_sku (PrintPage.items st)) ->
      In x (PrintPage.items st) ->
      List.length
        (filter (fun y => String.eqb (PrintPage.item_sku y)
                            (PrintPage.item_sku x))
           (PrintPage.labels st))
      = if PrintPage.has (PrintPage.selectedItems st) (PrintPage.item_sku x)
        then Z.to_nat (PrintPage.copyCount st x) else 0%nat).
Proof.
  intros st. pose proof (after_copies_ok es) as H. fold st in H.
  split; [now apply copyCount_bounds|]. split; [|split].
  - unfold PrintPage.labels. intros I. apply in_flat_map in I.
    destruct I as [a [Ia Ix]].
    destruct (PrintPage.has (PrintPage.selectedItems st)
                (PrintPage.item_sku a)) eqn:S; [|contradiction].
    apply repeat_spec in Ix. subst a. now split.
  - apply (labels_length
             (fun x => PrintPage.has (PrintPage.selectedItems st)
                         (PrintPage.item_sku x))
             (PrintPage.copyCount st)).
    intros y. now apply copyCount_bounds.
  - intros ND I.
    apply (labels_of_sku
             (fun x => PrintPage.has (PrintPage.selectedItems st)
                         (PrintPage.item_sku x))
             (PrintPage.copyCount st)); assumption.
Qed.

(** X18 on two items, the first selected and asked for 150 copies. *)
Lemma labels_of_every_state_witness :
  let es := [PrintPage.Fetched [example_item 1; example_item 2];
             PrintPage.Toggle "DRBLFLMD25101701";
             PrintPage.Copies "DRBLFLMD25101701" 150] in
  NoDup (map PrintPage.item_sku (PrintPage.items (PrintPage.after es)))
  /\ In (example_item 1) (PrintPage.items (PrintPage.after es))
  /\ List.length
       (filter (fun y => String.eqb (PrintPage.item_sku y)
                           (PrintPage.item_sku (example_item 1)))
          (PrintPage.labels (PrintPage.after es))) = 99%nat.
Proof.
  intros es.
  assert (ND : NoDup (map PrintPage.item_sku
                        (PrintPage.items (PrintPage.after es)))).
  { vm_compute. repeat constructor; cbn; intuition discriminate. }
  assert (I : In (example_item 1) (PrintPage.items (PrintPage.after es)))
    by now left.
  split; [exact ND|]. split; [exact I|].
  rewrite (proj2 (proj2 (proj2 (labels_of_every_state es (example_item 1))))
             ND I).
  vm_compute. reflexivity.
Defined.

Section Selection.
Import PrintPage.

Lemma new_Set_has l y : has (new_Set l) y = existsb (String.eqb y) l.
Proof. unfold new_Set. now rewrite has_fold_add. Qed.

Lemma new_Set_NoDup l : NoDup l -> new_Set l = l.
Proof. intros ND. unfold new_Set. now rewrite fold_add_NoDup. Qed.

End Selection.

(** X19.  The check boxes of the print page and of the inventory page:
    [toggleSelect] flips the selection of one identifier and of no other,
    so that a second click undoes the first; [selectAll] selects every
    item of the list, unless the selection already has as many entries as
    the list has items, in which case it clears the selection; on a list
    of distinct identifiers a second [selectAll] therefore clears what the
    first selected. *)
Theorem selection_behaviour (st : PrintPage.State) (k y : string) :
  PrintPage.has (PrintPage.selectedItems (PrintPage.toggleSelect st k)) y
  = (if String.eqb y k
     then negb (PrintPage.has (PrintPage.selectedItems st) y)
     else PrintPage.has (PrintPage.selectedItems st) y)
  /\ PrintPage.has
       (PrintPage.selectedItems
          (PrintPage.toggleSelect (PrintPage.toggleSelect st k) k)) y
     = PrintPage.has (PrintPage.selectedItems st) y
  /\ (PrintPage.size (PrintPage.selectedItems st)
      <> List.length (PrintPage.items st) ->
      forall x, In x (PrintPage.items st) ->
                PrintPage.has (PrintPage.selectedItems (PrintPage.selectAll st))
                  (PrintPage.item_sku x) = true)
  /\ (PrintPage.size (PrintPage.selectedItems st)
      = List.length (PrintPage.items st) ->
      PrintPage.selectedItems (PrintPage.selectAll st) = [])
  /\ (NoDup (map PrintPage.item_sku (PrintPage.items st)) ->
      PrintPage.size (PrintPage.selectedItems st)
      <> List.length (PrintPage.items st) ->
      PrintPage.selectedItems (PrintPage.selectAll (PrintPage.selectAll st))
      = []).
Proof.
  assert (T : forall s z,
             PrintPage.has
               (PrintPage.selectedItems (PrintPage.toggleSelect s k)) z
             = (if String.eqb z k
                then negb (PrintPage.has (PrintPage.selectedItems s) z)
                else PrintPage.has (PrintPage.selectedItems s) z)).
  { intros s z. unfold PrintPage.toggleSelect. cbn [PrintPage.selectedItems].
    destruct (PrintPage.has (PrintPage.selectedItems s) k) eqn:Hk.
    - rewrite has_delete. destruct (String.eqb_spec z k) as [->|_]; cbn.
      + now rewrite Hk.
      + now rewrite andb_true_r.
    - rewrite has_add. destruct (String.eqb_spec z k) as [->|_]; cbn.
      + now rewrite Hk.
      + now rewrite orb_false_r. }
  split; [apply T|]. split; [|split; [|split]].
  - rewrite !T. destruct (String.eqb y k); [apply negb_involutive|reflexivity].
  - intros N x I. unfold PrintPage.selectAll. cbn [PrintPage.selectedItems].
    apply Nat.eqb_neq in N. rewrite N. rewrite new_Set_has.
    apply existsb_exists. exists (PrintPage.item_sku x).
    split; [now apply in_map | apply String.eqb_refl].
  - intros E. unfold PrintPage.selectAll. cbn [PrintPage.selectedItems].
    apply Nat.eqb_eq in E. now rewrite E.
  - intros ND N. unfold PrintPage.selectAll at 1.
    cbn [PrintPage.selectedItems PrintPage.items].
    replace (Nat.eqb
               (PrintPage.size (PrintPage.selectedItems (PrintPage.selectAll st)))
               (List.length (PrintPage.items (PrintPage.selectAll st))))
      with true; [reflexivity|].
    symmetry. apply Nat.eqb_eq. unfold PrintPage.selectAll.
    cbn [PrintPage.selectedItems PrintPage.items].
    apply Nat.eqb_neq in N. rewrite N. rewrite new_Set_NoDup by exact ND.
    unfold PrintPage.size. apply length_map.
Qed.

(** X19 on the two items of the example, none selected. *)
Lemma selection_behaviour_witness :
  let st := PrintPage.after
              [PrintPage.Fetched [example_item 1; example_item 2]] in
  NoDup (map PrintPage.item_sku (PrintPage.items st))
  /\ PrintPage.size (PrintPage.selectedItems st)
     <> List.length (PrintPage.items st)
  /\ PrintPage.selectedItems (PrintPage.selectAll st)
     = ["DRBLFLMD25101701"; "DRBLFLMD25101702"]
  /\ PrintPage.selectedItems (PrintPage.selectAll (PrintPage.selectAll st))
     = [].
Proof.
  intros st.
  assert (ND : NoDup (map PrintPage.item_sku (PrintPage.items st))).
  { vm_compute. repeat constructor; cbn; intuition discriminate. }
  assert (N : PrintPage.size (PrintPage.selectedItems st)
              <> List.length (PrintPage.items st)) by (cbn; lia).
  split; [exact ND|]. split; [exact N|]. split; [vm_compute; reflexivity|].
  exact (proj2 (proj2 (proj2 (proj2
           (selection_behaviour st EmptyString EmptyString)))) ND N).
Defined.

(* ================================================================== *)
(** ** The seed script *)

Section Seed.
Context {A : Type} `{Model A}.

Lemma upsert_keys (t : list A) r x :
  In x (keys t) -> In x (keys (upsert t r)).
Proof.
  intros I. unfold upsert. destruct (findUnique t (key r)); [exact I|].
  rewrite keys_app. apply in_or_app. now left.
Qed.

Lemma upsert_has (t : list A) r : In (key r) (keys (upsert t r)).
Proof.
  unfold upsert. destruct (findUnique t (key r)) as [x|] eqn:F.
  - apply findUnique_Some in F. destruct F as [I <-]. now apply in_map.
  - rewrite keys_app. apply in_or_app. right. now left.
Qed.

Lemma fold_upsert_keeps l : forall (t : list A) x,
  In x (keys t) -> In x (keys (fold_left upsert l t)).
Proof.
  induction l as [|r l IH]; intros t x I; cbn; [exact I|].
  apply IH. now apply upsert_keys.
Qed.

Lemma fold_upsert_has l : forall (t : list A) r,
  In r l -> In (key r) (keys (fold_left upsert l t)).
Proof.
  induction l as [|a l IH]; intros t r I; cbn; [contradiction|].
  destruct I as [->|I]; [|now apply IH].
  apply fold_upsert_keeps. apply upsert_has.
Qed.

(** Upserts of rows whose codes are all there change nothing. *)
Lemma fold_upsert_present l : forall (t : list A),
  (forall r, In r l -> In (key r) (keys t)) -> fold_left upsert l t = t.
Proof.
  induction l as [|a l IH]; intros t P; cbn; [reflexivity|].
  assert (E : upsert t a = t).
  { unfold upsert. destruct (findUnique_In _ _ (P a (or_introl eq_refl)))
      as [x ->]. reflexivity. }
  rewrite E. apply IH. intros r I. apply P. now right.
Qed.

Lemma fold_upsert_idem l (t : list A) :
  fold_left upsert l (fold_left upsert l t) = fold_left upsert l t.
Proof. apply fold_upsert_present. intros r I. now apply fold_upsert_has. Qed.

(** The rows there were stay in front, as they were. *)
Lemma fold_upsert_prefix l : forall (t : list A),
  exists new, fold_left upsert l t = (t ++ new)%list.
Proof.
  induction l as [|a l IH]; intros t; cbn.
  - exists []. now rewrite app_nil_r.
  - destruct (IH (upsert t a)) as [n E]. rewrite E. unfold upsert.
    destruct (findUnique t (key a)); [now exists n|].
    exists ([a] ++ n)%list. now rewrite app_assoc.
Qed.

End Seed.

(** X20.  The seed script can be run again at any time: it leaves every
    row that is in the code library as it is, also a row whose code is one
    of the seed's with another name, and only adds the seed's codes that are
    missing, at the end; a second run changes nothing; and it never touches
    the inventory.  On an empty library it gives the seeded database. *)
Theorem seed_is_idempotent (db : DB) :
  seed_main (seed_main db) = seed_main db
  /\ (exists t c p z,
         types (seed_main db) = (types db ++ t)%list
         /\ colors (seed_main db) = (colors db ++ c)%list
         /\ patterns (seed_main db) = (patterns db ++ p)%list
         /\ sizes (seed_main db) = (sizes db ++ z)%list)
  /\ inventory (seed_main db) = inventory db
  /\ (forall c k, In k (codes_of c seeded) -> In k (codes_of c (seed_main db)))
  /\ seed_main (mkDB [] [] [] [] (inventory db))
     = set_inventory seeded (inventory db).
Proof.
  split; [|split; [|split; [reflexivity|split]]].
  - unfold seed_main. cbn [types colors patterns sizes inventory].
    now rewrite !fold_upsert_idem.
  - unfold seed_main. cbn [types colors patterns sizes].
    destruct (fold_upsert_prefix seed_types (types db)) as [t Et].
    destruct (fold_upsert_prefix seed_colors (colors db)) as [c Ec].
    destruct (fold_upsert_prefix seed_patterns (patterns db)) as [p Ep].
    destruct (fold_upsert_prefix seed_sizes (sizes db)) as [z Ez].
    exists t, c, p, z. auto.
  - intros c k I. unfold seed_main.
    destruct c; cbn [codes_of types colors patterns sizes seeded] in *;
      unfold keys in I; apply in_map_iff in I; destruct I as [r [<- I]];
      now apply fold_upsert_has.
  - vm_compute. reflexivity.
Qed.


(* ================================================================== *)
(** ** The parts of an identifier *)

Section Parts.

Lemma substring_skip (a b : string) i n :
  substring (String.length a + i) n (a ++ b) = substring i n b.
Proof. induction a as [|c a IH]; cbn; [reflexivity | exact IH]. Qed.

Lemma substring_head (a b : string) :
  substring 0 (String.length a) (a ++ b) = a.
Proof.
  induction a as [|c a IH]; cbn; [now destruct b | now rewrite IH].
Qed.

Lemma part_at (a x b : string) i n :
  String.length a = i -> String.length x = n -> part i n (a ++ x ++ b) = x.
Proof.
  intros <- <-. unfold part.
  rewrite <- (Nat.add_0_r (String.length a)), substring_skip.
  apply substring_head.
Qed.

End Parts.

(** X21.  The sequence number as text and as number: for every number
    from 0 to 99, the text line 104 writes has two characters and
    [parseInt] of line 97 reads the number back from it; two different
    numbers are written differently. *)
Theorem sequence_number_round_trip (n m : Z) :
  0 <= n < 100 -> 0 <= m < 100 ->
  String.length (pad2 (Some n)) = 2%nat
  /\ JS.parseInt (pad2 (Some n)) = Some n
  /\ (pad2 (Some n) = pad2 (Some m) -> n = m).
Proof.
  intros Hn Hm. split; [now apply length_pad2|].
  split; [now apply parseInt_pad2|]. now apply pad2_inj.
Qed.

(** X21 on 7 and 70. *)
Lemma sequence_number_round_trip_witness :
  0 <= 7 < 100 /\ 0 <= 70 < 100
  /\ pad2 (Some 7) = "07" /\ JS.parseInt "07" = Some 7.
Proof.
  assert (H7 : 0 <= 7 < 100) by lia. assert (H70 : 0 <= 70 < 100) by lia.
  split; [exact H7|]. split; [exact H70|]. split; [reflexivity|].
  exact (proj1 (proj2 (sequence_number_round_trip 7 70 H7 H70))).
Defined.

(** X22.  The identifier can be read back: in a database that is well
    formed and has referential integrity, the characters 1-2 of the
    identifier of a row are its type code, 3-4 its color code, 5-6 its
    pattern code, 7-8 its size code, the last two its sequence number, and
    what lies between its date code. *)
Theorem identifier_reads_back (db : DB) (r : Inventory) :
  db_ok db -> fk_ok db -> In r (inventory db) ->
  part 0 2 (sku r) = typeCode r
  /\ part 2 2 (sku r) = colorCode r
  /\ part 4 2 (sku r) = patternCode r
  /\ part 6 2 (sku r) = sizeCode r
  /\ part 8 (String.length (sku r) - 10) (sku r) = dateCode r
  /\ trailing2 (sku r) = sequenceNum r.
Proof.
  intros [[_ Hrows] Hcat] F I.
  unfold fk_ok in F. rewrite Forall_forall in F, Hrows.
  destruct (F r I) as [Rt [Rc [Rp Rz]]].
  pose proof (catalog_length db Ctypes _ Hcat Rt) as Lt.
  pose proof (catalog_length db Ccolors _ Hcat Rc) as Lc.
  pose proof (catalog_length db Cpatterns _ Hcat Rp) as Lp.
  pose proof (catalog_length db Csizes _ Hcat Rz) as Lz.
  pose proof (trailing2_sku r (Hrows r I)) as T.
  destruct (Hrows r I) as [Hs [n [Hn En]]].
  assert (Ln : String.length (sequenceNum r) = 2%nat)
    by (rewrite En; apply length_pad2; lia).
  assert (Len : String.length (sku r)
                = (String.length (dateCode r) + 10)%nat).
  { rewrite Hs. unfold allocationKey. rewrite !length_append. lia. }
  rewrite Len. replace (String.length (dateCode r) + 10 - 10)%nat
    with (String.length (dateCode r)) by lia.
  rewrite Hs at 1 2 3 4 5. unfold allocationKey.
  set (t := typeCode r) in *. set (c := colorCode r) in *.
  set (p := patternCode r) in *. set (z := sizeCode r) in *.
  set (d := dateCode r) in *. set (q := sequenceNum r) in *.
  repeat split.
  - replace ((t ++ c ++ p ++ z ++ d) ++ q)
      with (EmptyString ++ t ++ (c ++ p ++ z ++ d ++ q))
      by (cbn; now rewrite !append_assoc).
    now apply part_at.
  - replace ((t ++ c ++ p ++ z ++ d) ++ q)
      with (t ++ c ++ (p ++ z ++ d ++ q)) by now rewrite !append_assoc.
    now apply part_at.
  - replace ((t ++ c ++ p ++ z ++ d) ++ q)
      with ((t ++ c) ++ p ++ (z ++ d ++ q)) by now rewrite !append_assoc.
    apply part_at; [rewrite length_append; lia | exact Lp].
  - replace ((t ++ c ++ p ++ z ++ d) ++ q)
      with ((t ++ c ++ p) ++ z ++ (d ++ q)) by now rewrite !append_assoc.
    apply part_at; [rewrite !length_append; lia | exact Lz].
  - replace ((t ++ c ++ p ++ z ++ d) ++ q)
      with ((t ++ c ++ p ++ z) ++ d ++ q) by now rewrite !append_assoc.
    apply part_at; [rewrite !length_append; lia | reflexivity].
  - exact T.
Qed.

(** X22 on the first row of the example. *)
Lemma identifier_reads_back_witness :
  db_ok (seeded_with [1]) /\ fk_ok (seeded_with [1])
  /\ In (example_row 1) (inventory (seeded_with [1]))
  /\ sku (example_row 1) = "DRBLFLMD25101701"
  /\ part 8 (String.length (sku (example_row 1)) - 10) (sku (example_row 1))
     = dateCode (example_row 1).
Proof.
  assert (Hok : db_ok (seeded_with [1])).
  { split; [|exact (proj2 seeded_ok)]. split.
    - repeat constructor. intros [].
    - repeat constructor. exists 1. split; [lia | reflexivity]. }
  assert (F : fk_ok (seeded_with [1])) by apply seeded_with_fk_ok.
  assert (I : In (example_row 1) (inventory (seeded_with [1]))) by now left.
  split; [exact Hok|]. split; [exact F|]. split; [exact I|].
  split; [reflexivity|].
  exact (proj1 (proj2 (proj2 (proj2 (proj2
           (identifier_reads_back (seeded_with [1]) (example_row 1)
              Hok F I)))))).
Defined.

(* ================================================================== *)
(** ** Keys do not interfere *)

Section Independence.
Variable tz : Z.

Lemma prefix_same_length (k' k s : string) :
  String.prefix k' (k ++ s) = true -> String.length k' = String.length k ->
  k' = k.
Proof.
  revert k. induction k' as [|c k' IH]; intros [|d k] P L; cbn in *;
    try discriminate; [reflexivity|].
  destruct (ascii_dec c d) as [->|_]; [|discriminate].
  f_equal. apply IH; [exact P | lia].
Qed.

Lemma findUnique_snoc_other {A} `{Model A} (t : list A) r k :
  key r <> k -> findUnique (t ++ [r]) k = findUnique t k.
Proof.
  intros N. unfold findUnique. induction t as [|x t IH]; cbn.
  - destruct (String.eqb_spec (key r) k); [contradiction | reflexivity].
  - destruct (String.eqb (key x) k); [reflexivity | exact IH].
Qed.

End Independence.

(** On SQLite a key in another letter case shares the numbers: once the
    color "bl" is in the library beside "BL", the first dress in "bl" of a
    day that has a dress in "BL" is given the number 02. *)
Example keys_in_another_case_share_numbers :
  returned_all 0 seeded
    [AddCode "colors" (mkCodeBody "bl" "blue" None "");
     Allocate example_body; Allocate (with_codes "DR" "bl")]
  = ["DRBLFLMD25101701"; "DRblFLMD25101702"].
Proof. vm_compute. reflexivity. Qed.

(** X23.  Allocation keys of the same length that differ by more than the
    case of their letters do not interfere: after an allocation under one
    key, a request under such another key, which has no wildcard of
    [LIKE], finds the same rows and is answered exactly as it would have
    been before, with the same row and the same sequence number. *)
Theorem other_keys_are_untouched (tz : Z) (db db' : DB)
    (b b' : InventoryBody) (st : Z) (item : Inventory) :
  POST_inventory tz db b = (db', Json st item) ->
  String.length (baseKey tz b') = String.length (baseKey tz b) ->
  plain (baseKey tz b') = true ->
  SQLite.fold_case (baseKey tz b') <> SQLite.fold_case (baseKey tz b) ->
  existingItems (baseKey tz b') db' = existingItems (baseKey tz b') db
  /\ snd (POST_inventory tz db' b') = snd (POST_inventory tz db b').
Proof.
  intros P L Pl N. apply POST_inventory_created in P.
  destruct P as [_ [Pp [-> Nf]]]. apply POST_prepare_inl in Pp.
  destruct Pp as [_ [_ [Hs _]]].
  assert (Np : startsWith (baseKey tz b') (sku item) = false).
  { rewrite (startsWith_plain _ _ Pl).
    destruct (String.prefix (SQLite.fold_case (baseKey tz b'))
                (SQLite.fold_case (sku item))) eqn:Pf; [|reflexivity].
    rewrite Hs, fold_case_append in Pf.
    apply prefix_same_length in Pf; [contradiction|].
    now rewrite !length_fold_case. }
  assert (Ex : existingItems (baseKey tz b')
                 (set_inventory db (inventory db ++ [item]))
               = existingItems (baseKey tz b') db).
  { unfold existingItems. cbn [inventory set_inventory].
    rewrite filter_app. cbn [filter]. rewrite Np. apply app_nil_r. }
  split; [exact Ex|].
  assert (Eprep : POST_prepare tz (set_inventory db (inventory db ++ [item])) b'
                  = POST_prepare tz db b').
  { unfold POST_prepare. rewrite Ex. reflexivity. }
  unfold POST_inventory. rewrite Eprep.
  destruct (POST_prepare tz db b') as [data|[s e]] eqn:Pb; [|reflexivity].
  apply POST_prepare_inl in Pb. destruct Pb as [_ [_ [Hs' _]]].
  assert (Nd : sku item <> sku data).
  { intros E. rewrite E, Hs', startsWith_refl_append in Np. discriminate. }
  unfold POST_commit, inventory_create.
  cbn [types colors patterns sizes inventory set_inventory].
  destruct (purchaseDate data); [|reflexivity].
  destruct (findUnique (types db) _); [|reflexivity].
  destruct (findUnique (colors db) _); [|reflexivity].
  destruct (findUnique (patterns db) _); [|reflexivity].
  destruct (findUnique (sizes db) _); [|reflexivity].
  unfold create.
  pose proof (@findUnique_snoc_other Inventory Inventory_Model
                (inventory db) item (sku data) Nd) as R.
  change (key data) with (sku data). rewrite R.
  now destruct (findUnique (inventory db) (sku data)).
Qed.

(** X23 on the example and the same item in another color. *)
Lemma other_keys_are_untouched_witness :
  POST_inventory 0 seeded example_body
  = (seeded_with [1], Json 201 (example_row 1))
  /\ String.length (baseKey 0 (with_codes "DR" "RD"))
     = String.length (baseKey 0 example_body)
  /\ plain (baseKey 0 (with_codes "DR" "RD")) = true
  /\ SQLite.fold_case (baseKey 0 (with_codes "DR" "RD"))
     <> SQLite.fold_case (baseKey 0 example_body)
  /\ snd (POST_inventory 0 (seeded_with [1]) (with_codes "DR" "RD"))
     = snd (POST_inventory 0 seeded (with_codes "DR" "RD")).
Proof.
  assert (P : POST_inventory 0 seeded example_body
              = (seeded_with [1], Json 201 (example_row 1)))
    by (vm_compute; reflexivity).
  assert (L : String.length (baseKey 0 (with_codes "DR" "RD"))
              = String.length (baseKey 0 example_body))
    by (vm_compute; reflexivity).
  assert (Pl : plain (baseKey 0 (with_codes "DR" "RD")) = true)
    by (vm_compute; reflexivity).
  assert (N : SQLite.fold_case (baseKey 0 (with_codes "DR" "RD"))
              <> SQLite.fold_case (baseKey 0 example_body))
    by (vm_compute; discriminate).
  split; [exact P|]. split; [exact L|]. split; [exact Pl|].
  split; [exact N|].
  exact (proj2 (other_keys_are_untouched 0 seeded (seeded_with [1])
                  example_body (with_codes "DR" "RD") 201 (example_row 1)
                  P L Pl N)).
Defined.
